(** * qcli / pyqi: the parameter-to-option binding and invocation pipeline

    A shallow embedding of [src/pyqi/core/interface.py] (the generic
    [Interface] and [InterfaceOption]) and of [src/qcli/interface/cli.py]
    (the command line front-end: [CLOption], [ParameterConversion],
    [CLInterface], [new_filepath]).

    Conventions of the embedding:
    - a Python value is a [pyval]; [PyNone] is Python's [None];
    - a call that may raise returns a [res]; a method that also mutates
      [self] or prints is a function in the state-and-error monad [M];
    - a [dict] that is only looked up is a [gmap]; a [dict] that the code
      iterates over is the list of its items, in iteration order;
    - a Python class is a [Module]; methods keep their Python names. *)

From Stdlib Require Import ZArith Ascii String DecimalString List.
From stdpp Require Import base gmap strings list fin_maps sorting.
Import ListNotations.

Local Open Scope string_scope.
Local Open Scope Z_scope.

(* ===================================================================== *)
(** * Python values, exceptions and results                               *)
(* ===================================================================== *)

(** The builtin type objects that the sources mention ([float], [int],
    [str]) and two more, so that "some other type object" has members. *)
Inductive pytype := TyFloat | TyInt | TyStr | TyBool | TyList.

Inductive pyval :=
| PyNone
| PyBool (b : bool)
| PyInt (z : Z)
| PyStr (s : string)
| PyType (t : pytype).

#[global] Instance pytype_eq_dec : EqDecision pytype.
Proof. solve_decision. Defined.

#[global] Instance pyval_eq_dec : EqDecision pyval.
Proof. solve_decision. Defined.

(** Python's [==] on these values: structural, except that [bool] is a
    subclass of [int] ([True == 1], [False == 0]). *)
Definition py_eqb (a b : pyval) : bool :=
  match a, b with
  | PyBool x, PyInt z | PyInt z, PyBool x => Z.eqb (Z.b2z x) z
  | _, _ => bool_decide (a = b)
  end.

(** [v is None] *)
Definition is_None (v : pyval) : bool :=
  match v with PyNone => true | _ => false end.

(** [x in set([...])]: membership by [==]. *)
Definition py_in (x : pyval) (s : list pyval) : bool := existsb (py_eqb x) s.

(** The exceptions the two modules raise or let through. [SystemExit] is
    what [sys.exit(status)] raises, hence what [OptionParser.exit] and
    [OptionParser.error] end in. *)
Inductive exc :=
| IncompetentDeveloperError (msg : string)
| NotImplementedError (msg : string)
| IOError (msg : string)
| KeyError (key : string)
| AttributeError (name : string)
| SystemExit (status : Z)
| OtherError (msg : string).

Inductive res (A : Type) :=
| Ok (a : A)
| Raise (e : exc).
Arguments Ok {A} a.
Arguments Raise {A} e.

Definition is_Ok {A} (r : res A) : bool :=
  match r with Ok _ => true | Raise _ => false end.

(** [True] exactly for the configuration errors of the specification,
    that is for [IncompetentDeveloperError]. *)
Definition is_configuration_error {A} (r : res A) : bool :=
  match r with Raise (IncompetentDeveloperError _) => true | _ => false end.

(** The state-and-error monad: [S] is whatever the code mutates. An
    exception keeps the state reached when it was raised. *)
Definition M (S A : Type) : Type := S -> res A * S.

Definition ret {S A} (a : A) : M S A := fun s => (Ok a, s).
Definition raise {S A} (e : exc) : M S A := fun s => (Raise e, s).
Definition bind {S A B} (m : M S A) (k : A -> M S B) : M S B :=
  fun s => match m s with
           | (Ok a, s') => k a s'
           | (Raise e, s') => (Raise e, s')
           end.
Definition get {S} : M S S := fun s => (Ok s, s).
Definition modify {S} (f : S -> S) : M S unit := fun s => (Ok tt, f s).
Definition lift {S A} (r : res A) : M S A := fun s => (r, s).

Declare Scope py_scope.
Delimit Scope py_scope with py.
Notation "x <- m ;; k" := (bind m (fun x => k))
  (at level 100, m at next level, right associativity) : py_scope.
Notation "m ;;; k" := (bind m (fun _ => k))
  (at level 100, right associativity) : py_scope.

(** [for x in l: body(x)] *)
Fixpoint for_each {S A} (l : list A) (body : A -> M S unit) : M S unit :=
  match l with
  | [] => ret tt
  | x :: l' => bind (body x) (fun _ => for_each l' body)
  end.

(* ===================================================================== *)
(** * The string methods the sources use                                  *)
(* ===================================================================== *)

Definition nl : string := String (ascii_of_nat 10) EmptyString.

(** [sep.join(l)] *)
Fixpoint join (sep : string) (l : list string) : string :=
  match l with
  | [] => ""
  | [x] => x
  | x :: l' => x ++ sep ++ join sep l'
  end.

Fixpoint lstrip (drop : ascii -> bool) (s : string) : string :=
  match s with
  | EmptyString => EmptyString
  | String c r => if drop c then lstrip drop r else s
  end.

Definition rstrip (drop : ascii -> bool) (s : string) : string :=
  String.rev (lstrip drop (String.rev s)).

Definition strip_by (drop : ascii -> bool) (s : string) : string :=
  rstrip drop (lstrip drop s).

(** The characters [str.strip()] removes: space, tab, newline, vertical
    tab, form feed, carriage return. *)
Definition is_space (c : ascii) : bool :=
  let n := nat_of_ascii c in
  (Nat.eqb n 32 || (Nat.leb 9 n && Nat.leb n 13))%bool.

(** [s.strip()] *)
Definition strip (s : string) : string := strip_by is_space s.

(** [s.strip(':')] *)
Definition strip_colon (s : string) : string :=
  strip_by (fun c => Ascii.eqb c ":"%char) s.

Definition upper_char (c : ascii) : ascii :=
  let n := nat_of_ascii c in
  if (Nat.leb 97 n && Nat.leb n 122)%bool then ascii_of_nat (n - 32) else c.

(** [s.upper()] *)
Fixpoint upper (s : string) : string :=
  match s with
  | EmptyString => EmptyString
  | String c r => String (upper_char c) (upper r)
  end.

(** [s.replace(old, new)] for one-character [old] and [new]. *)
Fixpoint replace_char (old new : ascii) (s : string) : string :=
  match s with
  | EmptyString => EmptyString
  | String c r =>
      String (if Ascii.eqb c old then new else c) (replace_char old new r)
  end.

(** [s.endswith(suffix)] *)
Definition endswith (suffix s : string) : bool :=
  String.prefix (String.rev suffix) (String.rev s).

(** [s.startswith(p)] *)
Definition startswith (p s : string) : bool := String.prefix p s.

(** ['%s' % d] for a value that is a string or [None]. *)
Definition fmt_opt (d : option string) : string :=
  match d with Some s => s | None => "None" end.

Definition type_name (t : pytype) : string :=
  match t with
  | TyFloat => "float" | TyInt => "int" | TyStr => "str"
  | TyBool => "bool" | TyList => "list"
  end.

(** ['%s' % v], that is [str(v)]. *)
Definition py_str (v : pyval) : string :=
  match v with
  | PyNone => "None"
  | PyBool true => "True"
  | PyBool false => "False"
  | PyInt z => NilZero.string_of_int (Z.to_int z)
  | PyStr s => s
  | PyType t => "<type '" ++ type_name t ++ "'>"
  end.

(** The error monad alone, for code that raises but mutates nothing. *)
Definition rbind {A B} (r : res A) (k : A -> res B) : res B :=
  match r with Ok a => k a | Raise e => Raise e end.

Notation "x <~ r ;; k" := (rbind r (fun x => k))
  (at level 100, r at next level, right associativity) : py_scope.
Notation "r ~;; k" := (rbind r (fun _ => k))
  (at level 100, right associativity) : py_scope.

Local Open Scope py_scope.

(* ===================================================================== *)
(** * src/pyqi/core/interface.py                                          *)
(* ===================================================================== *)

(** What [InterfaceOption] reads of a [pyqi.core.command.Parameter]: the
    attributes [Name], [Description], [Required], [Default] and
    [DefaultDescription]. The class itself is not part of the sources;
    only these attribute reads are. ([Parameter] is a reserved word of
    Rocq: the module is [CommandParameter], and the attribute
    [self.Parameter] of an option is [Parameter_].) *)
Module CommandParameter.
Record t := mk {
  Name : string;
  Description : string;
  Required : bool;
  Default : pyval;
  DefaultDescription : option string
}.
End CommandParameter.

Module InterfaceOption.

(** The attributes [__init__] sets on [self]. *)
Record t := mk {
  Parameter_ : option CommandParameter.t;
  Name : string;
  Help : string;
  Required : bool;
  Default : pyval;
  DefaultDescription : option string;
  InputType : pyval;
  InputAction : pyval;
  InputHandler : option (pyval -> res pyval);
  ShortName : option string
}.

(** The keyword arguments of [__init__]; [None] stands for Python's
    [None] where the argument is a string, [PyNone] where it is any
    value. [defaults] are the defaults of the signature. *)
Record args := mk_args {
  a_Parameter : option CommandParameter.t;
  a_InputType : pyval;
  a_InputAction : pyval;
  a_InputHandler : option (pyval -> res pyval);
  a_ShortName : option string;
  a_Name : option string;
  a_Required : bool;
  a_Help : option string;
  a_Default : pyval;
  a_DefaultDescription : option string;
  a_convert_to_dashed_name : bool
}.

Definition defaults : args :=
  {| a_Parameter := None; a_InputType := PyNone; a_InputAction := PyNone;
     a_InputHandler := None; a_ShortName := None; a_Name := None;
     a_Required := false; a_Help := None; a_Default := PyNone;
     a_DefaultDescription := None; a_convert_to_dashed_name := true |}.

(** [x if y is None else y] on optional strings and on values. *)
Definition unless_overridden {A} (inherited : A) (override : option A) : A :=
  match override with None => inherited | Some y => y end.

Definition unless_overridden_val (inherited override : pyval) : pyval :=
  if is_None override then inherited else override.

(** Lines 141-169: the attributes as set before the checks. *)
Definition transfer (a : args) : res t :=
  match a_Parameter a with
  | None =>
      match a_Name a with
      | None => Raise (IncompetentDeveloperError
          "Must specify a Name for the InterfaceOption since it doesn't have a Parameter.")
      | Some name =>
          match a_Help a with
          | None => Raise (IncompetentDeveloperError
              "Must specify Help for the InterfaceOption since it doesn't have a Parameter.")
          | Some help =>
              Ok {| Parameter_ := None; Name := name; Help := help;
                    Required := a_Required a; Default := a_Default a;
                    DefaultDescription := a_DefaultDescription a;
                    InputType := a_InputType a; InputAction := a_InputAction a;
                    InputHandler := a_InputHandler a;
                    ShortName := a_ShortName a |}
          end
      end
  | Some p =>
      Ok {| Parameter_ := Some p;
            Name := unless_overridden (CommandParameter.Name p) (a_Name a);
            Help := unless_overridden (CommandParameter.Description p) (a_Help a);
            Default := unless_overridden_val (CommandParameter.Default p) (a_Default a);
            DefaultDescription :=
              match a_DefaultDescription a with
              | None => CommandParameter.DefaultDescription p
              | Some d => Some d
              end;
            Required :=
              if (negb (CommandParameter.Required p) && a_Required a)%bool
              then true
              else CommandParameter.Required p;
            InputType := a_InputType a; InputAction := a_InputAction a;
            InputHandler := a_InputHandler a;
            ShortName := a_ShortName a |}
  end.

Definition set_Name (n : string) (o : t) : t :=
  {| Parameter_ := Parameter_ o; Name := n; Help := Help o;
     Required := Required o; Default := Default o;
     DefaultDescription := DefaultDescription o;
     InputType := InputType o; InputAction := InputAction o;
     InputHandler := InputHandler o; ShortName := ShortName o |}.

Definition required_with_default_msg (o : t) : string :=
  "Found required option '" ++ Name o ++ "' with default value '" ++
  py_str (Default o) ++ "'. Required options cannot have default values.".

Section Init.

(** [_validate_option] is the subclass's; in [InterfaceOption] itself it
    raises [NotImplementedError] (see [base_validate_option]). *)
Variable _validate_option : t -> res unit.

Definition __init__ (a : args) : res t :=
  o <~ transfer a ;;
  let o := if a_convert_to_dashed_name a
           then set_Name (replace_char "_" "-" (Name o)) o
           else o in
  if (Required o && negb (is_None (Default o)))%bool
  then Raise (IncompetentDeveloperError (required_with_default_msg o))
  else
    _validate_option o ~;;
    Ok o.

End Init.

Definition base_validate_option (_ : t) : res unit :=
  Raise (NotImplementedError "Must define in the subclass").

Definition getParameterName (o : t) : option string :=
  match Parameter_ o with
  | None => None
  | Some p => Some (CommandParameter.Name p)
  end.

End InterfaceOption.

Module InterfaceUsageExample.
Record t := mk { ShortDesc : string; LongDesc : string; Ex : string }.
End InterfaceUsageExample.

Module Interface.

Definition duplicate_binding_msg : string :=
  "Found more than one InterfaceOption mapping to the same Parameter.".

(** [[i.getParameterName() for i in inputs
      if i.getParameterName() is not None]] *)
Definition param_names (inputs : list InterfaceOption.t) : list string :=
  omap InterfaceOption.getParameterName inputs.

(** [set(param_names)] is a [gset]; [len] of it is [size]. *)
Definition _validate_inputs (inputs : list InterfaceOption.t) : res unit :=
  let names := param_names inputs in
  if bool_decide (length names ≠ size (list_to_set names : gset string))
  then Raise (IncompetentDeveloperError duplicate_binding_msg)
  else Ok tt.

Definition _validate_usage_examples
    (usage_examples : list InterfaceUsageExample.t) : res unit := Ok tt.

Definition _validate_outputs {R} (outputs : list R) : res unit := Ok tt.

Section Construction.

Context {Cmd Kw R : Type}.

(** The class attribute [CommandConstructor] ([None] in [Interface]
    itself) and the three [_get_*] methods of the subclass. *)
Variable CommandConstructor : option (Kw -> res Cmd).
Variable _get_usage_examples : res (list InterfaceUsageExample.t).
Variable _get_inputs : res (list InterfaceOption.t).
Variable _get_outputs : res (list R).

(** The object exists for the caller only when [__init__] returns: a
    raise leaves no instance behind. *)
Record t := mk { CmdInstance : Cmd }.

Definition __init__ (kwargs : Kw) : res t :=
  match CommandConstructor with
  | None => Raise (IncompetentDeveloperError
      "Cannot construct an Interface without a CommandConstructor.")
  | Some ctor =>
      cmd <~ ctor kwargs ;;
      ue <~ _get_usage_examples ;;
      _validate_usage_examples ue ~;;
      inputs <~ _get_inputs ;;
      _validate_inputs inputs ~;;
      outputs <~ _get_outputs ;;
      _validate_outputs outputs ~;;
      Ok {| CmdInstance := cmd |}
  end.

End Construction.

Section Call.

Context {S In Kw Res Out : Type}.

Variable _the_in_validator : In -> M S unit.
Variable _input_handler : In -> M S Kw.
Variable CmdInstance : Kw -> M S Res.
Variable _output_handler : Res -> M S Out.

Definition __call__ (in_ : In) : M S Out :=
  _the_in_validator in_ ;;;
  cmd_input <- _input_handler in_ ;;
  results <- CmdInstance cmd_input ;;
  _output_handler results.

End Call.

End Interface.

(* ===================================================================== *)
(** * src/qcli/interface/cli.py                                           *)
(* ===================================================================== *)

(** [CLTypes] and [CLActions], lines 28-30. The set of types holds eight
    strings-or-[None] and the three type objects [float], [int], [str]. *)
Definition CLTypes : list pyval :=
  [PyStr "float"; PyStr "int"; PyStr "string"; PyStr "existing_filepath";
   PyType TyFloat; PyType TyInt; PyType TyStr; PyNone;
   PyStr "new_filepath"; PyStr "new_dirpath"; PyStr "existing_dirpath"].

Definition CLActions : list pyval :=
  [PyStr "store"; PyStr "store_true"; PyStr "store_false"; PyStr "append"].

(** ** The file system seen by [new_filepath]

    A name space of paths: a path names a file with its contents, a
    directory, or nothing. [open(path, 'w')] creates the file or empties
    it, unless the operating system refuses: the directory the path
    lies in is missing, the permissions do not allow it, and so on.
    Which paths are refused is not for this program to say, so it is a
    parameter: [refusal fs path] is the message of the [IOError] that
    [open] raises, if it raises one. What [write] hands over reaches the
    file when it is closed. *)
Inductive node := File (content : string) | Dir.

Module FS.

Record file_object := mk_file { f_path : string; f_buffer : string }.

(** [os.path.exists(path)] *)
Definition exists_ (path : string) : M (gmap string node) bool :=
  fun fs => (Ok (bool_decide (is_Some (fs !! path))), fs).

Section WithOperatingSystem.

Variable refusal : gmap string node -> string -> option string.

(** [open(path, 'w')]: a refused [open] changes nothing. *)
Definition open_w (path : string) : M (gmap string node) file_object :=
  fun fs =>
    match refusal fs path with
    | Some msg => (Raise (IOError msg), fs)
    | None =>
        match fs !! path with
        | Some Dir => (Raise (IOError ("Is a directory: " ++ path)), fs)
        | _ => (Ok {| f_path := path; f_buffer := "" |},
                <[path := File ""]> fs)
        end
    end.

End WithOperatingSystem.

(** [f.write(data)]: the file object with the data in its buffer. *)
Definition write (f : file_object) (data : string)
  : M (gmap string node) file_object :=
  ret {| f_path := f_path f; f_buffer := f_buffer f ++ data |}.

(** [f.close()] *)
Definition close (f : file_object) : M (gmap string node) unit :=
  modify (fun fs =>
    match fs !! f_path f with
    | Some (File c) => <[f_path f := File (c ++ f_buffer f)]> fs
    | _ => fs
    end).

End FS.

(** Lines 32-37, on an operating system with the given refusals. *)
Definition new_filepath (refusal : gmap string node -> string -> option string)
    (data path : string) : M (gmap string node) unit :=
  there <- FS.exists_ path ;;
  if there
  then raise (IOError ("Output path " ++ path ++ " already exists."))
  else
    f <- FS.open_w refusal path ;;
    f <- FS.write f data ;;
    FS.close f.

Module OutputHandler.
(** [Function] is called with the result name, the result and, when the
    handler is tied to an option, that option's value; what it does is
    its own business, it may raise. *)
Record t := mk {
  OptionName : option string;
  Function : string -> pyval -> option pyval -> res unit
}.
End OutputHandler.

(** What [make_option] is given. The attribute [dest] of the option it
    returns is the library's: see [WithOptionParsing] below. *)
Module OptparseOption.
Record t := mk {
  opt_strings : list string;
  type : pyval;
  help : string;
  default : option pyval
}.
End OptparseOption.

Module CLOption.

(** The attributes of a [CLOption]: those [__init__] sets itself and
    those it hands to [Parameter.__init__]. *)
Record t := mk {
  Type_ : pyval;
  Help : string;
  Name : string;
  Required : bool;
  Default : pyval;
  DefaultDescription : option string;
  LongName : string;
  CLType : pyval;
  CLAction : pyval;
  ShortName : option string;
  ResultName : option string
}.

Definition __str__ (self : t) : string :=
  match ShortName self with
  | None => "--" ++ LongName self
  | Some short => "-" ++ short ++ "/--" ++ LongName self
  end.

Definition option_strings (self : t) : list string :=
  match ShortName self with
  | None => ["--" ++ LongName self]
  | Some short => ["-" ++ short; "--" ++ LongName self]
  end.

Definition getOptparseOption (self : t) : OptparseOption.t :=
  if Required self then
    let help_text := Help self in
    let help_text :=
      if negb (endswith "[REQUIRED]" (strip help_text))
      then help_text ++ " [REQUIRED]" else help_text in
    {| OptparseOption.opt_strings := option_strings self;
       OptparseOption.type := CLType self;
       OptparseOption.help := help_text;
       OptparseOption.default := None |}
  else
    let help_text :=
      Help self ++ " [default: " ++ fmt_opt (DefaultDescription self) ++ "]" in
    {| OptparseOption.opt_strings := option_strings self;
       OptparseOption.type := CLType self;
       OptparseOption.help := help_text;
       OptparseOption.default := Some (Default self) |}.

End CLOption.

Module UsageExample.
Record t := mk { ShortDesc : string; LongDesc : string; Ex : string }.
End UsageExample.

Module ParameterConversion.

Record t := mk {
  ShortName : option string;
  LongName : string;
  CLType : pyval;
  CLAction : pyval;
  InHandler : option (pyval -> res pyval)
}.

(** Lines 128-139. *)
Definition __init__ (LongName : string) (CLType : pyval) (CLAction : pyval)
    (InHandler : option (pyval -> res pyval)) (ShortName : option string)
  : res t :=
  if negb (py_in CLType CLTypes)
  then Raise (IncompetentDeveloperError
                ("Invalid CLType specified: " ++ py_str CLType))
  else if (negb (is_None CLAction) && negb (py_in CLAction CLActions))%bool
  then Raise (IncompetentDeveloperError
                ("Invalid CLAction specified: " ++ py_str CLAction))
  else Ok {| ShortName := ShortName; LongName := LongName;
             CLType := CLType; CLAction := CLAction;
             InHandler := InHandler |}.

End ParameterConversion.

(** A command, as the interface uses it: [self.CmdInstance.LongDescription]
    and the call of [self.CmdInstance] with keyword arguments, from a mapping of
    parameter names to a mapping of result names. *)
Module Command.
Record t := mk {
  LongDescription : string;
  run : gmap string pyval -> res (gmap string pyval)
}.
End Command.

(** What an invocation does that can be observed from outside, in order. *)
Inductive event :=
| EPrintUsage (to_stderr : bool) (usage : string)
    (** the parser prints its usage text, [print_usage] *)
| EParserError (msg : string)
    (** the parser writes [<prog>: error: <msg>] on standard error *)
| ELibrary (text : string)
    (** something [parse_args] printed itself: help, version, its errors *)
| ECommand (kwargs : gmap string pyval)
    (** the command is called with these keyword arguments *)
| EHandler (key : string) (value : pyval) (opt_value : option pyval).
    (** an output handler's function is called with these arguments *)

Definition is_ECommand (e : event) : bool :=
  match e with ECommand _ => true | _ => false end.

(** The parser object as [_input_handler] builds it. *)
Module OptionParser.
Record group := mk_group {
  title : string;
  description : string;
  group_option_list : list OptparseOption.t
}.
Record t := mk {
  usage : string;
  version : string;
  option_groups : list group;
  option_list : list OptparseOption.t
}.
End OptionParser.

(** [dict.update] and [d[k] = v] on a dictionary kept as its items. *)
Fixpoint dict_set {V} (k : string) (v : V) (d : list (string * V))
  : list (string * V) :=
  match d with
  | [] => [(k, v)]
  | (k', v') :: d' =>
      if String.eqb k k' then (k, v) :: d' else (k', v') :: dict_set k v d'
  end.

Definition dict_update {V} (d new : list (string * V)) : list (string * V) :=
  fold_left (fun d kv => dict_set (fst kv) (snd kv) d) new d.

(** The argument of [Interface.__call__]: a list of strings; a tuple,
    given by the [repr] of each of its items; or anything else, of which
    only [repr] is used. A tuple is told apart because the [%] operator
    takes a tuple on its right as the sequence of the values to format,
    not as one value. *)
Inductive cli_input :=
| InList (argv : list string)
| InTuple (items : list string)
| InOther (repr : string).

Module CLInterface.

Definition OptionalInputLine : string :=
  "[] indicates optional input (order unimportant)".
Definition RequiredInputLine : string :=
  "{} indicates required input (order unimportant)".
Definition __version__ : string := "0.1.0-dev".

(** The instance. [Options], [UsageExamples], [ParameterConversionInfo],
    the output map and the two class attributes are set at construction;
    [BelovedFunctionality] is assigned by [_input_handler]. *)
Record t := mk {
  CmdInstance : Command.t;
  Options : list CLOption.t;
  UsageExamples : list UsageExample.t;
  ParameterConversionInfo : list (string * ParameterConversion.t);
  output_map : list (string * OutputHandler.t);
  DisallowPositionalArguments : bool;
  HelpOnNoArguments : bool;
  BelovedFunctionality : gmap string pyval
}.

Definition set_BelovedFunctionality (bf : gmap string pyval) (self : t) : t :=
  {| CmdInstance := CmdInstance self; Options := Options self;
     UsageExamples := UsageExamples self;
     ParameterConversionInfo := ParameterConversionInfo self;
     output_map := output_map self;
     DisallowPositionalArguments := DisallowPositionalArguments self;
     HelpOnNoArguments := HelpOnNoArguments self;
     BelovedFunctionality := bf |}.

(** Everything of the instance but [BelovedFunctionality]. *)
Definition same_configuration (a b : t) : Prop :=
  set_BelovedFunctionality ∅ a = set_BelovedFunctionality ∅ b.

(** What a method can change: the instance and the output so far. *)
Record world := mk_world { self_ : t; out : list event }.

Definition get_self : M world t := fun w => (Ok (self_ w), w).
Definition assign_BelovedFunctionality (bf : gmap string pyval) : M world unit :=
  modify (fun w => {| self_ := set_BelovedFunctionality bf (self_ w);
                      out := out w |}).
Definition emit (e : event) : M world unit :=
  modify (fun w => {| self_ := self_ w; out := out w ++ [e] |}).

(** [OptionParser.print_usage], [exit] and [error], as [optparse] has
    them: [error] prints the usage on standard error, then the message,
    and exits with status 2. *)
Definition print_usage (parser : OptionParser.t) : M world unit :=
  emit (EPrintUsage false (OptionParser.usage parser)).

Definition parser_exit {A} (status : Z) : M world A :=
  raise (SystemExit status).

Definition parser_error {A} (parser : OptionParser.t) (msg : string)
  : M world A :=
  emit (EPrintUsage true (OptionParser.usage parser)) ;;;
  emit (EParserError msg) ;;;
  parser_exit 2.

(** Lines 186-190. The message is built with [% in_] and one [%r]: a
    tuple of one item formats that item, and a tuple of any other length
    makes the formatting itself raise [TypeError] (not enough arguments,
    or not all arguments converted), before the error is constructed. *)
Definition _the_in_validator (in_ : cli_input) : M world unit :=
  match in_ with
  | InList _ => ret tt
  | InTuple [item] => raise (IncompetentDeveloperError
      ("Unsupported input '" ++ item ++ "'. Input must be a list."))
  | InTuple _ => raise (OtherError "TypeError")
  | InOther r => raise (IncompetentDeveloperError
      ("Unsupported input '" ++ r ++ "'. Input must be a list."))
  end.

(** Lines 274-285: one usage example, formatted. *)
Definition format_usage_example (usage_example : UsageExample.t) : string :=
  let short_description :=
    strip (strip_colon (UsageExample.ShortDesc usage_example)) in
  let long_description :=
    strip (strip_colon (UsageExample.LongDesc usage_example)) in
  let example := strip (UsageExample.Ex usage_example) in
  if negb (String.eqb short_description "")
  then short_description ++ ": " ++ long_description ++ nl ++ " " ++ example
  else long_description ++ nl ++ " " ++ example.

(** Lines 267-301. *)
Definition _build_usage_lines (self : t) (required_options : list CLOption.t)
  : string :=
  let line1 :=
    "usage: %prog [options] " ++
    "{" ++ join " " (map (fun rp => CLOption.__str__ rp ++ " " ++
                                    upper (CLOption.Name rp))
                         required_options) ++ "}" in
  let formatted_usage_examples :=
    join (nl ++ nl) (map format_usage_example (UsageExamples self)) in
  let lines :=
    [line1;
     "";
     OptionalInputLine;
     RequiredInputLine;
     "";
     Command.LongDescription (CmdInstance self);
     "";
     "Example usage: ";
     "Print help message and exit";
     " %prog -h" ++ nl;
     formatted_usage_examples] in
  join nl lines.

Definition positional_msg (first : string) : string :=
  "Positional argument detected: " ++ first ++ nl ++
  " Be sure all parameters are identified by their option name." ++ nl ++
  " (e.g.: include the '-i' in '-i INPUT_DIR')".

Definition required_omitted_msg (required_option_id : string) : string :=
  "Required option --" ++ required_option_id ++ " omitted.".

(** Lines 208-216: the required and the optional options, and the
    parser as [OptionParser(usage=usage, version=version)] returns it. *)
Definition required_opts (self : t) : list CLOption.t :=
  List.filter CLOption.Required (Options self).

Definition optional_opts (self : t) : list CLOption.t :=
  List.filter (fun opt => negb (CLOption.Required opt)) (Options self).

Definition new_parser (self : t) : OptionParser.t :=
  let usage := _build_usage_lines self (required_opts self) in
  let version := "Version: %prog " ++ __version__ in
  {| OptionParser.usage := usage; OptionParser.version := version;
     OptionParser.option_groups := []; OptionParser.option_list := [] |}.

Section WithOptionParsing.

(** [qcli.option_parsing] is not part of the sources. Two things of it
    stay parameters: the attribute [dest] that the library gives an
    option, and [parse_args]. [parse_args] receives the finished parser
    and the arguments; it returns what it printed and either the parsed
    values with the left-over positional arguments or the exception it
    ended in (a [SystemExit] after help, version or a usage error of its
    own; the library's refusal of an option it was given). Nothing
    happens between the first [add_option] and [parse_args] but more
    [add_option]s, so a refusal reported by [parse_args] is observed
    exactly as one raised by [add_option]. *)
Variable dest : OptparseOption.t -> string.
Variable parse_args :
  OptionParser.t -> list string ->
  list string * res (gmap string pyval * list string).

Definition call_parse_args (parser : OptionParser.t) (in_ : list string)
  : M world (gmap string pyval * list string) :=
  let '(printed, r) := parse_args parser in_ in
  for_each printed (fun text => emit (ELibrary text)) ;;;
  lift r.

(** [getattr(opts, name)] *)
Definition getattr (opts : gmap string pyval) (name : string) : M world pyval :=
  match opts !! name with
  | Some v => ret v
  | None => raise (AttributeError name)
  end.

(** Lines 224-236: the parser with its options added. *)
Definition add_options (parser : OptionParser.t)
    (required_opts optional_opts : list CLOption.t) : OptionParser.t :=
  let groups :=
    match required_opts with
    | [] => []
    | _ => [ {| OptionParser.title := "REQUIRED options";
                OptionParser.description :=
                  "The following options must be provided under all circumstances.";
                OptionParser.group_option_list :=
                  map CLOption.getOptparseOption required_opts |} ]
    end in
  {| OptionParser.usage := OptionParser.usage parser;
     OptionParser.version := OptionParser.version parser;
     OptionParser.option_groups := OptionParser.option_groups parser ++ groups;
     OptionParser.option_list :=
       OptionParser.option_list parser ++
       map CLOption.getOptparseOption optional_opts |}.

(** The parser that [parse_args] is called on. *)
Definition full_parser (self : t) : OptionParser.t :=
  add_options (new_parser self) (required_opts self) (optional_opts self).

(** [[o.dest for o in required.option_list]] *)
Definition required_option_ids (required_opts : list CLOption.t) : list string :=
  map (fun ro => dest (CLOption.getOptparseOption ro)) required_opts.

(** Lines 248-254. *)
Definition check_required (parser : OptionParser.t)
    (required_opts : list CLOption.t) (opts : gmap string pyval)
  : M world unit :=
  match required_opts with
  | [] => ret tt
  | _ =>
      for_each (required_option_ids required_opts) (fun required_option_id =>
        v <- getattr opts required_option_id ;;
        if py_eqb v PyNone
        then parser_error parser (required_omitted_msg required_option_id)
        else ret tt)
  end.

(** Lines 256-265, after the assignment of line 257. [opts.__dict__] and
    [self.BelovedFunctionality] are one dictionary from there on; [opts]
    is not used again. *)
Definition apply_in_handlers : M world (gmap string pyval) :=
  self <- get_self ;;
  for_each (ParameterConversionInfo self) (fun kv =>
    let v := snd kv in
    match ParameterConversion.InHandler v with
    | Some in_handler =>
        let long_name := ParameterConversion.LongName v in
        self <- get_self ;;
        match BelovedFunctionality self !! long_name with
        | None => raise (KeyError long_name)
        | Some value =>
            new <- lift (in_handler value) ;;
            self <- get_self ;;
            assign_BelovedFunctionality
              (<[long_name := new]> (BelovedFunctionality self))
        end
    | None => ret tt
    end) ;;;
  self <- get_self ;;
  ret (BelovedFunctionality self).

(** Lines 206-265. *)
Definition _input_handler (in_ : list string) : M world (gmap string pyval) :=
  self <- get_self ;;
  let required_opts := required_opts self in
  let optional_opts := optional_opts self in
  let parser := new_parser self in
  if (HelpOnNoArguments self && Nat.eqb (length in_) 0)%bool
  then
    print_usage parser ;;;
    parser_exit (-1)
  else
    let parser := add_options parser required_opts optional_opts in
    parsed <- call_parse_args parser in_ ;;
    let opts := fst parsed in
    let args := snd parsed in
    match args with
    | first :: _ =>
        if DisallowPositionalArguments self
        then parser_error parser (positional_msg first)
        else ret tt
    | [] => ret tt
    end ;;;
    check_required parser required_opts opts ;;;
    assign_BelovedFunctionality opts ;;;
    apply_in_handlers.

(** Lines 303-314. *)
Definition _output_handler (results : gmap string pyval) : M world unit :=
  self <- get_self ;;
  for_each (output_map self) (fun kh =>
    let k := fst kh in
    let handler := snd kh in
    match results !! k with
    | None => raise (IncompetentDeveloperError
        ("Did not find the expected output '" ++ k ++ "' in results."))
    | Some value =>
        match OutputHandler.OptionName handler with
        | None =>
            emit (EHandler k value None) ;;;
            lift (OutputHandler.Function handler k value None)
        | Some option_name =>
            self <- get_self ;;
            match BelovedFunctionality self !! option_name with
            | None => raise (KeyError option_name)
            | Some opt_value =>
                emit (EHandler k value (Some opt_value)) ;;;
                lift (OutputHandler.Function handler k value (Some opt_value))
            end
        end
    end).

(** The call of [self.CmdInstance] with [cmd_input] as keyword arguments. *)
Definition call_command (cmd_input : gmap string pyval)
  : M world (gmap string pyval) :=
  self <- get_self ;;
  emit (ECommand cmd_input) ;;;
  lift (Command.run (CmdInstance self) cmd_input).

(** [_input_handler] is reached with what passed [_the_in_validator]. *)
Definition _input_handler_of (in_ : cli_input) : M world (gmap string pyval) :=
  match in_ with
  | InList argv => _input_handler argv
  | InTuple _ | InOther _ => raise (OtherError "TypeError")
  end.

(** [Interface.__call__] with the methods of [CLInterface]. The class
    derives from the [Interface] of [qcli.interface.core], which is not
    part of the sources; [__call__] is the one of the [Interface] of
    [src/pyqi/core/interface.py]. *)
Definition __call__ (in_ : cli_input) : M world unit :=
  Interface.__call__ _the_in_validator _input_handler_of call_command
    _output_handler in_.

(** One invocation of an instance, from no output: the result, the
    output, and the instance as it is left. *)
Definition invoke (self : t) (in_ : cli_input) : res unit * list event * t :=
  let '(r, w) := __call__ in_ {| self_ := self; out := [] |} in
  (r, out w, self_ w).

End WithOptionParsing.

Section Init.

Context {Kw : Type}.

(** The four [_get_*] methods of the subclass, the class attributes, and
    [Interface.__init__] of [qcli.interface.core], which is not part of
    the sources: given the conversion info and the keyword arguments it
    leaves [self.CmdInstance] and [self.Options], or raises. *)
Variable _get_usage_examples : list UsageExample.t.
Variable _get_param_conv_info : list (string * ParameterConversion.t).
Variable _get_additional_options : list CLOption.t.
Variable _get_output_map : list (string * OutputHandler.t).
Variable class_DisallowPositionalArguments : bool.
Variable class_HelpOnNoArguments : bool.
Variable Interface___init__ :
  list (string * ParameterConversion.t) -> Kw ->
  res (Command.t * list CLOption.t).

(** Lines 148-168. *)
Definition __init__ (kwargs : Kw) : res t :=
  let beloved_functionality : gmap string pyval := ∅ in
  let usage_examples := ([] ++ _get_usage_examples)%list in
  if Nat.ltb (length usage_examples) 1
  then Raise (IncompetentDeveloperError
    "There are no usage examples associated with this command.")
  else
    verbose <~ ParameterConversion.__init__ "verbose" PyNone
                 (PyStr "store_true") None (Some "v") ;;
    let info := dict_update [("verbose", verbose)] _get_param_conv_info in
    base <~ Interface___init__ info kwargs ;;
    Ok {| CmdInstance := fst base;
          Options := snd base ++ _get_additional_options;
          UsageExamples := usage_examples;
          ParameterConversionInfo := info;
          output_map := _get_output_map;
          DisallowPositionalArguments := class_DisallowPositionalArguments;
          HelpOnNoArguments := class_HelpOnNoArguments;
          BelovedFunctionality := beloved_functionality |}.

End Init.

End CLInterface.

(* ===================================================================== *)
(** * A small instance, used by the examples                              *)
(* ===================================================================== *)

Module Demo.

(** [s[n:]] *)
Fixpoint string_drop (n : nat) (s : string) : string :=
  match n, s with
  | O, _ => s
  | S n', String _ r => string_drop n' r
  | S _, EmptyString => EmptyString
  end.

(** [optparse]'s rule for [dest]: the first long option string without
    its dashes and with [-] turned into [_]; without a long option, the
    first short one without its dash. *)
Definition dest (o : OptparseOption.t) : string :=
  match List.find (startswith "--") (OptparseOption.opt_strings o) with
  | Some long => replace_char "-" "_" (string_drop 2 long)
  | None =>
      match OptparseOption.opt_strings o with
      | short :: _ => string_drop 1 short
      | [] => ""
      end
  end.

Definition all_options (parser : OptionParser.t) : list OptparseOption.t :=
  (concat (map OptionParser.group_option_list (OptionParser.option_groups parser))
   ++ OptionParser.option_list parser)%list.

(** A parser for the examples: every option takes one value, given as
    the next argument; an argument that is no known option string is
    positional; values start from the defaults, [None] without one. *)
Definition initial_values (parser : OptionParser.t) : gmap string pyval :=
  fold_left (fun m o =>
    <[dest o := match OptparseOption.default o with
                | Some d => d | None => PyNone end]> m)
    (all_options parser) ∅.

Definition find_option (parser : OptionParser.t) (flag : string)
  : option OptparseOption.t :=
  List.find (fun o => existsb (String.eqb flag) (OptparseOption.opt_strings o))
            (all_options parser).

Fixpoint parse_loop (parser : OptionParser.t) (argv : list string)
    (values : gmap string pyval) (args : list string)
  : list string * res (gmap string pyval * list string) :=
  match argv with
  | [] => ([], Ok (values, args))
  | a :: rest =>
      match find_option parser a with
      | Some o =>
          match rest with
          | v :: rest' =>
              parse_loop parser rest' (<[dest o := PyStr v]> values) args
          | [] => ([a ++ " option requires an argument"],
                   Raise (SystemExit 2))
          end
      | None =>
          if startswith "-" a
          then (["no such option: " ++ a], Raise (SystemExit 2))
          else parse_loop parser rest values (args ++ [a])%list
      end
  end.

Definition parse_args (parser : OptionParser.t) (argv : list string)
  : list string * res (gmap string pyval * list string) :=
  parse_loop parser argv (initial_values parser) [].

Definition input_fp : CLOption.t :=
  {| CLOption.Type_ := PyType TyStr; CLOption.Help := "the input file";
     CLOption.Name := "input_fp"; CLOption.Required := true;
     CLOption.Default := PyNone; CLOption.DefaultDescription := None;
     CLOption.LongName := "input-fp";
     CLOption.CLType := PyStr "existing_filepath";
     CLOption.CLAction := PyStr "store"; CLOption.ShortName := Some "i";
     CLOption.ResultName := None |}.

Definition output_fp : CLOption.t :=
  {| CLOption.Type_ := PyType TyStr; CLOption.Help := "the output file";
     CLOption.Name := "output_fp"; CLOption.Required := true;
     CLOption.Default := PyNone; CLOption.DefaultDescription := None;
     CLOption.LongName := "output-fp";
     CLOption.CLType := PyStr "new_filepath";
     CLOption.CLAction := PyStr "store"; CLOption.ShortName := Some "o";
     CLOption.ResultName := None |}.

Definition level : CLOption.t :=
  {| CLOption.Type_ := PyType TyInt; CLOption.Help := "how thorough";
     CLOption.Name := "level"; CLOption.Required := false;
     CLOption.Default := PyInt 1; CLOption.DefaultDescription := Some "1";
     CLOption.LongName := "level"; CLOption.CLType := PyStr "int";
     CLOption.CLAction := PyStr "store"; CLOption.ShortName := None;
     CLOption.ResultName := None |}.

(** The command returns its input path as [copied] and a [count]. *)
Definition command : Command.t :=
  {| Command.LongDescription := "Copy a file.";
     Command.run := fun kwargs =>
       match kwargs !! "input_fp" with
       | Some v => Ok (<["copied" := v]> (<["count" := PyInt 1]> ∅))
       | None => Raise (OtherError "TypeError")
       end |}.

Definition quiet : OutputHandler.t :=
  {| OutputHandler.OptionName := None;
     OutputHandler.Function := fun _ _ _ => Ok tt |}.

Definition to_output_fp : OutputHandler.t :=
  {| OutputHandler.OptionName := Some "output_fp";
     OutputHandler.Function := fun _ _ _ => Ok tt |}.

Definition example1 : UsageExample.t :=
  {| UsageExample.ShortDesc := "Basic usage:";
     UsageExample.LongDesc := "copy in.txt to out.txt";
     UsageExample.Ex := " %prog -i in.txt -o out.txt " |}.

(** An example without a short description. *)
Definition example2 : UsageExample.t :=
  {| UsageExample.ShortDesc := "";
     UsageExample.LongDesc := "Copy thoroughly";
     UsageExample.Ex := "%prog -i in.txt -o out.txt --level 2" |}.

Definition verbose : ParameterConversion.t :=
  {| ParameterConversion.ShortName := Some "v";
     ParameterConversion.LongName := "verbose";
     ParameterConversion.CLType := PyNone;
     ParameterConversion.CLAction := PyStr "store_true";
     ParameterConversion.InHandler := None |}.

Definition interface : CLInterface.t :=
  {| CLInterface.CmdInstance := command;
     CLInterface.Options := [input_fp; level; output_fp];
     CLInterface.UsageExamples := [example1; example2];
     CLInterface.ParameterConversionInfo := [("verbose", verbose)];
     CLInterface.output_map := [("copied", to_output_fp); ("count", quiet)];
     CLInterface.DisallowPositionalArguments := true;
     CLInterface.HelpOnNoArguments := true;
     CLInterface.BelovedFunctionality := ∅ |}.

(** What the command returns, and the same without [count]. *)
Definition results : gmap string pyval :=
  <["copied" := PyStr "in.txt"]> (<["count" := PyInt 1]> ∅).


(** The same interface with the second usage example only. *)
Definition terse : CLInterface.t :=
  {| CLInterface.CmdInstance := command;
     CLInterface.Options := [input_fp; level; output_fp];
     CLInterface.UsageExamples := [example2];
     CLInterface.ParameterConversionInfo := [("verbose", verbose)];
     CLInterface.output_map := [("copied", to_output_fp); ("count", quiet)];
     CLInterface.DisallowPositionalArguments := true;
     CLInterface.HelpOnNoArguments := true;
     CLInterface.BelovedFunctionality := ∅ |}.

(** The values parsed from [-i in.txt] and from [-i in.txt -o out.txt]. *)
Definition values_without_output : gmap string pyval :=
  <["input_fp" := PyStr "in.txt"]>
    (<["output_fp" := PyNone]> (<["level" := PyInt 1]> ∅)).

Definition values_with_output : gmap string pyval :=
  <["output_fp" := PyStr "out.txt"]> values_without_output.

Definition run (self : CLInterface.t) (argv : list string)
  : res unit * list event * CLInterface.t :=
  CLInterface.invoke dest parse_args self (InList argv).

End Demo.

(* ===================================================================== *)
(** * The specification's words, as definitions                           *)
(* ===================================================================== *)

(** The sets of section 4.3 of the specification, as it writes them. *)
Definition spec_cli_types : list pyval :=
  [PyStr "float"; PyStr "int"; PyStr "string"; PyStr "existing_filepath";
   PyStr "new_filepath"; PyStr "existing_dirpath"; PyStr "new_dirpath";
   PyNone].

Definition spec_cli_actions : list pyval :=
  [PyStr "store"; PyStr "store_true"; PyStr "store_false"; PyStr "append"].

(** One usage example as section 4.5 renders it: [ShortDesc: LongDesc],
    a new line, the indented example. *)
Definition spec_example_text (e : UsageExample.t) : string :=
  UsageExample.ShortDesc e ++ ": " ++ UsageExample.LongDesc e ++ nl ++
  " " ++ UsageExample.Ex e.

(** The layout of the usage text, section by section. A required option
    comes as the pair of its display form and its name. *)
Definition required_token (flag_and_name : string * string) : string :=
  fst flag_and_name ++ " " ++ upper (snd flag_and_name).

Definition first_line (required : list (string * string)) : string :=
  "usage: %prog [options] {" ++ join " " (map required_token required) ++ "}".

Definition legend : string :=
  "[] indicates optional input (order unimportant)" ++ nl ++
  "{} indicates required input (order unimportant)".

Definition help_hint : string :=
  "Example usage: " ++ nl ++ "Print help message and exit" ++ nl ++
  " %prog -h" ++ nl.

(** An example with its descriptions and invocation stripped; the short
    description and its colon are left out when it is empty. *)
Definition example_text (e : UsageExample.t) : string :=
  let short := strip (strip_colon (UsageExample.ShortDesc e)) in
  let long := strip (strip_colon (UsageExample.LongDesc e)) in
  let invocation := strip (UsageExample.Ex e) in
  (if String.eqb short "" then "" else short ++ ": ") ++
  long ++ nl ++ " " ++ invocation.

Definition usage_layout_by (render : UsageExample.t -> string)
    (required : list (string * string))
    (long_description : string) (examples : list UsageExample.t) : string :=
  first_line required ++ nl ++
  nl ++
  legend ++ nl ++
  nl ++
  long_description ++ nl ++
  nl ++
  help_hint ++ nl ++
  join (nl ++ nl) (map render examples).

Definition usage_layout := usage_layout_by example_text.

(** The text as the specification describes it. *)
Definition spec_usage_text := usage_layout_by spec_example_text.

Definition display (rp : CLOption.t) : string * string :=
  (CLOption.__str__ rp, CLOption.Name rp).

(** ** Output dispatch: what serving one handler means

    [served self results kh ev]: the handler's key is among the results,
    the option it names (if any) has a parsed value, its function
    returns, and [ev] is the call made. *)
Definition served (self : CLInterface.t) (results : gmap string pyval)
    (kh : string * OutputHandler.t) (ev : event) : Prop :=
  exists value,
    results !! fst kh = Some value /\
    match OutputHandler.OptionName (snd kh) with
    | None =>
        ev = EHandler (fst kh) value None /\
        OutputHandler.Function (snd kh) (fst kh) value None = Ok tt
    | Some option_name =>
        exists opt_value,
          CLInterface.BelovedFunctionality self !! option_name = Some opt_value /\
          ev = EHandler (fst kh) value (Some opt_value) /\
          OutputHandler.Function (snd kh) (fst kh) value (Some opt_value) = Ok tt
    end.

Definition missing_output_msg (k : string) : string :=
  "Did not find the expected output '" ++ k ++ "' in results.".

(** ** The required check: the first required option left unset *)
Definition is_unset (opts : gmap string pyval) (name : string) : bool :=
  bool_decide (opts !! name = Some PyNone).

Definition first_unset (opts : gmap string pyval) (ids : list string)
  : option string :=
  List.find (is_unset opts) ids.

(* ===================================================================== *)
(** * Definitions used to state the properties                            *)
(* ===================================================================== *)

(** [InterfaceOption.__init__], lines 177-178: the name with dashes. *)
Definition dashed (a : InterfaceOption.args) (o : InterfaceOption.t)
  : InterfaceOption.t :=
  if InterfaceOption.a_convert_to_dashed_name a
  then InterfaceOption.set_Name
         (replace_char "_" "-" (InterfaceOption.Name o)) o
  else o.

(** Sample parameters and options. *)
Definition required_parameter_with_default : CommandParameter.t :=
  {| CommandParameter.Name := "level"; CommandParameter.Description := "how thorough";
     CommandParameter.Required := true; CommandParameter.Default := PyInt 1;
     CommandParameter.DefaultDescription := Some "1" |}.

Definition optional_parameter : CommandParameter.t :=
  {| CommandParameter.Name := "input_fp";
     CommandParameter.Description := "the input file";
     CommandParameter.Required := false; CommandParameter.Default := PyNone;
     CommandParameter.DefaultDescription := None |}.

Definition from_parameter (p : CommandParameter.t) (required : bool)
  : InterfaceOption.args :=
  {| InterfaceOption.a_Parameter := Some p;
     InterfaceOption.a_InputType := PyNone;
     InterfaceOption.a_InputAction := PyNone;
     InterfaceOption.a_InputHandler := None;
     InterfaceOption.a_ShortName := None;
     InterfaceOption.a_Name := None;
     InterfaceOption.a_Required := required;
     InterfaceOption.a_Help := None;
     InterfaceOption.a_Default := PyNone;
     InterfaceOption.a_DefaultDescription := None;
     InterfaceOption.a_convert_to_dashed_name := true |}.

Definition accept_all (_ : InterfaceOption.t) : res unit := Ok tt.

Definition bound_to (p : CommandParameter.t) (name : string) : InterfaceOption.t :=
  {| InterfaceOption.Parameter_ := Some p; InterfaceOption.Name := name;
     InterfaceOption.Help := CommandParameter.Description p;
     InterfaceOption.Required := CommandParameter.Required p;
     InterfaceOption.Default := CommandParameter.Default p;
     InterfaceOption.DefaultDescription := CommandParameter.DefaultDescription p;
     InterfaceOption.InputType := PyNone; InterfaceOption.InputAction := PyNone;
     InterfaceOption.InputHandler := None; InterfaceOption.ShortName := None |}.

Definition standalone (name : string) : InterfaceOption.t :=
  {| InterfaceOption.Parameter_ := None; InterfaceOption.Name := name;
     InterfaceOption.Help := "show more"; InterfaceOption.Required := false;
     InterfaceOption.Default := PyNone;
     InterfaceOption.DefaultDescription := None;
     InterfaceOption.InputType := PyNone; InterfaceOption.InputAction := PyNone;
     InterfaceOption.InputHandler := None; InterfaceOption.ShortName := None |}.

(** The required check is reached: the help short-circuit was not taken
    and no positional argument was refused. *)
Definition reaches_required_check (self : CLInterface.t)
    (argv args : list string) : Prop :=
  (CLInterface.HelpOnNoArguments self = false \/ argv <> []) /\
  (CLInterface.DisallowPositionalArguments self = false \/ args = []).

Definition world_of (self : CLInterface.t) (out : list event)
  : CLInterface.world :=
  {| CLInterface.self_ := self; CLInterface.out := out |}.

Definition usage_of (self : CLInterface.t) : string :=
  CLInterface._build_usage_lines self (CLInterface.required_opts self).

(** The body of the loop of [check_required]. *)
Definition check_one (parser : OptionParser.t) (opts : gmap string pyval)
    (required_option_id : string) : M CLInterface.world unit :=
  bind (CLInterface.getattr opts required_option_id) (fun v =>
    if py_eqb v PyNone
    then CLInterface.parser_error parser
           (CLInterface.required_omitted_msg required_option_id)
    else ret tt).

(** What is left of [_input_handler] once the positional arguments are
    accepted. *)
Definition after_positional (dest : OptparseOption.t -> string)
    (self : CLInterface.t) (opts : gmap string pyval)
  : M CLInterface.world (gmap string pyval) :=
  bind (CLInterface.check_required dest (CLInterface.full_parser self)
          (CLInterface.required_opts self) opts) (fun _ =>
  bind (CLInterface.assign_BelovedFunctionality opts) (fun _ =>
  CLInterface.apply_in_handlers)).

(** The body of the loop of [_output_handler]. *)
Definition dispatch_one (results : gmap string pyval)
    (kh : string * OutputHandler.t) : M CLInterface.world unit :=
  let k := fst kh in
  let handler := snd kh in
  match results !! k with
  | None => raise (IncompetentDeveloperError (missing_output_msg k))
  | Some value =>
      match OutputHandler.OptionName handler with
      | None =>
          bind (CLInterface.emit (EHandler k value None)) (fun _ =>
          lift (OutputHandler.Function handler k value None))
      | Some option_name =>
          bind CLInterface.get_self (fun self =>
          match CLInterface.BelovedFunctionality self !! option_name with
          | None => raise (KeyError option_name)
          | Some opt_value =>
              bind (CLInterface.emit (EHandler k value (Some opt_value)))
                (fun _ =>
              lift (OutputHandler.Function handler k value (Some opt_value)))
          end)
      end
  end.

(** A computation that leaves the configuration of the instance alone. *)
Definition keeps_configuration {A} (m : M CLInterface.world A) : Prop :=
  forall w,
    CLInterface.same_configuration
      (CLInterface.self_ (snd (m w))) (CLInterface.self_ w).

(** A computation that leaves the instance alone altogether. *)
Definition keeps_self {A} (m : M CLInterface.world A) : Prop :=
  forall w, CLInterface.self_ (snd (m w)) = CLInterface.self_ w.

(** A computation that, when it returns, returns the parsed values the
    instance then holds. *)
Definition returns_held (m : M CLInterface.world (gmap string pyval)) : Prop :=
  forall w kw w',
    m w = (Ok kw, w') ->
    CLInterface.BelovedFunctionality (CLInterface.self_ w') = kw.

(** The three parts of what [CLInterface.invoke] returns. *)
Definition result_of (x : res unit * list event * CLInterface.t) : res unit :=
  fst (fst x).
Definition output_of (x : res unit * list event * CLInterface.t) : list event :=
  snd (fst x).
Definition instance_after (x : res unit * list event * CLInterface.t)
  : CLInterface.t := snd x.

(* ===================================================================== *)
(** * More of src/pyqi/core/interface.py                                  *)
(* ===================================================================== *)

(** [c in s] for a character. *)
Fixpoint has_char (c : ascii) (s : string) : bool :=
  match s with
  | EmptyString => false
  | String c' r => (Ascii.eqb c' c || has_char c r)%bool
  end.

(** [s[:-n]] *)
Definition drop_last (n : nat) (s : string) : string :=
  String.substring 0 (String.length s - n) s.

(** [os.path.basename]: what follows the last slash. *)
Fixpoint basename (p : string) : string :=
  match p with
  | EmptyString => EmptyString
  | String c r =>
      if has_char "/" r then basename r
      else if Ascii.eqb c "/" then r else p
  end.

(** [os.path.dirname]: what comes before and with the last slash, then
    without its trailing slashes unless it is made of slashes only. *)
Fixpoint dirname_head (p : string) : string :=
  match p with
  | EmptyString => EmptyString
  | String c r =>
      if has_char "/" r then String c (dirname_head r)
      else if Ascii.eqb c "/" then "/" else EmptyString
  end.

Definition dirname (p : string) : string :=
  let head := dirname_head p in
  if String.eqb (lstrip (fun c => Ascii.eqb c "/") head) ""
  then head
  else rstrip (fun c => Ascii.eqb c "/") head.

(** [os.path.join(a, b)] *)
Definition path_join (a b : string) : string :=
  if startswith "/" b then b
  else if (String.eqb a "" || endswith "/" a)%bool then a ++ b
  else a ++ "/" ++ b.

(** The outcome of [importlib.import_module]: the module, an
    [ImportError], or any other exception. *)
Inductive loaded (A : Type) :=
| Loaded (a : A)
| ImportError (msg : string)
| Raised (e : exc).
Arguments Loaded {A} a.
Arguments ImportError {A} msg.
Arguments Raised {A} e.

Module CommandList.

Definition _convert_to_dashed_name (name : string) : string :=
  replace_char "_" "-" name.

(** The list is empty after [__init__]. *)
Definition __init__ : list string := [].

Definition append (self : list string) (item : string) : list string :=
  (self ++ [_convert_to_dashed_name item])%list.

(** [list.__contains__] compares with [==]. *)
Definition __contains__ (self : list string) (item : string) : bool :=
  existsb (String.eqb (_convert_to_dashed_name item)) self.

(** [self.sort()]: the strings in ascending order. *)
Definition sort (self : list string) : list string :=
  merge_sort String.le self.

End CommandList.

(** The name a configuration file is listed under by
    [get_command_names], and which files are listed. *)
Definition listed_name (f : string) : string :=
  CommandList._convert_to_dashed_name (drop_last 3 (basename f)).

Definition is_listed (f : string) : bool :=
  negb (startswith "__init__" (basename f)).

Section Commands.

(** A module object, of which [__file__] is read; [import_module] and
    [glob] are the interpreter's and the file system's. *)
Context {PyModule : Type}.
Variable __file__ : PyModule -> string.
Variable import_module : string -> loaded PyModule.
Variable glob : string -> list string.

(** The loop of lines 242-246, one file. *)
Definition add_command_name (command_names : list string) (f : string)
  : list string :=
  let command_name := basename f in
  if negb (startswith "__init__" command_name)
  then CommandList.append command_names (drop_last 3 command_name)
  else command_names.

(** Lines 224-249. *)
Definition get_command_names (config_base_name : string)
  : loaded (list string) :=
  match import_module config_base_name with
  | ImportError _ =>
      ImportError ("Unable to load base config module: " ++ config_base_name)
  | Raised e => Raised e
  | Loaded config_base_module =>
      let config_base_dir := dirname (__file__ config_base_module) in
      let command_names :=
        fold_left add_command_name
          (glob (path_join config_base_dir "*.py")) CommandList.__init__ in
      Loaded (CommandList.sort command_names)
  end.

(** Lines 251-270: what is written to standard error, and the pair
    returned or the exception. *)
Definition get_command_config (command_config_module cmd : string)
    (exit_on_failure : bool)
  : list string * res (option PyModule * option string) :=
  let python_cmd_name := replace_char "-" "_" cmd in
  match import_module
          (join "." [command_config_module; python_cmd_name]) with
  | Loaded cmd_cfg => ([], Ok (Some cmd_cfg, None))
  | ImportError error_msg =>
      if exit_on_failure
      then (["Unable to import the command configuration for " ++ cmd ++
               ":" ++ nl;
             error_msg;
             nl],
            Raise (SystemExit 1))
      else ([], Ok (None, Some error_msg))
  | Raised e => ([], Raise e)
  end.

End Commands.

(* ===================================================================== *)
(** * More of src/qcli/interface/cli.py                                   *)
(* ===================================================================== *)

(** [d[k]] on a dictionary kept as its items: [None] when [k] is no key. *)
Fixpoint dict_get {V} (k : string) (d : list (string * V)) : option V :=
  match d with
  | [] => None
  | (k', v) :: d' => if String.eqb k k' then Some v else dict_get k d'
  end.

Module CLOptionInit.

(** The arguments of [Parameter.__init__] of [qcli.core.command], and
    the attributes of the same names. *)
Record parameter := mk_parameter {
  Type_ : pyval;
  Help : string;
  Name : string;
  Required : bool;
  Default : pyval;
  DefaultDescription : option string
}.

Definition _cl_types : list pyval := [PyStr "new_filepath"].

Section WithParameter.

(** [Parameter.__init__] is not part of the sources: from its arguments
    it leaves the attributes of the same names on the object, or it
    raises. *)
Variable Parameter___init__ : parameter -> res parameter.

(** Lines 54-68. The result is the option and whether the attribute
    [_cl_type_action] was set (to [new_filepath]). *)
Definition __init__ (Type_ : pyval) (Help Name LongName : string)
    (CLType CLAction : pyval) (Required : bool) (Default : pyval)
    (DefaultDescription ShortName ResultName : option string)
  : res (CLOption.t * bool) :=
  let has_cl_type_action := py_in CLType _cl_types in
  base <~ Parameter___init__
            {| CLOptionInit.Type_ := Type_; CLOptionInit.Help := Help;
               CLOptionInit.Name := Name; CLOptionInit.Required := Required;
               CLOptionInit.Default := Default;
               CLOptionInit.DefaultDescription := DefaultDescription |} ;;
  Ok ({| CLOption.Type_ := CLOptionInit.Type_ base;
         CLOption.Help := CLOptionInit.Help base;
         CLOption.Name := CLOptionInit.Name base;
         CLOption.Required := CLOptionInit.Required base;
         CLOption.Default := CLOptionInit.Default base;
         CLOption.DefaultDescription := CLOptionInit.DefaultDescription base;
         CLOption.LongName := LongName;
         CLOption.CLType := CLType;
         CLOption.CLAction := CLAction;
         CLOption.ShortName := ShortName;
         CLOption.ResultName := ResultName |},
      has_cl_type_action).

(** Lines 103-117. *)
Definition fromParameter (p : parameter) (LongName : string)
    (CLType CLAction : pyval) (ShortName : option string)
  : res (CLOption.t * bool) :=
  __init__ (CLOptionInit.Type_ p) (CLOptionInit.Help p) (CLOptionInit.Name p)
    LongName CLType CLAction (CLOptionInit.Required p)
    (CLOptionInit.Default p) (CLOptionInit.DefaultDescription p)
    ShortName None.

Definition no_conversion_msg (name : string)
    (info : list (string * ParameterConversion.t)) : string :=
  name ++ " does not have parameter conversion info " ++
  "(parameter conversions are available for " ++
  join " " (map fst info) ++ ")".

(** [CLInterface._option_factory], lines 192-204. [fromParameter] is
    called without [CLAction], which is then its default, ['store']. *)
Definition _option_factory (self : CLInterface.t) (p : parameter)
  : res (CLOption.t * bool) :=
  let name := CLOptionInit.Name p in
  match dict_get name (CLInterface.ParameterConversionInfo self) with
  | None =>
      Raise (IncompetentDeveloperError
               (no_conversion_msg name (CLInterface.ParameterConversionInfo self)))
  | Some conversion =>
      fromParameter p (ParameterConversion.LongName conversion)
        (ParameterConversion.CLType conversion) (PyStr "store")
        (ParameterConversion.ShortName conversion)
  end.

End WithParameter.

End CLOptionInit.

(** [clmain], lines 333-337: the result and the output. The interface
    object is constructed, called on the arguments without the first,
    and [0] is returned. *)
Definition clmain (dest : OptparseOption.t -> string)
    (parse_args : OptionParser.t -> list string ->
                  list string * res (gmap string pyval * list string))
    (interface_object : res CLInterface.t) (local_argv : list string)
  : res Z * list event :=
  match interface_object with
  | Raise e => (Raise e, [])
  | Ok cli_cmd =>
      let '(result, out, _) :=
        CLInterface.invoke dest parse_args cli_cmd (InList (tail local_argv)) in
      (rbind result (fun _ => Ok 0), out)
  end.

(** The conversion for [verbose] that [CLInterface.__init__] starts the
    conversion info with, lines 157-162. *)
Definition seeded_verbose : ParameterConversion.t :=
  {| ParameterConversion.ShortName := Some "v";
     ParameterConversion.LongName := "verbose";
     ParameterConversion.CLType := PyNone;
     ParameterConversion.CLAction := PyStr "store_true";
     ParameterConversion.InHandler := None |}.

(** The body of the loop of [apply_in_handlers], lines 258-264. *)
Definition in_handler_one (kv : string * ParameterConversion.t)
  : M CLInterface.world unit :=
  match ParameterConversion.InHandler (snd kv) with
  | Some in_handler =>
      bind CLInterface.get_self (fun self =>
      match CLInterface.BelovedFunctionality self
              !! ParameterConversion.LongName (snd kv) with
      | None => raise (KeyError (ParameterConversion.LongName (snd kv)))
      | Some value =>
          bind (lift (in_handler value)) (fun new =>
          bind CLInterface.get_self (fun self =>
          CLInterface.assign_BelovedFunctionality
            (<[ParameterConversion.LongName (snd kv) := new]>
               (CLInterface.BelovedFunctionality self))))
      end)
  | None => ret tt
  end.

(** The conversions that come with an input handler. *)
Definition handled_names (info : list (string * ParameterConversion.t))
  : list string :=
  map (fun kv => ParameterConversion.LongName (snd kv))
      (List.filter
         (fun kv => match ParameterConversion.InHandler (snd kv) with
                    | Some _ => true | None => false end)
         info).

(** A [Parameter.__init__] that accepts what it is given, a parameter
    and an input handler for the examples. *)
Definition accept_parameter (p : CLOptionInit.parameter)
  : res CLOptionInit.parameter := Ok p.

Definition verbose_parameter : CLOptionInit.parameter :=
  {| CLOptionInit.Type_ := PyType TyBool; CLOptionInit.Help := "say more";
     CLOptionInit.Name := "verbose"; CLOptionInit.Required := false;
     CLOptionInit.Default := PyBool false;
     CLOptionInit.DefaultDescription := Some "quiet" |}.

Definition level_parameter : CLOptionInit.parameter :=
  {| CLOptionInit.Type_ := PyType TyInt; CLOptionInit.Help := "how thorough";
     CLOptionInit.Name := "level"; CLOptionInit.Required := false;
     CLOptionInit.Default := PyInt 1;
     CLOptionInit.DefaultDescription := Some "1" |}.

Definition shout (v : pyval) : res pyval :=
  match v with
  | PyStr s => Ok (PyStr (upper s))
  | _ => Raise (OtherError "TypeError")
  end.

Definition shouting_input : string * ParameterConversion.t :=
  ("input_fp",
   {| ParameterConversion.ShortName := Some "i";
      ParameterConversion.LongName := "input_fp";
      ParameterConversion.CLType := PyStr "existing_filepath";
      ParameterConversion.CLAction := PyNone;
      ParameterConversion.InHandler := Some shout |}).

(** The demonstration interface with that input handler among its
    conversions, holding the values parsed from [-i in.txt -o out.txt],
    and the values once the handler has been applied. *)
Definition shouting_interface : CLInterface.t :=
  {| CLInterface.CmdInstance := Demo.command;
     CLInterface.Options := [Demo.input_fp; Demo.level; Demo.output_fp];
     CLInterface.UsageExamples := [Demo.example1; Demo.example2];
     CLInterface.ParameterConversionInfo :=
       [("verbose", seeded_verbose); shouting_input];
     CLInterface.output_map :=
       [("copied", Demo.to_output_fp); ("count", Demo.quiet)];
     CLInterface.DisallowPositionalArguments := true;
     CLInterface.HelpOnNoArguments := true;
     CLInterface.BelovedFunctionality := Demo.values_with_output |}.

Definition shouted_values : gmap string pyval :=
  <["input_fp" := PyStr "IN.TXT"]> Demo.values_with_output.

(** Two calls of [new_filepath] on one path, one after the other. *)
Definition write_twice (refusal : gmap string node -> string -> option string)
    (first second path : string) : M (gmap string node) unit :=
  bind (new_filepath refusal first path)
       (fun _ => new_filepath refusal second path).

(** An operating system for the examples: [open] refuses a path whose
    directory part names no directory, with the message of [ENOENT]. A
    path without a directory part lies in the current directory. *)
Definition missing_parent (fs : gmap string node) (path : string)
  : option string :=
  let parent := dirname path in
  if (String.eqb parent "" || String.eqb parent "/")%bool then None
  else match fs !! parent with
       | Some Dir => None
       | _ => Some ("[Errno 2] No such file or directory: '" ++ path ++ "'")
       end.

(** A module and a file system for the examples: one configuration
    directory with three files. *)
Module DemoCommands.

Definition files : list string :=
  ["/cfg/make_otu_table.py"; "/cfg/__init__.py"; "/cfg/biom_convert.py"].

Definition import_module (name : string) : loaded string :=
  if String.eqb name "cfg" then Loaded "/cfg/__init__.py"
  else if String.eqb name "cfg.make_otu_table" then Loaded "/cfg/make_otu_table.py"
  else if String.eqb name "cfg.biom_convert" then Loaded "/cfg/biom_convert.py"
  else ImportError ("No module named " ++ name).

Definition glob (pattern : string) : list string :=
  if String.eqb pattern "/cfg/*.py" then files else [].

Definition __file__ (m : string) : string := m.

End DemoCommands.

(* ===================================================================== *)
(** * General lemmas                                                      *)
(* ===================================================================== *)

Example strip_strips_colons_then_blanks :
  strip (strip_colon "::Basic usage :") = "Basic usage".
Proof. reflexivity. Qed.

Example upper_is_ascii_upper : upper "input_fp" = "INPUT_FP".
Proof. reflexivity. Qed.

Example join_puts_separators_between : join ", " ["a"; "b"; "c"] = "a, b, c".
Proof. reflexivity. Qed.

Example demo_dest_is_underscored :
  Demo.dest (CLOption.getOptparseOption Demo.output_fp) = "output_fp".
Proof. reflexivity. Qed.

Lemma string_app_assoc (a b c : string) : (a ++ b) ++ c = a ++ (b ++ c).
Proof.
  induction a as [|ch a IH]; [reflexivity|].
  change (String ch ((a ++ b) ++ c) = String ch (a ++ (b ++ c))).
  now f_equal.
Qed.

Lemma size_list_to_set_le (l : list string) :
  (size (list_to_set l : gset string) <= length l)%nat.
Proof.
  induction l as [|x l IH].
  - rewrite list_to_set_nil, size_empty. reflexivity.
  - rewrite list_to_set_cons. cbn [length].
    destruct (decide (x ∈ l)) as [Hin|Hout].
    + assert (({[x]} ∪ list_to_set l : gset string) = list_to_set l) as Heq.
      { apply set_eq. intros y. rewrite elem_of_union, elem_of_singleton.
        rewrite elem_of_list_to_set. split; [intros [->|?]|]; auto. }
      rewrite Heq. lia.
    + rewrite size_union by set_solver. rewrite size_singleton. lia.
Qed.

Lemma size_list_to_set_NoDup (l : list string) :
  size (list_to_set l : gset string) = length l -> NoDup l.
Proof.
  induction l as [|x l IH]; intros Hsize.
  - constructor.
  - rewrite list_to_set_cons in Hsize. cbn [length] in Hsize.
    destruct (decide (x ∈ l)) as [Hin|Hout].
    + assert (({[x]} ∪ list_to_set l : gset string) = list_to_set l) as Heq.
      { apply set_eq. intros y. rewrite elem_of_union, elem_of_singleton.
        rewrite elem_of_list_to_set. split; [intros [->|?]|]; auto. }
      rewrite Heq in Hsize. pose proof (size_list_to_set_le l). lia.
    + constructor; [exact Hout|]. apply IH.
      rewrite size_union in Hsize by set_solver.
      rewrite size_singleton in Hsize. lia.
Qed.

(** [_validate_inputs] accepts exactly the lists whose bound parameter
    names are pairwise different. *)
Lemma validate_inputs_spec (inputs : list InterfaceOption.t) :
  (NoDup (Interface.param_names inputs) /\
   Interface._validate_inputs inputs = Ok tt) \/
  (~ NoDup (Interface.param_names inputs) /\
   Interface._validate_inputs inputs =
     Raise (IncompetentDeveloperError Interface.duplicate_binding_msg)).
Proof.
  unfold Interface._validate_inputs.
  set (names := Interface.param_names inputs).
  case_bool_decide as Hlen.
  - right. split; [|reflexivity].
    intros Hnd. apply Hlen. symmetry. now apply size_list_to_set.
  - left. split; [|reflexivity].
    apply size_list_to_set_NoDup. symmetry. exact Hlen.
Qed.

Lemma py_eqb_eq (a b : pyval) :
  (forall z, b <> PyInt z) -> (forall x, b <> PyBool x) ->
  py_eqb a b = true <-> a = b.
Proof.
  intros Hint Hbool.
  destruct b as [|x|z| |];
    try (exfalso; eapply Hint; reflexivity);
    try (exfalso; eapply Hbool; reflexivity);
    destruct a; unfold py_eqb; apply bool_decide_eq_true.
Qed.

Lemma py_in_elem_of (x : pyval) (l : list pyval) :
  Forall (fun y => (forall z, y <> PyInt z) /\ (forall b, y <> PyBool b)) l ->
  py_in x l = true <-> x ∈ l.
Proof.
  intros Hl. unfold py_in. rewrite existsb_exists. split.
  - intros (y & Hy & Heq). rewrite Forall_forall in Hl.
    apply list_elem_of_In in Hy.
    destruct (Hl y Hy) as [Hi Hb].
    apply py_eqb_eq in Heq; [subst; assumption | assumption | assumption].
  - intros Hx. exists x. split; [now apply list_elem_of_In|].
    rewrite Forall_forall in Hl. destruct (Hl x Hx) as [Hi Hb].
    now apply py_eqb_eq.
Qed.

Lemma py_in_CLTypes (x : pyval) : py_in x CLTypes = true <-> x ∈ CLTypes.
Proof.
  apply py_in_elem_of. unfold CLTypes.
  repeat (constructor; [split; intros; discriminate|]).
  constructor.
Qed.

Lemma py_in_CLActions (x : pyval) : py_in x CLActions = true <-> x ∈ CLActions.
Proof.
  apply py_in_elem_of. unfold CLActions.
  repeat (constructor; [split; intros; discriminate|]).
  constructor.
Qed.

(* ===================================================================== *)
(** * InterfaceOption: required options and defaults                      *)
(* ===================================================================== *)


Lemma dashed_Required a o :
  InterfaceOption.Required (dashed a o) = InterfaceOption.Required o.
Proof. unfold dashed. now destruct (InterfaceOption.a_convert_to_dashed_name a). Qed.

Lemma dashed_Default a o :
  InterfaceOption.Default (dashed a o) = InterfaceOption.Default o.
Proof. unfold dashed. now destruct (InterfaceOption.a_convert_to_dashed_name a). Qed.

Lemma dashed_Help a o :
  InterfaceOption.Help (dashed a o) = InterfaceOption.Help o.
Proof. unfold dashed. now destruct (InterfaceOption.a_convert_to_dashed_name a). Qed.

Lemma dashed_DefaultDescription a o :
  InterfaceOption.DefaultDescription (dashed a o) =
  InterfaceOption.DefaultDescription o.
Proof. unfold dashed. now destruct (InterfaceOption.a_convert_to_dashed_name a). Qed.

(** [__init__] once the attributes are transferred: the check on
    required and default, then the subclass's validation. *)
Lemma init_after_transfer validate a o :
  InterfaceOption.transfer a = Ok o ->
  InterfaceOption.__init__ validate a =
    if (InterfaceOption.Required o &&
        negb (is_None (InterfaceOption.Default o)))%bool
    then Raise (IncompetentDeveloperError
                  (InterfaceOption.required_with_default_msg (dashed a o)))
    else rbind (validate (dashed a o)) (fun _ => Ok (dashed a o)).
Proof.
  intros Ht. unfold InterfaceOption.__init__. rewrite Ht. cbn [rbind].
  fold (dashed a o). now rewrite dashed_Required, dashed_Default.
Qed.

Lemma init_transfer_fails validate a e :
  InterfaceOption.transfer a = Raise e ->
  InterfaceOption.__init__ validate a = Raise e.
Proof. intros Ht. unfold InterfaceOption.__init__. now rewrite Ht. Qed.

Lemma init_Ok_inv validate a o' :
  InterfaceOption.__init__ validate a = Ok o' ->
  exists o, InterfaceOption.transfer a = Ok o /\ o' = dashed a o /\
            (InterfaceOption.Required o &&
             negb (is_None (InterfaceOption.Default o)))%bool = false /\
            validate o' = Ok tt.
Proof.
  intros Hinit.
  destruct (InterfaceOption.transfer a) as [o|e] eqn:Ht.
  - rewrite (init_after_transfer validate a o Ht) in Hinit.
    destruct (InterfaceOption.Required o &&
              negb (is_None (InterfaceOption.Default o)))%bool eqn:Hc;
      [discriminate|].
    destruct (validate (dashed a o)) as [[]|e] eqn:Hv; simpl in Hinit;
      [|discriminate].
    injection Hinit as <-. exists o. repeat split; assumption.
  - rewrite (init_transfer_fails validate a e Ht) in Hinit. discriminate.
Qed.

Lemma is_None_false (v : pyval) : v <> PyNone -> is_None v = false.
Proof. destruct v; simpl; congruence. Qed.

Lemma is_None_true (v : pyval) : is_None v = true <-> v = PyNone.
Proof. destruct v; simpl; split; congruence. Qed.

(** C2. Constructing an option, standalone or from a Parameter, fails
    with [IncompetentDeveloperError] (the configuration error) whenever
    the option that results is required and has a default other than
    [None]; hence no option that was constructed is both required and
    defaulted. For a standalone option the result is required when
    [Required] is given, and its default is [Default]; for one built
    from a Parameter it is required when the Parameter or the override
    is, and its default is the override unless that is [None]. *)
Theorem required_option_never_defaulted
    (validate : InterfaceOption.t -> res unit) (a : InterfaceOption.args) :
  (InterfaceOption.a_Parameter a = None ->
   InterfaceOption.a_Required a = true ->
   InterfaceOption.a_Default a <> PyNone ->
   is_configuration_error (InterfaceOption.__init__ validate a) = true) /\
  (forall p,
   InterfaceOption.a_Parameter a = Some p ->
   (CommandParameter.Required p || InterfaceOption.a_Required a)%bool = true ->
   InterfaceOption.unless_overridden_val
     (CommandParameter.Default p) (InterfaceOption.a_Default a) <> PyNone ->
   is_configuration_error (InterfaceOption.__init__ validate a) = true) /\
  (forall o,
   InterfaceOption.transfer a = Ok o ->
   InterfaceOption.Required o = true ->
   InterfaceOption.Default o <> PyNone ->
   is_configuration_error (InterfaceOption.__init__ validate a) = true) /\
  (forall o,
   InterfaceOption.__init__ validate a = Ok o ->
   ~ (InterfaceOption.Required o = true /\
      InterfaceOption.Default o <> PyNone)).
Proof.
  assert (Hgen : forall o,
    InterfaceOption.transfer a = Ok o ->
    InterfaceOption.Required o = true ->
    InterfaceOption.Default o <> PyNone ->
    is_configuration_error (InterfaceOption.__init__ validate a) = true).
  { intros o Ht Hr Hd. rewrite (init_after_transfer validate a o Ht).
    rewrite Hr, (is_None_false _ Hd). reflexivity. }
  split; [|split; [|split]].
  - intros Hp Hr Hd.
    destruct (InterfaceOption.transfer a) as [o|e] eqn:Ht.
    + apply (Hgen o eq_refl); unfold InterfaceOption.transfer in Ht;
        rewrite Hp in Ht;
        destruct (InterfaceOption.a_Name a); try discriminate;
        destruct (InterfaceOption.a_Help a); try discriminate;
        injection Ht as <-; assumption.
    + rewrite (init_transfer_fails validate a e Ht).
      unfold InterfaceOption.transfer in Ht. rewrite Hp in Ht.
      destruct (InterfaceOption.a_Name a);
        [destruct (InterfaceOption.a_Help a)|]; try discriminate;
        injection Ht as <-; reflexivity.
  - intros p Hp Hr Hd.
    assert (Ht : exists o, InterfaceOption.transfer a = Ok o /\
                 InterfaceOption.Required o = true /\
                 InterfaceOption.Default o <> PyNone).
    { unfold InterfaceOption.transfer. rewrite Hp. eexists. split; [reflexivity|].
      cbn. split; [|exact Hd].
      destruct (CommandParameter.Required p), (InterfaceOption.a_Required a);
        simpl in *; congruence. }
    destruct Ht as (o & Ht & Hro & Hdo). exact (Hgen o Ht Hro Hdo).
  - exact Hgen.
  - intros o' Hinit [Hr Hd].
    destruct (init_Ok_inv validate a o' Hinit) as (o & Ht & -> & Hc & _).
    rewrite dashed_Required in Hr. rewrite dashed_Default in Hd.
    rewrite Hr, (is_None_false _ Hd) in Hc. discriminate.
Qed.


Lemma required_option_never_defaulted_witness :
  is_configuration_error
    (InterfaceOption.__init__ accept_all
       (from_parameter required_parameter_with_default false)) = true /\
  exists o,
    InterfaceOption.__init__ accept_all (from_parameter optional_parameter true)
      = Ok o /\
    ~ (InterfaceOption.Required o = true /\ InterfaceOption.Default o <> PyNone).
Proof.
  split.
  - apply (proj1 (proj2 (required_option_never_defaulted accept_all
             (from_parameter required_parameter_with_default false)))
             required_parameter_with_default);
      [reflexivity | reflexivity | discriminate].
  - eexists. split; [reflexivity|].
    apply (proj2 (proj2 (proj2 (required_option_never_defaulted accept_all
             (from_parameter optional_parameter true))))).
    reflexivity.
Defined.

(** C3. For an option built from a Parameter: it is required when the
    Parameter is, whatever the override; it is required when the
    Parameter is optional and the override asks for it; it is optional
    when both are. Help (the Parameter's description), default and
    default description are the Parameter's unless the argument is
    given, that is, is not [None]. *)
Theorem requiredness_merge_is_asymmetric
    (validate : InterfaceOption.t -> res unit) (a : InterfaceOption.args)
    (p : CommandParameter.t) (o : InterfaceOption.t) :
  InterfaceOption.a_Parameter a = Some p ->
  InterfaceOption.__init__ validate a = Ok o ->
  (CommandParameter.Required p = true -> InterfaceOption.Required o = true) /\
  (CommandParameter.Required p = false ->
   InterfaceOption.a_Required a = true -> InterfaceOption.Required o = true) /\
  (CommandParameter.Required p = false ->
   InterfaceOption.a_Required a = false -> InterfaceOption.Required o = false) /\
  InterfaceOption.Help o =
    match InterfaceOption.a_Help a with
    | None => CommandParameter.Description p
    | Some help => help
    end /\
  InterfaceOption.Default o =
    match InterfaceOption.a_Default a with
    | PyNone => CommandParameter.Default p
    | given => given
    end /\
  InterfaceOption.DefaultDescription o =
    match InterfaceOption.a_DefaultDescription a with
    | None => CommandParameter.DefaultDescription p
    | Some d => Some d
    end.
Proof.
  intros Hp Hinit.
  destruct (init_Ok_inv validate a o Hinit) as (o0 & Ht & -> & _ & _).
  rewrite dashed_Required, dashed_Help, dashed_Default,
    dashed_DefaultDescription.
  unfold InterfaceOption.transfer in Ht. rewrite Hp in Ht.
  injection Ht as <-. cbn.
  repeat split.
  - intros ->. now destruct (InterfaceOption.a_Required a).
  - intros -> ->. reflexivity.
  - intros -> ->. reflexivity.
  - unfold InterfaceOption.unless_overridden_val.
    now destruct (InterfaceOption.a_Default a).
Qed.

Lemma requiredness_merge_is_asymmetric_witness :
  exists o,
    InterfaceOption.__init__ accept_all (from_parameter optional_parameter true)
      = Ok o /\
    InterfaceOption.Required o = true /\
    InterfaceOption.Help o = "the input file".
Proof.
  eexists. split; [reflexivity|].
  pose proof (requiredness_merge_is_asymmetric accept_all
                (from_parameter optional_parameter true) optional_parameter _
                eq_refl eq_refl) as (_ & Hreq & _ & Hhelp & _).
  split; [apply Hreq; reflexivity | exact Hhelp].
Defined.

(* ===================================================================== *)
(** * Interface construction: duplicate bindings                          *)
(* ===================================================================== *)

Lemma param_names_duplicate l1 o1 l2 o2 l3 n :
  InterfaceOption.getParameterName o1 = Some n ->
  InterfaceOption.getParameterName o2 = Some n ->
  ~ NoDup (Interface.param_names (l1 ++ o1 :: l2 ++ o2 :: l3)).
Proof.
  intros H1 H2. unfold Interface.param_names.
  rewrite omap_app. cbn [omap list_omap]. rewrite H1.
  rewrite omap_app. cbn [omap list_omap]. rewrite H2.
  intros Hnd. apply NoDup_app in Hnd as (_ & _ & Hnd).
  apply NoDup_cons in Hnd as [Hnotin _]. apply Hnotin.
  apply elem_of_app. right. apply list_elem_of_here.
Qed.

(** C4. When the list of inputs holds, at two places, options bound to
    Parameters of the same name, [_validate_inputs] raises
    [IncompetentDeveloperError]; constructing the Interface then returns
    no instance, whatever the command constructor and the other
    declarations are, and raises that very error as soon as the command
    was constructed and the usage examples were obtained. *)
Theorem duplicate_binding_fails_construction
    (l1 l2 l3 : list InterfaceOption.t) (o1 o2 : InterfaceOption.t)
    (n : string) :
  InterfaceOption.getParameterName o1 = Some n ->
  InterfaceOption.getParameterName o2 = Some n ->
  let inputs := (l1 ++ o1 :: l2 ++ o2 :: l3)%list in
  Interface._validate_inputs inputs =
    Raise (IncompetentDeveloperError Interface.duplicate_binding_msg) /\
  (forall (Cmd Kw R : Type) (ctor : option (Kw -> res Cmd))
          (usage_examples : res (list InterfaceUsageExample.t))
          (outputs : res (list R)) (kwargs : Kw),
     is_Ok (Interface.__init__ ctor usage_examples (Ok inputs) outputs kwargs)
       = false) /\
  (forall (Cmd Kw R : Type) (ctor : Kw -> res Cmd) (cmd : Cmd)
          (usage_examples : list InterfaceUsageExample.t)
          (outputs : res (list R)) (kwargs : Kw),
     ctor kwargs = Ok cmd ->
     Interface.__init__ (Some ctor) (Ok usage_examples) (Ok inputs) outputs
       kwargs =
     Raise (IncompetentDeveloperError Interface.duplicate_binding_msg)).
Proof.
  intros H1 H2 inputs.
  assert (Hv : Interface._validate_inputs inputs =
               Raise (IncompetentDeveloperError Interface.duplicate_binding_msg)).
  { destruct (validate_inputs_spec inputs) as [[Hnd _]|[_ Hr]]; [|exact Hr].
    exfalso. exact (param_names_duplicate l1 o1 l2 o2 l3 n H1 H2 Hnd). }
  split; [exact Hv|]. split.
  - intros Cmd Kw R ctor ue outs kwargs. unfold Interface.__init__.
    destruct ctor as [c|]; [|reflexivity].
    destruct (c kwargs); [|reflexivity]. cbn [rbind].
    destruct ue; [|reflexivity]. cbn [rbind Interface._validate_usage_examples].
    rewrite Hv. reflexivity.
  - intros Cmd Kw R ctor cmd ue outs kwargs Hc. unfold Interface.__init__.
    rewrite Hc. cbn [rbind Interface._validate_usage_examples].
    rewrite Hv. reflexivity.
Qed.



Lemma duplicate_binding_fails_construction_witness :
  Interface._validate_inputs
    [bound_to optional_parameter "input-fp"; standalone "verbose";
     bound_to optional_parameter "in"] =
  Raise (IncompetentDeveloperError Interface.duplicate_binding_msg).
Proof.
  exact (proj1 (duplicate_binding_fails_construction
                  [] [standalone "verbose"] []
                  (bound_to optional_parameter "input-fp")
                  (bound_to optional_parameter "in") "input_fp"
                  eq_refl eq_refl)).
Defined.

(** Without a duplicate the same list passes: two standalone options
    share no Parameter. *)
Example standalone_options_pass :
  Interface._validate_inputs
    [bound_to optional_parameter "input-fp"; standalone "verbose";
     standalone "verbose"] = Ok tt.
Proof.
  destruct (validate_inputs_spec
    [bound_to optional_parameter "input-fp"; standalone "verbose";
     standalone "verbose"]) as [[_ H]|[Hdup _]]; [exact H|].
  exfalso. apply Hdup. cbn. apply NoDup_singleton.
Qed.

(* ===================================================================== *)
(** * new_filepath                                                        *)
(* ===================================================================== *)

Lemma new_filepath_existing refusal data path fs :
  is_Some (fs !! path) ->
  new_filepath refusal data path fs =
    (Raise (IOError ("Output path " ++ path ++ " already exists.")), fs).
Proof.
  intros Hex. unfold new_filepath, bind, FS.exists_.
  rewrite bool_decide_eq_true_2 by exact Hex. reflexivity.
Qed.

Lemma new_filepath_refused refusal data path fs msg :
  fs !! path = None ->
  refusal fs path = Some msg ->
  new_filepath refusal data path fs = (Raise (IOError msg), fs).
Proof.
  intros Hnone Hrefused. unfold new_filepath, bind, FS.exists_.
  rewrite bool_decide_eq_false_2 by (rewrite Hnone; apply is_Some_None).
  unfold FS.open_w. rewrite Hrefused. reflexivity.
Qed.

Lemma new_filepath_fresh refusal data path fs :
  fs !! path = None ->
  refusal fs path = None ->
  new_filepath refusal data path fs = (Ok tt, <[path := File data]> fs).
Proof.
  intros Hnone Hopen. unfold new_filepath, bind, FS.exists_.
  rewrite bool_decide_eq_false_2 by (rewrite Hnone; apply is_Some_None).
  unfold FS.open_w. rewrite Hopen, Hnone.
  unfold FS.write, ret, FS.close, modify.
  cbn [FS.f_path FS.f_buffer]. rewrite lookup_insert_eq.
  rewrite insert_insert_eq. reflexivity.
Qed.

(** C9 as stated fails here: the path names nothing, and yet no file is
    created and no data written, because [open] refuses a path whose
    directory is missing. *)
Lemma missing_directory_is_not_written :
  let fs : gmap string node := {["in.txt" := File "old"]} in
  fs !! "nodir/out.txt" = None /\
  new_filepath missing_parent "new" "nodir/out.txt" fs =
    (Raise (IOError "[Errno 2] No such file or directory: 'nodir/out.txt'"),
     fs) /\
  snd (new_filepath missing_parent "new" "nodir/out.txt" fs)
    !! "nodir/out.txt" = None.
Proof.
  cbv zeta.
  assert (Habsent :
    ({["in.txt" := File "old"]} : gmap string node) !! "nodir/out.txt" = None)
    by reflexivity.
  assert (Hrun :
    new_filepath missing_parent "new" "nodir/out.txt"
      {["in.txt" := File "old"]} =
    (Raise (IOError "[Errno 2] No such file or directory: 'nodir/out.txt'"),
     {["in.txt" := File "old"]})).
  { apply new_filepath_refused; reflexivity. }
  split; [exact Habsent|]. split; [exact Hrun|].
  rewrite Hrun. exact Habsent.
Qed.

(** C9, amended. Called on a path that exists - as a file or as a directory -
    [new_filepath] raises the [IOError] that names the path, whatever
    [open] would do, and the file system is as it was: nothing was
    opened or written, the file there keeps its contents. Called on a
    path that does not exist and that [open] accepts, it returns and
    the file system has one file more, at that path, with the data as
    its contents; every other path is as it was. When [open] refuses
    the path, its [IOError] is raised and nothing is created or
    written. So whenever [new_filepath] returns, the path named nothing
    before and now names a file with exactly the data. *)
Theorem new_filepath_never_overwrites
    (refusal : gmap string node -> string -> option string)
    (data path : string) (fs : gmap string node) :
  (is_Some (fs !! path) ->
     new_filepath refusal data path fs =
       (Raise (IOError ("Output path " ++ path ++ " already exists.")), fs)) /\
  (fs !! path = None -> refusal fs path = None ->
     new_filepath refusal data path fs = (Ok tt, <[path := File data]> fs) /\
     (<[path := File data]> fs) !! path = Some (File data) /\
     forall other, other <> path ->
       (<[path := File data]> fs) !! other = fs !! other) /\
  (forall msg, fs !! path = None -> refusal fs path = Some msg ->
     new_filepath refusal data path fs = (Raise (IOError msg), fs)) /\
  (forall fs', new_filepath refusal data path fs = (Ok tt, fs') ->
     fs !! path = None /\ fs' !! path = Some (File data) /\
     forall other, other <> path -> fs' !! other = fs !! other).
Proof.
  split; [apply new_filepath_existing|]. split; [|split].
  - intros Hnone Hopen. split; [now apply new_filepath_fresh|]. split.
    + apply lookup_insert_eq.
    + intros other Hne. apply lookup_insert_ne. congruence.
  - intros msg. apply new_filepath_refused.
  - intros fs'. destruct (fs !! path) as [held|] eqn:Hpath.
    + rewrite new_filepath_existing by (rewrite Hpath; now exists held).
      discriminate.
    + destruct (refusal fs path) as [msg|] eqn:Hopen.
      * rewrite (new_filepath_refused refusal data path fs msg Hpath Hopen).
        discriminate.
      * rewrite (new_filepath_fresh refusal data path fs Hpath Hopen).
        intros [= <-]. split; [reflexivity|]. split.
        -- apply lookup_insert_eq.
        -- intros other Hne. apply lookup_insert_ne. congruence.
Qed.

Lemma new_filepath_never_overwrites_witness :
  new_filepath missing_parent "new" "out.txt" {["out.txt" := File "old"]} =
    (Raise (IOError "Output path out.txt already exists."),
     {["out.txt" := File "old"]}) /\
  new_filepath missing_parent "new" "out.txt" {["in.txt" := File "old"]} =
    (Ok tt, <["out.txt" := File "new"]> {["in.txt" := File "old"]}) /\
  new_filepath missing_parent "new" "nodir/out.txt"
    {["in.txt" := File "old"]} =
    (Raise (IOError "[Errno 2] No such file or directory: 'nodir/out.txt'"),
     {["in.txt" := File "old"]}).
Proof.
  split; [|split].
  - apply (proj1 (new_filepath_never_overwrites missing_parent "new"
                    "out.txt" {["out.txt" := File "old"]})).
    exists (File "old"). reflexivity.
  - apply (proj1 (proj2 (new_filepath_never_overwrites missing_parent "new"
                           "out.txt" {["in.txt" := File "old"]})));
      reflexivity.
  - apply (proj1 (proj2 (proj2 (new_filepath_never_overwrites missing_parent
                                  "new" "nodir/out.txt"
                                  {["in.txt" := File "old"]}))));
      reflexivity.
Defined.

(* ===================================================================== *)
(** * ParameterConversion                                                 *)
(* ===================================================================== *)

(** C10 as stated fails here: the rule is accepted although its action,
    [None], is none of the four actions of the specification's set. *)
Lemma conversion_without_action_is_accepted :
  (PyNone ∉ spec_cli_actions) /\
  (PyStr "string" ∈ spec_cli_types) /\
  ParameterConversion.__init__ "input-fp" (PyStr "string") PyNone None (Some "i")
  = Ok {| ParameterConversion.ShortName := Some "i";
          ParameterConversion.LongName := "input-fp";
          ParameterConversion.CLType := PyStr "string";
          ParameterConversion.CLAction := PyNone;
          ParameterConversion.InHandler := None |}.
Proof.
  split; [|split].
  - unfold spec_cli_actions. intros Hin.
    repeat (apply elem_of_cons in Hin as [Hin|Hin]; [discriminate|]).
    now apply elem_of_nil in Hin.
  - unfold spec_cli_types. do 2 apply list_elem_of_further.
    apply list_elem_of_here.
  - reflexivity.
Qed.

(** C10, amended. Constructing a conversion rule fails with
    [IncompetentDeveloperError] when its type is not in [CLTypes], or
    when its action is given (is not [None]) and is not in [CLActions];
    in every other case it succeeds and keeps its arguments. [CLActions]
    is the specification's set of four actions; an action left out is
    accepted. [CLTypes] is the specification's set of eight together with
    the type objects [float], [int] and [str]. *)
Theorem conversion_rule_is_validated
    (LongName : string) (CLType CLAction : pyval)
    (InHandler : option (pyval -> res pyval)) (ShortName : option string) :
  let rule := ParameterConversion.__init__ LongName CLType CLAction
                InHandler ShortName in
  ((CLType ∉ CLTypes) \/ (CLAction <> PyNone /\ (CLAction ∉ CLActions)) ->
     is_configuration_error rule = true) /\
  ((CLType ∈ CLTypes) -> CLAction = PyNone \/ (CLAction ∈ CLActions) ->
     rule = Ok {| ParameterConversion.ShortName := ShortName;
                  ParameterConversion.LongName := LongName;
                  ParameterConversion.CLType := CLType;
                  ParameterConversion.CLAction := CLAction;
                  ParameterConversion.InHandler := InHandler |}) /\
  CLActions = spec_cli_actions /\
  (forall x, (x ∈ CLTypes) <->
     (x ∈ spec_cli_types) \/
     (x ∈ [PyType TyFloat; PyType TyInt; PyType TyStr])).
Proof.
  intros rule. subst rule. unfold ParameterConversion.__init__.
  split; [|split; [|split]].
  - intros [Hty|[Hnone Hact]].
    + destruct (py_in CLType CLTypes) eqn:Hin;
        [apply py_in_CLTypes in Hin; contradiction | reflexivity].
    + destruct (py_in CLType CLTypes); [|reflexivity]. cbn [negb].
      rewrite (is_None_false _ Hnone).
      destruct (py_in CLAction CLActions) eqn:Hin;
        [apply py_in_CLActions in Hin; contradiction | reflexivity].
  - intros Hty Hact.
    rewrite (proj2 (py_in_CLTypes CLType) Hty). cbn [negb].
    destruct Hact as [->|Hact]; [reflexivity|].
    rewrite (proj2 (py_in_CLActions CLAction) Hact).
    now rewrite andb_false_r.
  - reflexivity.
  - intros x. unfold CLTypes, spec_cli_types.
    rewrite !elem_of_cons, !elem_of_nil. tauto.
Qed.

Lemma conversion_rule_is_validated_witness :
  is_configuration_error
    (ParameterConversion.__init__ "level" (PyStr "integer") PyNone None None)
    = true /\
  is_configuration_error
    (ParameterConversion.__init__ "level" (PyStr "int") (PyStr "count") None None)
    = true /\
  is_Ok
    (ParameterConversion.__init__ "level" (PyType TyInt) (PyStr "store") None None)
    = true.
Proof.
  split; [|split].
  - apply (proj1 (conversion_rule_is_validated "level" (PyStr "integer")
                    PyNone None None)).
    left. intros Hin. apply py_in_CLTypes in Hin. discriminate.
  - apply (proj1 (conversion_rule_is_validated "level" (PyStr "int")
                    (PyStr "count") None None)).
    right. split; [discriminate|].
    intros Hin. apply py_in_CLActions in Hin. discriminate.
  - rewrite (proj1 (proj2 (conversion_rule_is_validated "level" (PyType TyInt)
                             (PyStr "store") None None))); [reflexivity| |].
    + apply py_in_CLTypes. reflexivity.
    + right. apply py_in_CLActions. reflexivity.
Defined.

(* ===================================================================== *)
(** * CLInterface: the input side                                         *)
(* ===================================================================== *)


Lemma for_each_emit_library (printed : list string) self out :
  for_each printed (fun text => CLInterface.emit (ELibrary text))
    (world_of self out) =
  (Ok tt, world_of self (out ++ map ELibrary printed)).
Proof.
  revert out. induction printed as [|t printed IH]; intros out.
  - cbn. now rewrite app_nil_r.
  - cbn [for_each]. unfold bind at 1. cbn.
    change {| CLInterface.self_ := self; CLInterface.out := out ++ [ELibrary t] |}
      with (world_of self (out ++ [ELibrary t])).
    rewrite IH. now rewrite <- app_assoc.
Qed.

Lemma py_eqb_None (v : pyval) : py_eqb v PyNone = is_None v.
Proof. now destruct v. Qed.

Section RequiredCheck.

Variable dest : OptparseOption.t -> string.
Variable parser : OptionParser.t.
Variable opts : gmap string pyval.


Lemma check_loop_outcome (ids : list string) self out :
  Forall (fun id => is_Some (opts !! id)) ids ->
  for_each ids (check_one parser opts) (world_of self out) =
  match first_unset opts ids with
  | Some d =>
      (Raise (SystemExit 2),
       world_of self (out ++ [EPrintUsage true (OptionParser.usage parser);
                              EParserError (CLInterface.required_omitted_msg d)]))
  | None => (Ok tt, world_of self out)
  end.
Proof.
  induction ids as [|id ids IH]; intros Hpresent; [reflexivity|].
  apply Forall_cons in Hpresent as [[v Hv] Hrest].
  cbn [for_each]. unfold bind at 1. unfold check_one at 1.
  unfold bind at 1. unfold CLInterface.getattr. rewrite Hv.
  unfold ret at 1. cbv beta iota.
  rewrite py_eqb_None.
  unfold first_unset. cbn [List.find]. unfold is_unset at 1. rewrite Hv.
  destruct v; cbn [is_None];
    try (rewrite bool_decide_eq_false_2 by discriminate;
         unfold ret at 1; cbv beta iota; apply IH; exact Hrest).
  rewrite bool_decide_eq_true_2 by reflexivity.
  unfold CLInterface.parser_error, CLInterface.parser_exit, bind,
    CLInterface.emit, modify, raise, world_of. cbn.
  rewrite <- app_assoc. reflexivity.
Qed.

Lemma check_required_outcome (required : list CLOption.t) self out :
  Forall (fun id => is_Some (opts !! id))
         (CLInterface.required_option_ids dest required) ->
  CLInterface.check_required dest parser required opts (world_of self out) =
  match first_unset opts (CLInterface.required_option_ids dest required) with
  | Some d =>
      (Raise (SystemExit 2),
       world_of self (out ++ [EPrintUsage true (OptionParser.usage parser);
                              EParserError (CLInterface.required_omitted_msg d)]))
  | None => (Ok tt, world_of self out)
  end.
Proof.
  intros Hpresent. unfold CLInterface.check_required.
  destruct required as [|ro required]; [reflexivity|].
  exact (check_loop_outcome _ self out Hpresent).
Qed.

End RequiredCheck.

Lemma first_unset_Some opts ids d :
  first_unset opts ids = Some d ->
  d ∈ ids /\ opts !! d = Some PyNone.
Proof.
  unfold first_unset. intros Hf. apply find_some in Hf as [Hin Hun].
  split; [now apply list_elem_of_In|].
  unfold is_unset in Hun. now apply bool_decide_eq_true in Hun.
Qed.

Lemma first_unset_None opts ids :
  first_unset opts ids = None <->
  forall id, id ∈ ids -> opts !! id <> Some PyNone.
Proof.
  unfold first_unset. split.
  - intros Hf id Hin Hun.
    pose proof (find_none _ _ Hf id (proj1 (list_elem_of_In _ _) Hin)) as Hn.
    unfold is_unset in Hn. apply bool_decide_eq_false in Hn. contradiction.
  - intros Hall. destruct (List.find (is_unset opts) ids) as [d|] eqn:Hf;
      [|reflexivity].
    destruct (first_unset_Some opts ids d Hf) as [Hin Hun].
    exfalso. exact (Hall d Hin Hun).
Qed.

(** The only unset id is the first unset one. *)
Lemma first_unset_only opts ids d :
  d ∈ ids -> opts !! d = Some PyNone ->
  (forall id, id ∈ ids -> id <> d -> opts !! id <> Some PyNone) ->
  first_unset opts ids = Some d.
Proof.
  intros Hin Hun Hothers.
  destruct (first_unset opts ids) as [d'|] eqn:Hf.
  - destruct (first_unset_Some opts ids d' Hf) as [Hin' Hun'].
    destruct (decide (d' = d)) as [->|Hne]; [reflexivity|].
    exfalso. exact (Hothers d' Hin' Hne Hun').
  - exfalso. exact (proj1 (first_unset_None opts ids) Hf d Hin Hun).
Qed.

(** C5. With help-on-no-arguments enabled, an invocation with the empty
    argument list prints the usage text and ends in [SystemExit(-1)], a
    status other than [0]. Nothing else is output - no parser output, no
    usage error, no call of the command or of a handler - whatever
    [parse_args] would do, and the instance is left as it was. *)
Theorem help_on_no_arguments_short_circuits
    (dest : OptparseOption.t -> string)
    (parse_args : OptionParser.t -> list string ->
                  list string * res (gmap string pyval * list string))
    (self : CLInterface.t) :
  CLInterface.HelpOnNoArguments self = true ->
  CLInterface.invoke dest parse_args self (InList []) =
    (Raise (SystemExit (-1)), [EPrintUsage false (usage_of self)], self) /\
  -1 <> 0.
Proof.
  intros Hhelp. split; [|lia].
  unfold CLInterface.invoke, CLInterface.__call__, Interface.__call__.
  unfold bind at 1. cbn [CLInterface._the_in_validator ret].
  unfold bind at 1. unfold CLInterface._input_handler_of,
    CLInterface._input_handler.
  unfold bind at 1. cbn [CLInterface.get_self CLInterface.self_].
  rewrite Hhelp. cbn.
  reflexivity.
Qed.

Lemma help_on_no_arguments_short_circuits_witness :
  Demo.run Demo.interface [] =
    (Raise (SystemExit (-1)), [EPrintUsage false (usage_of Demo.interface)],
     Demo.interface).
Proof.
  exact (proj1 (help_on_no_arguments_short_circuits Demo.dest Demo.parse_args
                  Demo.interface eq_refl)).
Defined.

Section InputHandler.

Variable dest : OptparseOption.t -> string.
Variable parse_args :
  OptionParser.t -> list string ->
  list string * res (gmap string pyval * list string).


Lemma input_handler_help self out :
  CLInterface.HelpOnNoArguments self = true ->
  CLInterface._input_handler dest parse_args [] (world_of self out) =
  (Raise (SystemExit (-1)),
   world_of self (out ++ [EPrintUsage false (usage_of self)])).
Proof.
  intros Hhelp. unfold CLInterface._input_handler.
  unfold bind at 1. cbn [CLInterface.get_self CLInterface.self_ world_of].
  rewrite Hhelp. reflexivity.
Qed.

Lemma input_handler_after_parse self out argv printed opts args :
  CLInterface.HelpOnNoArguments self = false \/ argv <> [] ->
  parse_args (CLInterface.full_parser self) argv = (printed, Ok (opts, args)) ->
  CLInterface._input_handler dest parse_args argv (world_of self out) =
  match args with
  | first :: _ =>
      if CLInterface.DisallowPositionalArguments self
      then (Raise (SystemExit 2),
            world_of self
              (out ++ map ELibrary printed ++
               [EPrintUsage true (usage_of self);
                EParserError (CLInterface.positional_msg first)]))
      else after_positional dest self opts
             (world_of self (out ++ map ELibrary printed))
  | [] => after_positional dest self opts
            (world_of self (out ++ map ELibrary printed))
  end.
Proof.
  intros Hreach Hparse. unfold CLInterface._input_handler.
  unfold bind at 1. cbn [CLInterface.get_self CLInterface.self_ world_of].
  assert ((CLInterface.HelpOnNoArguments self && Nat.eqb (length argv) 0)%bool
          = false) as ->.
  { destruct Hreach as [->|Hne]; [reflexivity|].
    destruct argv; [contradiction|]. apply andb_false_r. }
  fold (CLInterface.full_parser self).
  unfold bind at 1. unfold CLInterface.call_parse_args. rewrite Hparse.
  unfold bind at 1.
  change {| CLInterface.self_ := self; CLInterface.out := out |}
    with (world_of self out).
  rewrite for_each_emit_library. unfold lift. cbn [fst snd].
  destruct args as [|first args].
  - unfold bind at 1. unfold ret at 1. reflexivity.
  - destruct (CLInterface.DisallowPositionalArguments self).
    + unfold bind at 1.
      unfold CLInterface.parser_error, CLInterface.parser_exit, bind,
        CLInterface.emit, modify, raise, world_of. cbn.
      rewrite <- !app_assoc. reflexivity.
    + unfold bind at 1. unfold ret at 1. reflexivity.
Qed.

Lemma after_positional_outcome self opts out :
  Forall (fun id => is_Some (opts !! id))
    (CLInterface.required_option_ids dest (CLInterface.required_opts self)) ->
  after_positional dest self opts (world_of self out) =
  match first_unset opts
          (CLInterface.required_option_ids dest (CLInterface.required_opts self))
  with
  | Some d =>
      (Raise (SystemExit 2),
       world_of self
         (out ++ [EPrintUsage true (usage_of self);
                  EParserError (CLInterface.required_omitted_msg d)]))
  | None =>
      CLInterface.apply_in_handlers
        (world_of (CLInterface.set_BelovedFunctionality opts self) out)
  end.
Proof.
  intros Hpresent. unfold after_positional. unfold bind at 1.
  rewrite (check_required_outcome dest _ opts _ self out Hpresent).
  destruct (first_unset opts _); reflexivity.
Qed.

(** An invocation whose input handler raises ends there. *)
Lemma invoke_input_raises self argv e self' out' :
  CLInterface._input_handler dest parse_args argv (world_of self []) =
    (Raise e, world_of self' out') ->
  CLInterface.invoke dest parse_args self (InList argv) = (Raise e, out', self').
Proof.
  intros Hin.
  unfold CLInterface.invoke, CLInterface.__call__, Interface.__call__.
  unfold bind at 1. cbn [CLInterface._the_in_validator ret].
  unfold bind at 1. cbn [CLInterface._input_handler_of].
  change {| CLInterface.self_ := self; CLInterface.out := [] |}
    with (world_of self []).
  rewrite Hin. reflexivity.
Qed.

End InputHandler.

Lemma library_events_no_command (printed : list string) :
  Forall (fun e => is_ECommand e = false) (map ELibrary printed).
Proof. induction printed; constructor; [reflexivity | assumption]. Qed.

Lemma required_id_elem_of dest (self : CLInterface.t) (ro : CLOption.t) :
  ro ∈ CLInterface.Options self -> CLOption.Required ro = true ->
  dest (CLOption.getOptparseOption ro) ∈
    CLInterface.required_option_ids dest (CLInterface.required_opts self).
Proof.
  intros Hin Hreq. unfold CLInterface.required_option_ids.
  apply list_elem_of_In, in_map_iff. exists ro. split; [reflexivity|].
  unfold CLInterface.required_opts. apply filter_In.
  split; [now apply list_elem_of_In | exact Hreq].
Qed.

(** A required id comes from a required option of the instance. *)
Lemma required_id_from_option dest (self : CLInterface.t) (id : string) :
  id ∈ CLInterface.required_option_ids dest (CLInterface.required_opts self) ->
  exists ro, ro ∈ CLInterface.Options self /\ CLOption.Required ro = true /\
             id = dest (CLOption.getOptparseOption ro).
Proof.
  unfold CLInterface.required_option_ids, CLInterface.required_opts.
  intros Hin. apply list_elem_of_In, in_map_iff in Hin as (ro & <- & Hro).
  apply filter_In in Hro as [Hro Hreq].
  exists ro. split; [now apply list_elem_of_In|]. now split.
Qed.

(** The first unset required id, found among the options: it belongs to
    a required option that is unset, and every required option before
    that one is set. *)
Lemma first_unset_splits_options dest (opts : gmap string pyval)
    (options : list CLOption.t) (d : string) :
  first_unset opts
    (map (fun ro => dest (CLOption.getOptparseOption ro))
         (List.filter CLOption.Required options)) = Some d ->
  exists pre missing post,
    options = (pre ++ missing :: post)%list /\
    CLOption.Required missing = true /\
    d = dest (CLOption.getOptparseOption missing) /\
    opts !! d = Some PyNone /\
    forall r, r ∈ pre -> CLOption.Required r = true ->
              opts !! dest (CLOption.getOptparseOption r) <> Some PyNone.
Proof.
  unfold first_unset.
  induction options as [|o options IH]; [discriminate|].
  cbn [List.filter]. destruct (CLOption.Required o) eqn:Hreq.
  - cbn [map List.find].
    destruct (is_unset opts (dest (CLOption.getOptparseOption o))) eqn:Hun.
    + intros [= <-]. exists [], o, options.
      split; [reflexivity|]. split; [exact Hreq|]. split; [reflexivity|].
      split; [now apply bool_decide_eq_true in Hun|].
      intros r Hr. now apply elem_of_nil in Hr.
    + intros Hf.
      destruct (IH Hf) as (pre & missing & post & -> & Hm & Hd & Hnone & Hpre).
      exists (o :: pre), missing, post.
      split; [reflexivity|]. split; [exact Hm|]. split; [exact Hd|].
      split; [exact Hnone|].
      intros r Hr Hrreq. apply elem_of_cons in Hr as [-> | Hr].
      * now apply bool_decide_eq_false in Hun.
      * now apply Hpre.
  - intros Hf.
    destruct (IH Hf) as (pre & missing & post & -> & Hm & Hd & Hnone & Hpre).
    exists (o :: pre), missing, post.
    split; [reflexivity|]. split; [exact Hm|]. split; [exact Hd|].
    split; [exact Hnone|].
    intros r Hr Hrreq. apply elem_of_cons in Hr as [-> | Hr].
    + congruence.
    + now apply Hpre.
Qed.

(** C1. Let the parser return values and left-over arguments for [argv],
    with an attribute for every required option. If a required option
    of the interface is unset - its value is [None] - the invocation ends
    in [SystemExit] with a status other than [0], calls no command, and
    leaves the instance as it was. When the required check is the one
    that ends it (the help short-circuit was not taken and no positional
    argument was refused), the parser's usage error is ["Required option
    --d omitted."], where [d] is the name the parser keeps the value
    under of the first option of the interface that is required and
    unset; it is the given option's when that is the only one unset.
    If every required option of the interface is set, the check passes
    and [_input_handler] goes on to store the parsed values and to
    apply the input handlers. *)
Theorem omitted_required_option_is_a_usage_error
    (dest : OptparseOption.t -> string)
    (parse_args : OptionParser.t -> list string ->
                  list string * res (gmap string pyval * list string))
    (self : CLInterface.t) (argv printed args : list string)
    (opts : gmap string pyval) :
  let id_of := fun ro : CLOption.t => dest (CLOption.getOptparseOption ro) in
  parse_args (CLInterface.full_parser self) argv = (printed, Ok (opts, args)) ->
  (forall ro : CLOption.t,
     ro ∈ CLInterface.Options self -> CLOption.Required ro = true ->
     is_Some (opts !! id_of ro)) ->
  (forall ro : CLOption.t,
     ro ∈ CLInterface.Options self -> CLOption.Required ro = true ->
     opts !! id_of ro = Some PyNone ->
     (exists status evs,
        status <> 0 /\
        CLInterface.invoke dest parse_args self (InList argv) =
          (Raise (SystemExit status), evs, self) /\
        Forall (fun e => is_ECommand e = false) evs) /\
     (reaches_required_check self argv args ->
      exists pre missing post,
        CLInterface.Options self = (pre ++ missing :: post)%list /\
        CLOption.Required missing = true /\
        opts !! id_of missing = Some PyNone /\
        (forall r, r ∈ pre -> CLOption.Required r = true ->
                   opts !! id_of r <> Some PyNone) /\
        ((forall r, r ∈ CLInterface.Options self ->
                    CLOption.Required r = true -> id_of r <> id_of ro ->
                    opts !! id_of r <> Some PyNone) ->
         id_of missing = id_of ro) /\
        CLInterface.invoke dest parse_args self (InList argv) =
          (Raise (SystemExit 2),
           (map ELibrary printed ++
              [EPrintUsage true (usage_of self);
               EParserError
                 ("Required option --" ++ id_of missing ++ " omitted.")])%list,
           self))) /\
  ((forall ro : CLOption.t,
      ro ∈ CLInterface.Options self -> CLOption.Required ro = true ->
      opts !! id_of ro <> Some PyNone) ->
   reaches_required_check self argv args ->
   forall out,
     CLInterface.check_required dest (CLInterface.full_parser self)
       (CLInterface.required_opts self) opts (world_of self out) =
       (Ok tt, world_of self out) /\
     CLInterface._input_handler dest parse_args argv (world_of self out) =
       CLInterface.apply_in_handlers
         (world_of (CLInterface.set_BelovedFunctionality opts self)
                   (out ++ map ELibrary printed))).
Proof.
  intros id_of Hparse Hattr.
  set (ids :=
    CLInterface.required_option_ids dest (CLInterface.required_opts self)).
  assert (Hpresent : Forall (fun id => is_Some (opts !! id)) ids).
  { apply Forall_forall. intros id Hin.
    destruct (required_id_from_option dest self id Hin) as (ro & Hro & Hreq & ->).
    exact (Hattr ro Hro Hreq). }
  split.
  - intros ro Hin Hreq Hunset.
    pose proof (required_id_elem_of dest self ro Hin Hreq) as Hid.
    fold ids in Hid.
    assert (Hfirst : exists d, first_unset opts ids = Some d).
    { destruct (first_unset opts ids) as [d|] eqn:Hf; [now exists d|].
      exfalso. exact (proj1 (first_unset_None opts ids) Hf _ Hid Hunset). }
    destruct Hfirst as [d Hd].
    assert (Hcheck : forall out,
      after_positional dest self opts (world_of self out) =
      (Raise (SystemExit 2),
       world_of self
         (out ++ [EPrintUsage true (usage_of self);
                  EParserError ("Required option --" ++ d ++ " omitted.")]))).
    { intros out. rewrite (after_positional_outcome dest self opts out Hpresent).
      fold ids. now rewrite Hd. }
    split.
    + destruct (CLInterface.HelpOnNoArguments self) eqn:Hhelp.
      * destruct argv as [|a argv].
        -- exists (-1), [EPrintUsage false (usage_of self)].
           split; [lia|]. split.
           ++ apply invoke_input_raises.
              now rewrite (input_handler_help dest parse_args self [] Hhelp).
           ++ repeat constructor.
        -- assert (Hne : a :: argv <> []) by discriminate.
           pose proof (input_handler_after_parse dest parse_args self []
                         (a :: argv) printed opts args
                         (or_intror Hne) Hparse) as Hih.
           destruct args as [|first args];
             [|destruct (CLInterface.DisallowPositionalArguments self)];
             try rewrite Hcheck in Hih;
             eexists 2, _; (split; [lia|]);
             (split; [apply invoke_input_raises; exact Hih|]);
             cbn [app]; apply Forall_app; (split;
               [apply library_events_no_command | repeat constructor]).
      * pose proof (input_handler_after_parse dest parse_args self []
                      argv printed opts args (or_introl Hhelp) Hparse) as Hih.
        destruct args as [|first args];
          [|destruct (CLInterface.DisallowPositionalArguments self)];
          try rewrite Hcheck in Hih;
          eexists 2, _; (split; [lia|]);
          (split; [apply invoke_input_raises; exact Hih|]);
          cbn [app]; apply Forall_app; (split;
            [apply library_events_no_command | repeat constructor]).
    + intros [Hreach Hpos].
      destruct (first_unset_splits_options dest opts (CLInterface.Options self)
                  d Hd)
        as (pre & missing & post & Hsplit & Hmreq & Hdm & Hdun & Hpre).
      exists pre, missing, post. fold (id_of missing) in Hdm. subst d.
      split; [exact Hsplit|]. split; [exact Hmreq|]. split; [exact Hdun|].
      split; [exact Hpre|]. split.
      * intros Honly.
        assert (Hothers : forall id, id ∈ ids -> id <> id_of ro ->
                                     opts !! id <> Some PyNone).
        { intros id Hidin Hne.
          destruct (required_id_from_option dest self id Hidin)
            as (r & Hr & Hrreq & ->).
          exact (Honly r Hr Hrreq Hne). }
        pose proof (first_unset_only opts ids _ Hid Hunset Hothers) as Hd'.
        fold (id_of ro) in Hd'. rewrite Hd in Hd'. now injection Hd'.
      * apply invoke_input_raises.
        rewrite (input_handler_after_parse dest parse_args self [] argv
                   printed opts args Hreach Hparse).
        destruct args as [|first args].
        -- exact (Hcheck _).
        -- destruct Hpos as [->|Hnil]; [exact (Hcheck _) | discriminate].
  - intros Hset [Hreach Hpos] out.
    assert (Hall : first_unset opts ids = None).
    { apply first_unset_None. intros id Hin.
      destruct (required_id_from_option dest self id Hin) as (ro & Hro & Hreq & ->).
      exact (Hset ro Hro Hreq). }
    split.
    + rewrite (check_required_outcome dest _ opts _ self out Hpresent).
      fold ids. now rewrite Hall.
    + rewrite (input_handler_after_parse dest parse_args self out argv
                 printed opts args Hreach Hparse).
      assert (Hgo : after_positional dest self opts
                      (world_of self (out ++ map ELibrary printed)) =
                    CLInterface.apply_in_handlers
                      (world_of (CLInterface.set_BelovedFunctionality opts self)
                                (out ++ map ELibrary printed))).
      { rewrite (after_positional_outcome dest self opts _ Hpresent).
        fold ids. now rewrite Hall. }
      destruct args as [|first args]; [exact Hgo|].
      destruct Hpos as [->|Hnil]; [exact Hgo | discriminate].
Qed.

Lemma omitted_required_option_is_a_usage_error_witness :
  Demo.run Demo.interface ["-i"; "in.txt"] =
    (Raise (SystemExit 2),
     [EPrintUsage true (usage_of Demo.interface);
      EParserError "Required option --output_fp omitted."],
     Demo.interface) /\
  CLInterface._input_handler Demo.dest Demo.parse_args
    ["-i"; "in.txt"; "-o"; "out.txt"] (world_of Demo.interface []) =
  CLInterface.apply_in_handlers
    (world_of (CLInterface.set_BelovedFunctionality Demo.values_with_output
                 Demo.interface) []).
Proof.
  assert (Hoptions : forall (P : CLOption.t -> Prop),
            P Demo.input_fp -> P Demo.level -> P Demo.output_fp ->
            forall ro, ro ∈ CLInterface.Options Demo.interface -> P ro).
  { intros P Hi Hl Ho ro Hin.
    apply elem_of_cons in Hin as [->|Hin]; [exact Hi|].
    apply elem_of_cons in Hin as [->|Hin]; [exact Hl|].
    apply elem_of_cons in Hin as [->|Hin]; [exact Ho|].
    now apply elem_of_nil in Hin. }
  assert (Hreach : forall a argv,
            reaches_required_check Demo.interface (a :: argv) []).
  { intros a argv. split; [right; discriminate | right; reflexivity]. }
  split.
  - assert (Hattr : forall ro : CLOption.t,
              ro ∈ CLInterface.Options Demo.interface ->
              CLOption.Required ro = true ->
              is_Some (Demo.values_without_output
                         !! Demo.dest (CLOption.getOptparseOption ro))).
    { apply (Hoptions (fun ro =>
               CLOption.Required ro = true ->
               is_Some (Demo.values_without_output
                          !! Demo.dest (CLOption.getOptparseOption ro))));
        intros _; eexists; reflexivity. }
    destruct (omitted_required_option_is_a_usage_error Demo.dest
                Demo.parse_args Demo.interface ["-i"; "in.txt"] [] []
                Demo.values_without_output eq_refl Hattr)
      as [Homitted _].
    assert (Hin : Demo.output_fp ∈ CLInterface.Options Demo.interface).
    { do 2 apply list_elem_of_further. apply list_elem_of_here. }
    destruct (Homitted Demo.output_fp Hin eq_refl eq_refl) as [_ Hnamed].
    destruct (Hnamed (Hreach _ _))
      as (pre & missing & post & _ & _ & _ & _ & Honly & Hrun).
    rewrite Honly in Hrun; [exact Hrun|].
    apply (Hoptions (fun r =>
             CLOption.Required r = true ->
             Demo.dest (CLOption.getOptparseOption r) <>
               Demo.dest (CLOption.getOptparseOption Demo.output_fp) ->
             Demo.values_without_output
               !! Demo.dest (CLOption.getOptparseOption r) <> Some PyNone)).
    + intros _ _. discriminate.
    + intros Hreq. discriminate Hreq.
    + intros _ Hne. now contradiction Hne.
  - assert (Hattr : forall ro : CLOption.t,
              ro ∈ CLInterface.Options Demo.interface ->
              CLOption.Required ro = true ->
              is_Some (Demo.values_with_output
                         !! Demo.dest (CLOption.getOptparseOption ro))).
    { apply (Hoptions (fun ro =>
               CLOption.Required ro = true ->
               is_Some (Demo.values_with_output
                          !! Demo.dest (CLOption.getOptparseOption ro))));
        intros _; eexists; reflexivity. }
    destruct (omitted_required_option_is_a_usage_error Demo.dest
                Demo.parse_args Demo.interface
                ["-i"; "in.txt"; "-o"; "out.txt"] [] []
                Demo.values_with_output eq_refl Hattr)
      as [_ Hsupplied].
    apply Hsupplied; [|apply Hreach].
    apply (Hoptions (fun r =>
             CLOption.Required r = true ->
             Demo.values_with_output
               !! Demo.dest (CLOption.getOptparseOption r) <> Some PyNone)).
    + intros _. discriminate.
    + intros Hreq. discriminate Hreq.
    + intros _. discriminate.
Defined.

(* ===================================================================== *)
(** * Usage text                                                          *)
(* ===================================================================== *)

Lemma format_usage_example_text (e : UsageExample.t) :
  CLInterface.format_usage_example e = example_text e.
Proof.
  unfold CLInterface.format_usage_example, example_text.
  destruct (String.eqb (strip (strip_colon (UsageExample.ShortDesc e))) "");
    cbn [negb]; [reflexivity|].
  now rewrite string_app_assoc.
Qed.

Lemma build_usage_lines_layout (self : CLInterface.t)
    (required_options : list CLOption.t) :
  CLInterface._build_usage_lines self required_options =
  usage_layout (map display required_options)
    (Command.LongDescription (CLInterface.CmdInstance self))
    (CLInterface.UsageExamples self).
Proof.
  unfold CLInterface._build_usage_lines, usage_layout, usage_layout_by.
  rewrite (map_ext _ _ format_usage_example_text).
  unfold first_line. rewrite map_map. unfold required_token, display.
  cbn [fst snd join].
  reflexivity.
Qed.

(** C6 as stated fails here: an example whose short description is empty
    is rendered without the [ShortDesc: ] part, so the text differs from
    the one the specification describes. The descriptions and the
    invocation of the example are already stripped: the difference is
    this one alone. *)
Lemma empty_short_description_is_left_out :
  UsageExample.ShortDesc Demo.example2 = "" /\
  CLInterface.format_usage_example Demo.example2 =
    "Copy thoroughly" ++ nl ++ " %prog -i in.txt -o out.txt --level 2" /\
  spec_example_text Demo.example2 =
    ": Copy thoroughly" ++ nl ++ " %prog -i in.txt -o out.txt --level 2" /\
  CLInterface._build_usage_lines Demo.terse
    (CLInterface.required_opts Demo.terse) <>
  spec_usage_text (map display (CLInterface.required_opts Demo.terse))
    (Command.LongDescription (CLInterface.CmdInstance Demo.terse))
    (CLInterface.UsageExamples Demo.terse).
Proof.
  split; [reflexivity|]. split; [reflexivity|]. split; [reflexivity|].
  apply String.eqb_neq. vm_compute. reflexivity.
Qed.

(** C6, amended. The usage text is the layout [usage_layout] of the
    required options' display forms and names, the command's long
    description and the usage examples: the first line with the program
    name and a [flag NAME] token per required option inside braces, a
    blank line, the two legend lines, a blank line, the long description,
    a blank line, the three lines of the help hint, a blank line, and the
    examples separated by blank lines; an example is its stripped short
    description, colon, stripped long description, a new line and the
    indented stripped invocation, and without the short description and
    its colon when that is empty. Two instances that agree on these
    three things give the same text, whatever else they hold. *)
Theorem usage_text_is_determined_by_configuration
    (self : CLInterface.t) (required_options : list CLOption.t) :
  CLInterface._build_usage_lines self required_options =
    usage_layout (map display required_options)
      (Command.LongDescription (CLInterface.CmdInstance self))
      (CLInterface.UsageExamples self) /\
  (forall e : UsageExample.t,
     let short := strip (strip_colon (UsageExample.ShortDesc e)) in
     let long := strip (strip_colon (UsageExample.LongDesc e)) in
     let invocation := strip (UsageExample.Ex e) in
     CLInterface.format_usage_example e =
       if String.eqb short ""
       then long ++ nl ++ " " ++ invocation
       else short ++ ": " ++ long ++ nl ++ " " ++ invocation) /\
  (forall (self' : CLInterface.t) (required_options' : list CLOption.t),
     map display required_options' = map display required_options ->
     Command.LongDescription (CLInterface.CmdInstance self') =
       Command.LongDescription (CLInterface.CmdInstance self) ->
     CLInterface.UsageExamples self' = CLInterface.UsageExamples self ->
     CLInterface._build_usage_lines self' required_options' =
     CLInterface._build_usage_lines self required_options).
Proof.
  split; [apply build_usage_lines_layout|]. split.
  - intros e short long invocation.
    unfold CLInterface.format_usage_example. fold short long invocation.
    now destruct (String.eqb short "").
  - intros self' required_options' Hreq Hdesc Hex.
    rewrite !build_usage_lines_layout. now rewrite Hreq, Hdesc, Hex.
Qed.

Lemma usage_text_is_determined_by_configuration_witness :
  CLInterface._build_usage_lines
    (CLInterface.set_BelovedFunctionality Demo.values_with_output Demo.interface)
    [Demo.input_fp; Demo.output_fp] =
  CLInterface._build_usage_lines Demo.interface
    (CLInterface.required_opts Demo.interface).
Proof.
  apply (proj2 (proj2 (usage_text_is_determined_by_configuration
                         Demo.interface
                         (CLInterface.required_opts Demo.interface))));
    reflexivity.
Defined.

(* ===================================================================== *)
(** * Output dispatch                                                     *)
(* ===================================================================== *)


Lemma output_handler_unfold results self out :
  CLInterface._output_handler results (world_of self out) =
  for_each (CLInterface.output_map self) (dispatch_one results)
    (world_of self out).
Proof. reflexivity. Qed.

Lemma dispatch_one_served self results kh ev out :
  served self results kh ev ->
  dispatch_one results kh (world_of self out) =
    (Ok tt, world_of self (out ++ [ev])).
Proof.
  intros (value & Hv & Hserved). unfold dispatch_one. rewrite Hv.
  destruct (OutputHandler.OptionName (snd kh)) as [option_name|].
  - destruct Hserved as (opt_value & Hopt & -> & Hf).
    unfold bind at 1. cbn [CLInterface.get_self CLInterface.self_ world_of].
    rewrite Hopt. unfold bind, CLInterface.emit, modify, lift. cbn.
    now rewrite Hf.
  - destruct Hserved as [-> Hf].
    unfold bind, CLInterface.emit, modify, lift. cbn. now rewrite Hf.
Qed.

Lemma dispatch_served_prefix self results pre evs rest out :
  Forall2 (served self results) pre evs ->
  for_each (pre ++ rest) (dispatch_one results) (world_of self out) =
  for_each rest (dispatch_one results) (world_of self (out ++ evs)).
Proof.
  intros Hpre. revert out.
  induction Hpre as [|kh ev pre evs Hone _ IH]; intros out.
  - cbn [app]. now rewrite app_nil_r.
  - cbn [app for_each]. unfold bind at 1.
    rewrite (dispatch_one_served self results kh ev out Hone).
    rewrite IH. now rewrite <- app_assoc.
Qed.




(* ===================================================================== *)
(** * What an instance keeps between invocations                          *)
(* ===================================================================== *)

Lemma set_BelovedFunctionality_twice a b self :
  CLInterface.set_BelovedFunctionality a
    (CLInterface.set_BelovedFunctionality b self) =
  CLInterface.set_BelovedFunctionality a self.
Proof. reflexivity. Qed.

Lemma set_BelovedFunctionality_same self :
  CLInterface.set_BelovedFunctionality
    (CLInterface.BelovedFunctionality self) self = self.
Proof. now destruct self. Qed.

Lemma same_configuration_set bf self :
  CLInterface.same_configuration
    (CLInterface.set_BelovedFunctionality bf self) self.
Proof. reflexivity. Qed.


Lemma keeps_ret {A} (a : A) : keeps_configuration (ret a).
Proof. intros w. reflexivity. Qed.

Lemma keeps_raise {A} (e : exc) : keeps_configuration (@raise _ A e).
Proof. intros w. reflexivity. Qed.

Lemma keeps_lift {A} (r : res A) : keeps_configuration (lift r).
Proof. intros w. reflexivity. Qed.

Lemma keeps_get_self : keeps_configuration CLInterface.get_self.
Proof. intros w. reflexivity. Qed.

Lemma keeps_emit e : keeps_configuration (CLInterface.emit e).
Proof. intros w. reflexivity. Qed.

Lemma keeps_assign bf :
  keeps_configuration (CLInterface.assign_BelovedFunctionality bf).
Proof. intros w. reflexivity. Qed.

Lemma keeps_bind {A B} (m : M CLInterface.world A)
    (k : A -> M CLInterface.world B) :
  keeps_configuration m -> (forall a, keeps_configuration (k a)) ->
  keeps_configuration (bind m k).
Proof.
  intros Hm Hk w. unfold bind. specialize (Hm w).
  destruct (m w) as [[a|e] w1]; cbn [snd] in *.
  - specialize (Hk a w1). unfold CLInterface.same_configuration in *.
    congruence.
  - exact Hm.
Qed.

Lemma keeps_for_each {A} (l : list A) (body : A -> M CLInterface.world unit) :
  (forall x, keeps_configuration (body x)) ->
  keeps_configuration (for_each l body).
Proof.
  intros Hbody. induction l as [|x l IH]; cbn [for_each].
  - apply keeps_ret.
  - apply keeps_bind; [apply Hbody | intros _; exact IH].
Qed.

Create HintDb keeps.
#[local] Hint Resolve keeps_ret keeps_raise keeps_lift keeps_get_self
  keeps_emit keeps_assign : keeps.

Ltac keeps :=
  repeat first
    [ solve [auto with keeps]
    | progress cbv zeta
    | apply keeps_bind; [|intros ?]
    | apply keeps_for_each; intros ?
    | match goal with
      | |- keeps_configuration (match ?x with _ => _ end) => destruct x
      | |- keeps_configuration (if ?b then _ else _) => destruct b
      end ].

Lemma keeps_parser_error {A} parser msg :
  keeps_configuration (@CLInterface.parser_error A parser msg).
Proof. unfold CLInterface.parser_error, CLInterface.parser_exit. keeps. Qed.

Lemma keeps_apply_in_handlers :
  keeps_configuration CLInterface.apply_in_handlers.
Proof. unfold CLInterface.apply_in_handlers. keeps. Qed.

Lemma keeps_call_command cmd_input :
  keeps_configuration (CLInterface.call_command cmd_input).
Proof. unfold CLInterface.call_command. keeps. Qed.

Lemma keeps_output_handler results :
  keeps_configuration (CLInterface._output_handler results).
Proof. unfold CLInterface._output_handler. keeps. Qed.

#[local] Hint Resolve keeps_parser_error keeps_apply_in_handlers
  keeps_call_command keeps_output_handler : keeps.

Lemma keeps_input_handler dest parse_args argv :
  keeps_configuration (CLInterface._input_handler dest parse_args argv).
Proof.
  unfold CLInterface._input_handler, CLInterface.print_usage,
    CLInterface.parser_exit, CLInterface.call_parse_args,
    CLInterface.check_required, CLInterface.getattr.
  keeps.
Qed.

#[local] Hint Resolve keeps_input_handler : keeps.

Lemma keeps_call dest parse_args in_ :
  keeps_configuration (CLInterface.__call__ dest parse_args in_).
Proof.
  unfold CLInterface.__call__, Interface.__call__,
    CLInterface._the_in_validator, CLInterface._input_handler_of.
  keeps.
Qed.

Lemma check_loop_frame parser opts ids out :
  exists r out', forall self,
    for_each ids (check_one parser opts) (world_of self out) =
    (r, world_of self out').
Proof.
  revert out. induction ids as [|id ids IH]; intros out.
  - exists (Ok tt), out. reflexivity.
  - destruct (opts !! id) as [v|] eqn:Hv.
    + destruct (is_None v) eqn:Hnone.
      * exists (Raise (SystemExit 2)),
          (out ++ [EPrintUsage true (OptionParser.usage parser);
                   EParserError (CLInterface.required_omitted_msg id)])%list.
        intros self. cbn [for_each]. unfold bind at 1. unfold check_one at 1.
        unfold bind at 1. unfold CLInterface.getattr. rewrite Hv.
        unfold ret at 1. cbv beta iota. rewrite py_eqb_None, Hnone.
        unfold CLInterface.parser_error, CLInterface.parser_exit, bind,
          CLInterface.emit, modify, raise, world_of. cbn.
        rewrite <- app_assoc. reflexivity.
      * destruct (IH out) as (r & out' & Hrest). exists r, out'.
        intros self. cbn [for_each]. unfold bind at 1. unfold check_one at 1.
        unfold bind at 1. unfold CLInterface.getattr. rewrite Hv.
        unfold ret at 1. cbv beta iota. rewrite py_eqb_None, Hnone.
        unfold ret at 1. cbv beta iota. apply Hrest.
    + exists (Raise (AttributeError id)), out.
      intros self. cbn [for_each]. unfold bind at 1. unfold check_one at 1.
      unfold bind at 1. unfold CLInterface.getattr. rewrite Hv. reflexivity.
Qed.

Lemma check_required_frame dest parser required opts out :
  exists r out', forall self,
    CLInterface.check_required dest parser required opts (world_of self out) =
    (r, world_of self out').
Proof.
  unfold CLInterface.check_required. destruct required as [|ro required].
  - exists (Ok tt), out. reflexivity.
  - apply check_loop_frame.
Qed.

Section Forgets.

Variable dest : OptparseOption.t -> string.
Variable parse_args :
  OptionParser.t -> list string ->
  list string * res (gmap string pyval * list string).

Lemma input_handler_parse_raises self out argv printed e :
  CLInterface.HelpOnNoArguments self = false \/ argv <> [] ->
  parse_args (CLInterface.full_parser self) argv = (printed, Raise e) ->
  CLInterface._input_handler dest parse_args argv (world_of self out) =
  (Raise e, world_of self (out ++ map ELibrary printed)).
Proof.
  intros Hreach Hparse. unfold CLInterface._input_handler.
  unfold bind at 1. cbn [CLInterface.get_self CLInterface.self_ world_of].
  assert ((CLInterface.HelpOnNoArguments self && Nat.eqb (length argv) 0)%bool
          = false) as ->.
  { destruct Hreach as [->|Hne]; [reflexivity|].
    destruct argv; [contradiction|]. apply andb_false_r. }
  fold (CLInterface.full_parser self).
  unfold bind at 1. unfold CLInterface.call_parse_args. rewrite Hparse.
  unfold bind at 1.
  change {| CLInterface.self_ := self; CLInterface.out := out |}
    with (world_of self out).
  rewrite for_each_emit_library. reflexivity.
Qed.

(** Up to the assignment of the parsed values, [_input_handler] does not
    look at the values the instance holds: it either raises, the same
    way whatever they are, or reaches the assignment, after which they
    are gone. *)
Lemma input_handler_forgets self argv out :
  (exists e out', forall bf,
     CLInterface._input_handler dest parse_args argv
       (world_of (CLInterface.set_BelovedFunctionality bf self) out) =
     (Raise e, world_of (CLInterface.set_BelovedFunctionality bf self) out')) \/
  (exists opts out', forall bf,
     CLInterface._input_handler dest parse_args argv
       (world_of (CLInterface.set_BelovedFunctionality bf self) out) =
     CLInterface.apply_in_handlers
       (world_of (CLInterface.set_BelovedFunctionality opts self) out')).
Proof.
  assert (Hcases : (CLInterface.HelpOnNoArguments self = true /\ argv = []) \/
                   (CLInterface.HelpOnNoArguments self = false \/ argv <> [])).
  { destruct (CLInterface.HelpOnNoArguments self); [|now right; left].
    destruct argv; [now left | right; right; discriminate]. }
  destruct Hcases as [[Hhelp ->]|Hreach].
  - left.
    exists (SystemExit (-1)), (out ++ [EPrintUsage false (usage_of self)])%list.
    intros bf.
    exact (input_handler_help dest parse_args
             (CLInterface.set_BelovedFunctionality bf self) out Hhelp).
  - destruct (parse_args (CLInterface.full_parser self) argv)
      as [printed [[opts args]|e]] eqn:Hparse.
    + assert (Hpos : forall bf,
        CLInterface._input_handler dest parse_args argv
          (world_of (CLInterface.set_BelovedFunctionality bf self) out) =
        match args with
        | first :: _ =>
            if CLInterface.DisallowPositionalArguments self
            then (Raise (SystemExit 2),
                  world_of (CLInterface.set_BelovedFunctionality bf self)
                    (out ++ map ELibrary printed ++
                     [EPrintUsage true (usage_of self);
                      EParserError (CLInterface.positional_msg first)]))
            else after_positional dest
                   (CLInterface.set_BelovedFunctionality bf self) opts
                   (world_of (CLInterface.set_BelovedFunctionality bf self)
                      (out ++ map ELibrary printed))
        | [] => after_positional dest
                  (CLInterface.set_BelovedFunctionality bf self) opts
                  (world_of (CLInterface.set_BelovedFunctionality bf self)
                     (out ++ map ELibrary printed))
        end).
      { intros bf.
        exact (input_handler_after_parse dest parse_args
                 (CLInterface.set_BelovedFunctionality bf self) out argv
                 printed opts args Hreach Hparse). }
      destruct (check_required_frame dest (CLInterface.full_parser self)
                  (CLInterface.required_opts self) opts
                  (out ++ map ELibrary printed)) as (r & out' & Hcheck).
      assert (Hafter : forall bf,
        after_positional dest
          (CLInterface.set_BelovedFunctionality bf self) opts
          (world_of (CLInterface.set_BelovedFunctionality bf self)
             (out ++ map ELibrary printed)) =
        match r with
        | Ok _ => CLInterface.apply_in_handlers
                    (world_of (CLInterface.set_BelovedFunctionality opts self)
                       out')
        | Raise e =>
            (Raise e,
             world_of (CLInterface.set_BelovedFunctionality bf self) out')
        end).
      { intros bf. unfold after_positional. unfold bind at 1.
        change (CLInterface.full_parser
                  (CLInterface.set_BelovedFunctionality bf self))
          with (CLInterface.full_parser self).
        change (CLInterface.required_opts
                  (CLInterface.set_BelovedFunctionality bf self))
          with (CLInterface.required_opts self).
        rewrite Hcheck. destruct r as [[]|e]; reflexivity. }
      destruct args as [|first args];
        [|destruct (CLInterface.DisallowPositionalArguments self)].
      * destruct r as [[]|e].
        -- right. exists opts, out'. intros bf. now rewrite Hpos, Hafter.
        -- left. exists e, out'. intros bf. now rewrite Hpos, Hafter.
      * left. eexists _, _. intros bf. rewrite Hpos. reflexivity.
      * destruct r as [[]|e].
        -- right. exists opts, out'. intros bf. now rewrite Hpos, Hafter.
        -- left. exists e, out'. intros bf. now rewrite Hpos, Hafter.
    + left. exists e, (out ++ map ELibrary printed)%list. intros bf.
      exact (input_handler_parse_raises
               (CLInterface.set_BelovedFunctionality bf self) out argv
               printed e Hreach Hparse).
Qed.

End Forgets.


(** Line 149: a new instance holds no parsed values. *)
Lemma constructed_instance_holds_no_values {Kw : Type}
    usage_examples conversions additional output_map disallow help
    (base : list (string * ParameterConversion.t) -> Kw ->
            res (Command.t * list CLOption.t))
    (kwargs : Kw) (self : CLInterface.t) :
  CLInterface.__init__ usage_examples conversions additional output_map
    disallow help base kwargs = Ok self ->
  CLInterface.BelovedFunctionality self = ∅ /\
  CLInterface.UsageExamples self <> [].
Proof.
  unfold CLInterface.__init__. cbn [app].
  destruct usage_examples as [|e usage_examples]; [discriminate|].
  cbn [length Nat.ltb Nat.leb].
  change (ParameterConversion.__init__ "verbose" PyNone (PyStr "store_true")
            None (Some "v")) with (Ok Demo.verbose).
  cbn [rbind].
  destruct (base (dict_update [("verbose", Demo.verbose)] conversions) kwargs)
    as [b|err]; cbn [rbind]; [|discriminate].
  intros [= <-]. split; [reflexivity | discriminate].
Qed.

(** C8 as stated fails here: after an invocation the instance holds the
    values parsed in it, and it still holds them after a later invocation
    that ends early. The parsed values are state of the instance, kept
    between calls. *)
Lemma instance_retains_parsed_values :
  let first := Demo.run Demo.interface ["-i"; "in.txt"; "-o"; "out.txt"] in
  let second := Demo.run (instance_after first) [] in
  result_of first = Ok tt /\
  CLInterface.BelovedFunctionality Demo.interface = ∅ /\
  CLInterface.BelovedFunctionality (instance_after first) =
    Demo.values_with_output /\
  CLInterface.BelovedFunctionality (instance_after first) !! "input_fp" =
    Some (PyStr "in.txt") /\
  instance_after first <> Demo.interface /\
  result_of second = Raise (SystemExit (-1)) /\
  CLInterface.BelovedFunctionality (instance_after second) =
    Demo.values_with_output.
Proof.
  intros first second.
  assert (Hbf : CLInterface.BelovedFunctionality (instance_after first) =
                Demo.values_with_output) by (vm_compute; reflexivity).
  split; [vm_compute; reflexivity|]. split; [reflexivity|].
  split; [exact Hbf|]. split; [vm_compute; reflexivity|]. split.
  - intros Heq.
    assert (Hlook : CLInterface.BelovedFunctionality (instance_after first)
                      !! "input_fp" =
                    CLInterface.BelovedFunctionality Demo.interface
                      !! "input_fp") by now rewrite Heq.
    vm_compute in Hlook. discriminate.
  - split; vm_compute; reflexivity.
Qed.

Lemma keeps_self_ret {A} (a : A) : keeps_self (ret a).
Proof. intros w. reflexivity. Qed.

Lemma keeps_self_lift {A} (r : res A) : keeps_self (lift r).
Proof. intros w. reflexivity. Qed.

Lemma keeps_self_raise {A} (e : exc) : keeps_self (@raise _ A e).
Proof. intros w. reflexivity. Qed.

Lemma keeps_self_get_self : keeps_self CLInterface.get_self.
Proof. intros w. reflexivity. Qed.

Lemma keeps_self_emit e : keeps_self (CLInterface.emit e).
Proof. intros w. reflexivity. Qed.

Lemma keeps_self_bind {A B} (m : M CLInterface.world A)
    (k : A -> M CLInterface.world B) :
  keeps_self m -> (forall a, keeps_self (k a)) -> keeps_self (bind m k).
Proof.
  intros Hm Hk w. unfold bind. specialize (Hm w).
  destruct (m w) as [[a|e] w1]; cbn [snd] in *.
  - rewrite (Hk a w1). exact Hm.
  - exact Hm.
Qed.

Lemma keeps_self_for_each {A} (l : list A)
    (body : A -> M CLInterface.world unit) :
  (forall x, keeps_self (body x)) -> keeps_self (for_each l body).
Proof.
  intros Hbody. induction l as [|x l IH]; cbn [for_each].
  - apply keeps_self_ret.
  - apply keeps_self_bind; [apply Hbody | intros _; exact IH].
Qed.

Create HintDb keeps_self.
#[local] Hint Resolve keeps_self_ret keeps_self_lift keeps_self_raise
  keeps_self_get_self keeps_self_emit : keeps_self.

Ltac keeps_self :=
  repeat first
    [ solve [auto with keeps_self]
    | progress cbv zeta
    | apply keeps_self_bind; [|intros ?]
    | apply keeps_self_for_each; intros ?
    | match goal with
      | |- keeps_self (match ?x with _ => _ end) => destruct x
      end ].

(** Calling the command and dispatching its results leave the instance
    as it is. *)
Lemma command_and_dispatch_keep_self cmd_input :
  keeps_self (bind (CLInterface.call_command cmd_input)
                   CLInterface._output_handler).
Proof.
  unfold CLInterface.call_command, CLInterface._output_handler. keeps_self.
Qed.

Lemma returns_held_raise e : returns_held (raise e).
Proof. intros w kw w' H. discriminate H. Qed.

Lemma returns_held_bind {A} (m : M CLInterface.world A)
    (k : A -> M CLInterface.world (gmap string pyval)) :
  (forall a, returns_held (k a)) -> returns_held (bind m k).
Proof.
  intros Hk w kw w' H. unfold bind in H.
  destruct (m w) as [[a|e] w1]; [|discriminate H].
  exact (Hk a w1 kw w' H).
Qed.

Lemma returns_held_apply_in_handlers :
  returns_held CLInterface.apply_in_handlers.
Proof.
  unfold CLInterface.apply_in_handlers.
  apply returns_held_bind. intros self. apply returns_held_bind. intros _.
  intros w kw w' H. cbv in H. now injection H as <- <-.
Qed.

Lemma returns_held_input_handler dest parse_args argv :
  returns_held (CLInterface._input_handler dest parse_args argv).
Proof.
  unfold CLInterface._input_handler.
  apply returns_held_bind. intros self. cbv zeta.
  destruct (CLInterface.HelpOnNoArguments self && Nat.eqb (length argv) 0)%bool.
  - apply returns_held_bind. intros _. apply returns_held_raise.
  - do 4 (apply returns_held_bind; intros ?).
    apply returns_held_apply_in_handlers.
Qed.

Lemma invoke_after_input dest parse_args s argv :
  CLInterface.invoke dest parse_args s (InList argv) =
  match CLInterface._input_handler dest parse_args argv (world_of s []) with
  | (Ok cmd_input, w) =>
      let '(r, w') :=
        bind (CLInterface.call_command cmd_input)
             CLInterface._output_handler w in
      (r, CLInterface.out w', CLInterface.self_ w')
  | (Raise e, w) => (Raise e, CLInterface.out w, CLInterface.self_ w)
  end.
Proof.
  unfold CLInterface.invoke, CLInterface.__call__, Interface.__call__.
  unfold bind at 1. cbn [CLInterface._the_in_validator ret].
  unfold bind at 1. cbn [CLInterface._input_handler_of].
  change {| CLInterface.self_ := s; CLInterface.out := [] |}
    with (world_of s []).
  destruct (CLInterface._input_handler dest parse_args argv (world_of s []))
    as [[kw|e] w]; reflexivity.
Qed.

(** C8, amended. The outcome of an invocation - its result and its
    output - does not depend on the parsed values the instance holds
    when it starts, and an invocation never changes the configuration of
    the instance. What the instance holds afterwards is the same for
    every starting value when the invocation returns; in general it is
    either that, or the instance is untouched because the invocation
    ended before the parsed values were assigned. Whenever the input
    handler returns, the instance is left holding the very mapping the
    handler returned, the one the command is called with: the command
    and the output handlers change nothing of the instance. *)
Theorem parsed_values_are_replaced_by_each_invocation
    (dest : OptparseOption.t -> string)
    (parse_args : OptionParser.t -> list string ->
                  list string * res (gmap string pyval * list string))
    (self : CLInterface.t) (bf : gmap string pyval) (in_ : cli_input) :
  let first := CLInterface.invoke dest parse_args self in_ in
  let second :=
    CLInterface.invoke dest parse_args
      (CLInterface.set_BelovedFunctionality bf self) in_ in
  result_of first = result_of second /\
  output_of first = output_of second /\
  CLInterface.same_configuration (instance_after first) self /\
  CLInterface.same_configuration (instance_after second) self /\
  (is_Ok (result_of first) = true ->
   instance_after first = instance_after second) /\
  (instance_after first = instance_after second \/
   (instance_after first = self /\
    instance_after second = CLInterface.set_BelovedFunctionality bf self)) /\
  (forall argv kw w',
   in_ = InList argv ->
   CLInterface._input_handler dest parse_args argv (world_of self []) =
     (Ok kw, w') ->
   instance_after first = CLInterface.self_ w' /\
   CLInterface.BelovedFunctionality (instance_after first) = kw).
Proof.
  intros first second.
  assert (Hheld : forall argv kw w',
    in_ = InList argv ->
    CLInterface._input_handler dest parse_args argv (world_of self []) =
      (Ok kw, w') ->
    instance_after first = CLInterface.self_ w' /\
    CLInterface.BelovedFunctionality (instance_after first) = kw).
  { intros argv kw w' -> Hin. subst first.
    rewrite invoke_after_input, Hin.
    pose proof (command_and_dispatch_keep_self kw w') as Hsame.
    destruct (bind (CLInterface.call_command kw) CLInterface._output_handler w')
      as [r w''].
    unfold instance_after. cbn [snd] in *. rewrite Hsame.
    split; [reflexivity|].
    exact (returns_held_input_handler dest parse_args argv _ kw w' Hin). }
  assert (Hk1 : CLInterface.same_configuration (instance_after first) self).
  { subst first. unfold CLInterface.invoke, instance_after.
    pose proof (keeps_call dest parse_args in_
                  {| CLInterface.self_ := self; CLInterface.out := [] |}) as Hk.
    destruct (CLInterface.__call__ dest parse_args in_ _) as [r w].
    exact Hk. }
  assert (Hk2 : CLInterface.same_configuration (instance_after second) self).
  { subst second. unfold CLInterface.invoke, instance_after.
    pose proof (keeps_call dest parse_args in_
                  {| CLInterface.self_ :=
                       CLInterface.set_BelovedFunctionality bf self;
                     CLInterface.out := [] |}) as Hk.
    destruct (CLInterface.__call__ dest parse_args in_ _) as [r w].
    exact Hk. }
  cut (result_of first = result_of second /\
       output_of first = output_of second /\
       (is_Ok (result_of first) = true ->
        instance_after first = instance_after second) /\
       (instance_after first = instance_after second \/
        (instance_after first = self /\
         instance_after second = CLInterface.set_BelovedFunctionality bf self))).
  { intros (H1 & H2 & H3 & H4).
    split; [exact H1|]. split; [exact H2|]. split; [exact Hk1|].
    split; [exact Hk2|]. split; [exact H3|]. split; [exact H4 | exact Hheld]. }
  subst first second. clear Hk1 Hk2 Hheld.
  destruct in_ as [argv|items|repr].
  - rewrite !invoke_after_input.
    destruct (input_handler_forgets dest parse_args self argv [])
      as [(e & out' & Hraise)|(opts & out' & Hgo)].
    + rewrite (Hraise bf).
      pose proof (Hraise (CLInterface.BelovedFunctionality self)) as Hself.
      rewrite set_BelovedFunctionality_same in Hself. rewrite Hself.
      unfold result_of, output_of, instance_after, world_of.
      cbn [fst snd CLInterface.out CLInterface.self_ is_Ok].
      split; [reflexivity|]. split; [reflexivity|].
      split; [intros Hok; discriminate Hok|].
      right. split; reflexivity.
    + rewrite (Hgo bf).
      pose proof (Hgo (CLInterface.BelovedFunctionality self)) as Hself.
      rewrite set_BelovedFunctionality_same in Hself. rewrite Hself.
      split; [reflexivity|]. split; [reflexivity|].
      split; [intros _; reflexivity|].
      left. reflexivity.
  - unfold result_of, output_of, instance_after.
    destruct items as [|item [|item' items]]; cbn;
      (split; [reflexivity|]; split; [reflexivity|];
       split; [intros Hok; discriminate Hok|];
       right; split; reflexivity).
  - unfold result_of, output_of, instance_after. cbn.
    split; [reflexivity|]. split; [reflexivity|].
    split; [intros Hok; discriminate Hok|].
    right. split; reflexivity.
Qed.

Lemma parsed_values_are_replaced_by_each_invocation_witness :
  let argv := ["-i"; "in.txt"; "-o"; "out.txt"] in
  let stale :=
    CLInterface.set_BelovedFunctionality Demo.values_without_output
      Demo.interface in
  result_of (Demo.run Demo.interface argv) = result_of (Demo.run stale argv) /\
  output_of (Demo.run Demo.interface argv) = output_of (Demo.run stale argv) /\
  instance_after (Demo.run Demo.interface argv) =
    instance_after (Demo.run stale argv).
Proof.
  intros argv stale.
  pose proof (parsed_values_are_replaced_by_each_invocation Demo.dest
                Demo.parse_args Demo.interface Demo.values_without_output
                (InList argv)) as (Hr & Ho & _ & _ & Hsame & _).
  split; [exact Hr|]. split; [exact Ho|].
  apply Hsame. vm_compute. reflexivity.
Defined.

(* ===================================================================== *)
(** * Further properties of construction and validation                   *)
(* ===================================================================== *)

(** Without usage examples the construction of a [CLInterface] raises
    [IncompetentDeveloperError], before anything else is looked at. *)
Theorem no_usage_examples_fails_construction {Kw : Type}
    conversions additional output_map disallow help
    (base : list (string * ParameterConversion.t) -> Kw ->
            res (Command.t * list CLOption.t))
    (kwargs : Kw) :
  CLInterface.__init__ [] conversions additional output_map disallow help
    base kwargs =
  Raise (IncompetentDeveloperError
           "There are no usage examples associated with this command.").
Proof. reflexivity. Qed.

(** When positional arguments are not allowed and the parser returns
    some, the invocation ends in the parser's usage error, which echoes
    the first of them, and in [SystemExit(2)]; the instance is as it
    was. *)
Theorem positional_argument_is_a_usage_error
    (dest : OptparseOption.t -> string)
    (parse_args : OptionParser.t -> list string ->
                  list string * res (gmap string pyval * list string))
    (self : CLInterface.t) (argv printed rest : list string) (first : string)
    (opts : gmap string pyval) :
  CLInterface.HelpOnNoArguments self = false \/ argv <> [] ->
  CLInterface.DisallowPositionalArguments self = true ->
  parse_args (CLInterface.full_parser self) argv =
    (printed, Ok (opts, first :: rest)) ->
  CLInterface.invoke dest parse_args self (InList argv) =
    (Raise (SystemExit 2),
     (map ELibrary printed ++
        [EPrintUsage true (usage_of self);
         EParserError
           ("Positional argument detected: " ++ first ++ nl ++
            " Be sure all parameters are identified by their option name." ++
            nl ++ " (e.g.: include the '-i' in '-i INPUT_DIR')")])%list,
     self).
Proof.
  intros Hreach Hdis Hparse. apply invoke_input_raises.
  rewrite (input_handler_after_parse dest parse_args self [] argv printed
             opts (first :: rest) Hreach Hparse).
  now rewrite Hdis.
Qed.

Lemma positional_argument_is_a_usage_error_witness :
  Demo.run Demo.interface ["-i"; "in.txt"; "stray"] =
    (Raise (SystemExit 2),
     [EPrintUsage true (usage_of Demo.interface);
      EParserError
        ("Positional argument detected: stray" ++ nl ++
         " Be sure all parameters are identified by their option name." ++
         nl ++ " (e.g.: include the '-i' in '-i INPUT_DIR')")],
     Demo.interface).
Proof.
  assert (Hne : ["-i"; "in.txt"; "stray"] <> @nil string) by discriminate.
  exact (positional_argument_is_a_usage_error Demo.dest Demo.parse_args
           Demo.interface ["-i"; "in.txt"; "stray"] [] [] "stray"
           Demo.values_without_output (or_intror Hne) eq_refl eq_refl).
Defined.

Lemma constructed_instance_holds_no_values_witness :
  exists self,
    CLInterface.__init__ [Demo.example1] [] [Demo.level] [] true true
      (fun _ (_ : unit) => Ok (Demo.command, [Demo.input_fp])) tt = Ok self /\
    CLInterface.BelovedFunctionality self = ∅.
Proof.
  eexists. split; [reflexivity|].
  apply (constructed_instance_holds_no_values [Demo.example1] [] [Demo.level]
           [] true true
           (fun _ (_ : unit) => Ok (Demo.command, [Demo.input_fp])) tt _
           eq_refl).
Defined.

(* ===================================================================== *)
(** * Command names and command configurations                            *)
(* ===================================================================== *)

Lemma replace_char_removes (old new : ascii) (s : string) :
  old <> new -> has_char old (replace_char old new s) = false.
Proof.
  intros Hne. induction s as [|c s IH]; [reflexivity|].
  cbn [replace_char has_char]. rewrite IH, orb_false_r.
  destruct (Ascii.eqb c old) eqn:Hc.
  - apply Ascii.eqb_neq. congruence.
  - exact Hc.
Qed.

Lemma replace_char_absent (old new : ascii) (s : string) :
  has_char old s = false -> replace_char old new s = s.
Proof.
  induction s as [|c s IH]; [reflexivity|].
  cbn [replace_char has_char]. intros H.
  apply orb_false_iff in H as [Hc Hs]. now rewrite Hc, IH.
Qed.

Lemma replace_char_back (a b : ascii) (s : string) :
  has_char b s = false -> replace_char b a (replace_char a b s) = s.
Proof.
  induction s as [|c s IH]; [reflexivity|].
  cbn [replace_char has_char]. intros H.
  apply orb_false_iff in H as [Hc Hs]. rewrite (IH Hs). f_equal.
  destruct (Ascii.eqb c a) eqn:Hca.
  - rewrite Ascii.eqb_refl. apply Ascii.eqb_eq in Hca. now subst.
  - now rewrite Hc.
Qed.

Lemma dashed_name_has_no_underscore (name : string) :
  has_char "_" (CommandList._convert_to_dashed_name name) = false.
Proof. apply replace_char_removes. discriminate. Qed.

Lemma dashed_name_idempotent (name : string) :
  CommandList._convert_to_dashed_name
    (CommandList._convert_to_dashed_name name) =
  CommandList._convert_to_dashed_name name.
Proof.
  unfold CommandList._convert_to_dashed_name at 1.
  apply replace_char_absent, dashed_name_has_no_underscore.
Qed.

Lemma fold_append_items (items init : list string) :
  fold_left CommandList.append items init =
  (init ++ map CommandList._convert_to_dashed_name items)%list.
Proof.
  revert init. induction items as [|x items IH]; intros init; cbn.
  - now rewrite app_nil_r.
  - rewrite IH. unfold CommandList.append. now rewrite <- app_assoc.
Qed.

(** A [CommandList] holds what was appended with every underscore turned
    into a dash, and looks names up the same way. So a name is found after
    it was appended under either spelling; looking up two names that
    differ in underscores and dashes only gives the same answer; and a
    list filled by [append] alone holds no name with an underscore. *)
Theorem command_list_ignores_underscores
    (self : list string) (item name : string) :
  CommandList.__contains__ (CommandList.append self item) item = true /\
  CommandList.__contains__ (CommandList.append self item) name =
    (CommandList.__contains__ self name ||
     String.eqb (CommandList._convert_to_dashed_name name)
                (CommandList._convert_to_dashed_name item))%bool /\
  CommandList.__contains__ self (CommandList._convert_to_dashed_name name) =
    CommandList.__contains__ self name /\
  (forall items,
     Forall (fun stored => has_char "_" stored = false)
       (fold_left CommandList.append items CommandList.__init__)).
Proof.
  assert (Hsnd : CommandList.__contains__ (CommandList.append self item) name =
    (CommandList.__contains__ self name ||
     String.eqb (CommandList._convert_to_dashed_name name)
                (CommandList._convert_to_dashed_name item))%bool).
  { unfold CommandList.__contains__, CommandList.append.
    rewrite existsb_app. cbn [existsb]. now rewrite orb_false_r. }
  split; [|split; [exact Hsnd|split]].
  - unfold CommandList.__contains__, CommandList.append.
    rewrite existsb_app. cbn [existsb]. rewrite String.eqb_refl.
    now rewrite orb_true_r.
  - unfold CommandList.__contains__. now rewrite dashed_name_idempotent.
  - intros items. rewrite fold_append_items. cbn [CommandList.__init__ app].
    apply Forall_forall. intros stored Hin.
    apply list_elem_of_In, in_map_iff in Hin as (x & <- & _).
    apply dashed_name_has_no_underscore.
Qed.

Lemma has_char_app (c : ascii) (a b : string) :
  has_char c (a ++ b) = (has_char c a || has_char c b)%bool.
Proof.
  induction a as [|x a IH]; [reflexivity|].
  change (has_char c (String x (a ++ b)) =
          (has_char c (String x a) || has_char c b)%bool).
  cbn [has_char]. rewrite IH. now rewrite orb_assoc.
Qed.

Lemma basename_after_slash (d x : string) :
  has_char "/" x = false -> basename (d ++ "/" ++ x) = x.
Proof.
  intros Hx. induction d as [|c d IH].
  - change (basename (String "/" x) = x). cbn [basename]. now rewrite Hx.
  - change (basename (String c (d ++ "/" ++ x)) = x). cbn [basename].
    rewrite has_char_app. change ("/" ++ x) with (String "/"%char x).
    cbn [has_char]. rewrite Ascii.eqb_refl. cbn [orb].
    rewrite orb_true_r. exact IH.
Qed.

Lemma string_length_app (a b : string) :
  String.length (a ++ b) = (String.length a + String.length b)%nat.
Proof.
  induction a as [|c a IH]; [reflexivity|].
  change (S (String.length (a ++ b)) = S (String.length a + String.length b)).
  now rewrite IH.
Qed.

Lemma substring_whole_prefix (a b : string) :
  String.substring 0 (String.length a) (a ++ b) = a.
Proof.
  induction a as [|c a IH].
  - destruct b; reflexivity.
  - change (String c (String.substring 0 (String.length a) (a ++ b)) =
            String c a).
    now rewrite IH.
Qed.

Lemma drop_last_suffix (a b : string) :
  drop_last (String.length b) (a ++ b) = a.
Proof.
  unfold drop_last. rewrite string_length_app.
  replace (String.length a + String.length b - String.length b)%nat
    with (String.length a) by lia.
  apply substring_whole_prefix.
Qed.

Lemma prefix_app_other (p s t : string) (c : ascii) :
  has_char c p = false ->
  String.prefix p (s ++ String c t) = String.prefix p s.
Proof.
  revert s. induction p as [|a p IH]; intros s Hc;
    [destruct s; reflexivity|].
  cbn [has_char] in Hc. apply orb_false_iff in Hc as [Hac Hp].
  destruct s as [|b s].
  - change (String.prefix (String a p) (String c t) = false).
    cbn [String.prefix]. destruct (ascii_dec a c) as [->|_]; [|reflexivity].
    now rewrite Ascii.eqb_refl in Hac.
  - change (String.prefix (String a p) (String b (s ++ String c t)) =
            String.prefix (String a p) (String b s)).
    cbn [String.prefix]. destruct (ascii_dec a b); [apply IH; exact Hp|].
    reflexivity.
Qed.

Section CommandNames.

Context {PyModule : Type}.
Variable __file__ : PyModule -> string.
Variable import_module : string -> loaded PyModule.
Variable glob : string -> list string.

Lemma fold_add_command_name (fs init : list string) :
  fold_left add_command_name fs init =
  (init ++ map listed_name (List.filter is_listed fs))%list.
Proof.
  revert init. induction fs as [|f fs IH]; intros init; cbn [fold_left].
  - cbn. now rewrite app_nil_r.
  - rewrite IH. unfold add_command_name. cbn [List.filter].
    unfold is_listed at 2.
    destruct (negb (startswith "__init__" (basename f))); [|reflexivity].
    unfold CommandList.append. cbn [map]. now rewrite <- app_assoc.
Qed.

(** [get_command_names] raises an [ImportError] naming the base module
    when that cannot be imported. Otherwise it returns, in ascending
    order, the names of the files that [glob] lists in the module's
    directory: of each file whose base name does not start with
    [__init__], the base name without its last three characters and
    with dashes for underscores. No name returned has an underscore. *)
Theorem command_names_are_sorted_dashed_stems (config_base_name : string) :
  (forall msg, import_module config_base_name = ImportError msg ->
     get_command_names __file__ import_module glob config_base_name =
     ImportError ("Unable to load base config module: " ++ config_base_name)) /\
  (forall m, import_module config_base_name = Loaded m ->
     exists names,
       get_command_names __file__ import_module glob config_base_name =
         Loaded names /\
       StronglySorted String.le names /\
       names ≡ₚ map listed_name
                  (List.filter is_listed
                     (glob (path_join (dirname (__file__ m)) "*.py"))) /\
       Forall (fun name => has_char "_" name = false) names).
Proof.
  split.
  - intros msg Himp. unfold get_command_names. now rewrite Himp.
  - intros m Himp. unfold get_command_names. rewrite Himp.
    eexists. split; [reflexivity|].
    rewrite fold_add_command_name. cbn [CommandList.__init__ app].
    unfold CommandList.sort. split; [|split].
    + apply StronglySorted_merge_sort; apply _.
    + apply merge_sort_Permutation.
    + apply Forall_forall. intros name Hin.
      rewrite merge_sort_Permutation in Hin.
      apply list_elem_of_In, in_map_iff in Hin as (f & <- & _).
      apply dashed_name_has_no_underscore.
Qed.

(** The name listed for a configuration file leads back to its module:
    when [glob] lists [dir/stem.py], with no slash and no dash in [stem]
    and [stem] not starting with [__init__], the dashed [stem] is among
    the command names, and asking for the configuration of that name
    imports [base.stem]. *)
Theorem listed_command_name_finds_its_configuration
    (config_base_name dir stem : string) (m cfg : PyModule)
    (exit_on_failure : bool) :
  import_module config_base_name = Loaded m ->
  In (dir ++ "/" ++ stem ++ ".py")
     (glob (path_join (dirname (__file__ m)) "*.py")) ->
  has_char "/" stem = false ->
  has_char "-" stem = false ->
  startswith "__init__" stem = false ->
  import_module (config_base_name ++ "." ++ stem) = Loaded cfg ->
  exists names,
    get_command_names __file__ import_module glob config_base_name =
      Loaded names /\
    In (CommandList._convert_to_dashed_name stem) names /\
    get_command_config import_module config_base_name
      (CommandList._convert_to_dashed_name stem) exit_on_failure =
      ([], Ok (Some cfg, None)).
Proof.
  intros Himp Hin Hslash Hdash Hinit Hcfg.
  assert (Hbase : basename (dir ++ "/" ++ stem ++ ".py") = stem ++ ".py").
  { apply basename_after_slash. rewrite has_char_app, Hslash. reflexivity. }
  unfold get_command_names. rewrite Himp. eexists. split; [reflexivity|].
  split.
  - rewrite fold_add_command_name. cbn [CommandList.__init__ app].
    unfold CommandList.sort. apply list_elem_of_In.
    rewrite merge_sort_Permutation. apply list_elem_of_In, in_map_iff.
    exists (dir ++ "/" ++ stem ++ ".py"). split.
    + unfold listed_name. rewrite Hbase.
      pose proof (drop_last_suffix stem ".py") as Hdrop.
      cbn [String.length] in Hdrop. now rewrite Hdrop.
    + apply filter_In. split; [exact Hin|].
      unfold is_listed, startswith. rewrite Hbase.
      change (stem ++ ".py") with (stem ++ String "."%char "py").
      rewrite prefix_app_other by reflexivity.
      unfold startswith in Hinit. now rewrite Hinit.
  - unfold get_command_config, CommandList._convert_to_dashed_name.
    rewrite (replace_char_back "_" "-" stem Hdash).
    cbn [join]. now rewrite Hcfg.
Qed.

(** [get_command_config] returns either the configuration and no error
    message, or no configuration and the message of the [ImportError],
    and the latter only when told not to exit on failure: otherwise the
    failed import ends in [SystemExit(1)], after three writes to
    standard error, the first naming the command. What is imported is
    the command's name with underscores for dashes. *)
Theorem command_config_is_a_module_or_an_error
    (command_config_module cmd : string) (exit_on_failure : bool) :
  let wanted :=
    command_config_module ++ "." ++ replace_char "-" "_" cmd in
  (forall cfg, import_module wanted = Loaded cfg ->
     get_command_config import_module command_config_module cmd
       exit_on_failure = ([], Ok (Some cfg, None))) /\
  (forall msg, import_module wanted = ImportError msg ->
     get_command_config import_module command_config_module cmd false =
       ([], Ok (None, Some msg)) /\
     get_command_config import_module command_config_module cmd true =
       (["Unable to import the command configuration for " ++ cmd ++ ":" ++ nl;
         msg; nl],
        Raise (SystemExit 1))) /\
  (forall written cfg msg,
     get_command_config import_module command_config_module cmd
       exit_on_failure = (written, Ok (cfg, msg)) ->
     written = [] /\
     ((exists c, cfg = Some c /\ msg = None) \/
      (exit_on_failure = false /\ cfg = None /\ exists e, msg = Some e))).
Proof.
  intros wanted. unfold get_command_config. cbn [join]. fold wanted.
  split; [|split].
  - intros cfg ->. reflexivity.
  - intros msg ->. split; reflexivity.
  - intros written cfg msg.
    destruct (import_module wanted) as [c|e|e].
    + intros [= <- <- <-]. split; [reflexivity|]. left. now exists c.
    + destruct exit_on_failure; [discriminate|].
      intros [= <- <- <-]. split; [reflexivity|]. right.
      split; [reflexivity|]. split; [reflexivity|]. now exists e.
    + discriminate.
Qed.

End CommandNames.

Lemma command_names_are_sorted_dashed_stems_witness :
  get_command_names DemoCommands.__file__ DemoCommands.import_module
    DemoCommands.glob "cfgs" =
  ImportError "Unable to load base config module: cfgs" /\
  exists names,
    get_command_names DemoCommands.__file__ DemoCommands.import_module
      DemoCommands.glob "cfg" = Loaded names /\
    StronglySorted String.le names.
Proof.
  split.
  - apply (proj1 (command_names_are_sorted_dashed_stems DemoCommands.__file__
                    DemoCommands.import_module DemoCommands.glob "cfgs")
             "No module named cfgs").
    reflexivity.
  - destruct (proj2 (command_names_are_sorted_dashed_stems
                       DemoCommands.__file__ DemoCommands.import_module
                       DemoCommands.glob "cfg") "/cfg/__init__.py" eq_refl)
      as (names & Hnames & Hsorted & _).
    exists names. split; assumption.
Defined.

Lemma listed_command_name_finds_its_configuration_witness :
  exists names,
    get_command_names DemoCommands.__file__ DemoCommands.import_module
      DemoCommands.glob "cfg" = Loaded names /\
    In "make-otu-table" names /\
    get_command_config DemoCommands.import_module "cfg" "make-otu-table" true =
      ([], Ok (Some "/cfg/make_otu_table.py", None)).
Proof.
  apply (listed_command_name_finds_its_configuration DemoCommands.__file__
           DemoCommands.import_module DemoCommands.glob
           "cfg" "/cfg" "make_otu_table" "/cfg/__init__.py"
           "/cfg/make_otu_table.py" true); try reflexivity.
  left. reflexivity.
Defined.

Lemma command_config_is_a_module_or_an_error_witness :
  get_command_config DemoCommands.import_module "cfg" "split-libraries" false =
    ([], Ok (None, Some "No module named cfg.split_libraries")) /\
  get_command_config DemoCommands.import_module "cfg" "split-libraries" true =
    (["Unable to import the command configuration for split-libraries:" ++ nl;
      "No module named cfg.split_libraries"; nl],
     Raise (SystemExit 1)).
Proof.
  apply (proj1 (proj2 (command_config_is_a_module_or_an_error
                         DemoCommands.import_module "cfg" "split-libraries"
                         true))).
  reflexivity.
Defined.

(* ===================================================================== *)
(** * More on InterfaceOption and Interface                               *)
(* ===================================================================== *)

(** An option that was constructed has passed the subclass's validation
    as it is; with [convert_to_dashed_name] its name has no underscore,
    without it the name is the one given, or the Parameter's when none
    was given. The parameter name, which duplicate bindings are found
    by, is the Parameter's own whatever the option is called, and there
    is none for an option without a Parameter. *)
Theorem constructed_option_name_is_dashed
    (validate : InterfaceOption.t -> res unit) (a : InterfaceOption.args)
    (o : InterfaceOption.t) :
  InterfaceOption.__init__ validate a = Ok o ->
  validate o = Ok tt /\
  (InterfaceOption.a_convert_to_dashed_name a = true ->
     has_char "_" (InterfaceOption.Name o) = false) /\
  (InterfaceOption.a_convert_to_dashed_name a = false ->
     match InterfaceOption.a_Name a, InterfaceOption.a_Parameter a with
     | Some name, _ => InterfaceOption.Name o = name
     | None, Some p => InterfaceOption.Name o = CommandParameter.Name p
     | None, None => False
     end) /\
  InterfaceOption.getParameterName o =
    match InterfaceOption.a_Parameter a with
    | Some p => Some (CommandParameter.Name p)
    | None => None
    end.
Proof.
  intros Hinit.
  destruct (init_Ok_inv validate a o Hinit) as (o0 & Ht & -> & _ & Hv).
  split; [exact Hv|]. unfold dashed.
  unfold InterfaceOption.transfer in Ht.
  destruct (InterfaceOption.a_Parameter a) as [p|].
  - injection Ht as <-. split; [|split].
    + intros ->. cbn. apply replace_char_removes. discriminate.
    + intros ->. cbn. now destruct (InterfaceOption.a_Name a).
    + now destruct (InterfaceOption.a_convert_to_dashed_name a).
  - destruct (InterfaceOption.a_Name a) as [name|]; [|discriminate].
    destruct (InterfaceOption.a_Help a) as [help|]; [|discriminate].
    injection Ht as <-. split; [|split].
    + intros ->. cbn. apply replace_char_removes. discriminate.
    + intros ->. reflexivity.
    + now destruct (InterfaceOption.a_convert_to_dashed_name a).
Qed.

Lemma constructed_option_name_is_dashed_witness :
  exists o,
    InterfaceOption.__init__ accept_all (from_parameter optional_parameter true)
      = Ok o /\
    has_char "_" (InterfaceOption.Name o) = false /\
    InterfaceOption.getParameterName o = Some "input_fp".
Proof.
  eexists. split; [reflexivity|].
  pose proof (constructed_option_name_is_dashed accept_all
                (from_parameter optional_parameter true) _ eq_refl)
    as (_ & Hname & _ & Hparam).
  split; [apply Hname; reflexivity | exact Hparam].
Defined.

(** [InterfaceOption] itself cannot be instantiated: with the
    [_validate_option] of the class, construction raises whatever the
    arguments are - [IncompetentDeveloperError] when a name or a help
    text is missing or the option is required and defaulted, and
    [NotImplementedError] from [_validate_option] in every other case. *)
Theorem interface_option_is_abstract (a : InterfaceOption.args) :
  is_Ok (InterfaceOption.__init__ InterfaceOption.base_validate_option a)
    = false /\
  (is_configuration_error
     (InterfaceOption.__init__ InterfaceOption.base_validate_option a) = true \/
   InterfaceOption.__init__ InterfaceOption.base_validate_option a =
     Raise (NotImplementedError "Must define in the subclass")).
Proof.
  destruct (InterfaceOption.transfer a) as [o|e] eqn:Ht.
  - rewrite (init_after_transfer _ a o Ht).
    destruct (InterfaceOption.Required o &&
              negb (is_None (InterfaceOption.Default o)))%bool.
    + split; [reflexivity | left; reflexivity].
    + split; [reflexivity | right; reflexivity].
  - rewrite (init_transfer_fails _ a e Ht).
    split; [reflexivity|]. left.
    unfold InterfaceOption.transfer in Ht.
    destruct (InterfaceOption.a_Parameter a); [discriminate|].
    destruct (InterfaceOption.a_Name a);
      [destruct (InterfaceOption.a_Help a)|]; try discriminate;
      injection Ht as <-; reflexivity.
Qed.

(** Constructing an [Interface] returns an instance exactly when the
    class has a command constructor, the constructor returns a command
    for the keyword arguments, the three [_get_*] methods return, and no
    two inputs are bound to Parameters of the same name; the instance
    then holds that command. *)
Theorem interface_construction_succeeds_iff
    {Cmd Kw R : Type} (ctor : option (Kw -> res Cmd))
    (usage_examples : res (list InterfaceUsageExample.t))
    (inputs : res (list InterfaceOption.t)) (outputs : res (list R))
    (kwargs : Kw) (instance : Interface.t) :
  Interface.__init__ ctor usage_examples inputs outputs kwargs = Ok instance <->
  exists c ues ins outs,
    ctor = Some c /\
    c kwargs = Ok (Interface.CmdInstance instance) /\
    usage_examples = Ok ues /\
    inputs = Ok ins /\
    NoDup (Interface.param_names ins) /\
    outputs = Ok outs.
Proof.
  unfold Interface.__init__. split.
  - destruct ctor as [c|]; [|discriminate].
    destruct (c kwargs) as [cmd|e] eqn:Hc; [|discriminate]. cbn [rbind].
    destruct usage_examples as [ues|e]; [|discriminate].
    cbn [rbind Interface._validate_usage_examples].
    destruct inputs as [ins|e]; [|discriminate]. cbn [rbind].
    destruct (validate_inputs_spec ins) as [[Hnd Hv]|[_ Hv]]; rewrite Hv;
      [|discriminate].
    cbn [rbind]. destruct outputs as [outs|e]; [|discriminate].
    cbn [rbind Interface._validate_outputs]. intros [= <-].
    exists c, ues, ins, outs. cbn. repeat split; assumption.
  - intros (c & ues & ins & outs & -> & Hc & -> & -> & Hnd & ->).
    rewrite Hc. cbn [rbind Interface._validate_usage_examples].
    destruct (validate_inputs_spec ins) as [[_ Hv]|[Hdup _]];
      [|contradiction].
    rewrite Hv. cbn [rbind Interface._validate_outputs].
    now destruct instance.
Qed.

Lemma standalone_have_no_param_names (inputs : list InterfaceOption.t) :
  Forall (fun o => InterfaceOption.Parameter_ o = None) inputs ->
  Interface.param_names inputs = [].
Proof.
  unfold Interface.param_names.
  induction 1 as [|o l Ho _ IH]; [reflexivity|].
  cbn [omap list_omap]. unfold InterfaceOption.getParameterName at 1.
  rewrite Ho. exact IH.
Qed.

(** [_validate_inputs] returns exactly when the parameter names that the
    inputs are bound to are pairwise different, and raises
    [IncompetentDeveloperError] when one repeats. Options without a
    Parameter are never compared: any number of them passes, whatever
    their names. *)
Theorem validate_inputs_compares_parameter_names
    (inputs : list InterfaceOption.t) :
  (Interface._validate_inputs inputs = Ok tt <->
   NoDup (Interface.param_names inputs)) /\
  (~ NoDup (Interface.param_names inputs) ->
   Interface._validate_inputs inputs =
     Raise (IncompetentDeveloperError Interface.duplicate_binding_msg)) /\
  (Forall (fun o => InterfaceOption.Parameter_ o = None) inputs ->
   Interface._validate_inputs inputs = Ok tt).
Proof.
  destruct (validate_inputs_spec inputs) as [[Hnd Hv]|[Hdup Hv]].
  - split; [split; intros _; assumption|]. split; [contradiction|].
    intros _. exact Hv.
  - split; [split; [rewrite Hv; discriminate | contradiction]|].
    split; [intros _; exact Hv|].
    intros Hall. exfalso. apply Hdup.
    rewrite (standalone_have_no_param_names inputs Hall). constructor.
Qed.

Lemma validate_inputs_compares_parameter_names_witness :
  Interface._validate_inputs
    [standalone "verbose"; standalone "verbose"; standalone "verbose"] = Ok tt.
Proof.
  apply (proj2 (proj2 (validate_inputs_compares_parameter_names
                         [standalone "verbose"; standalone "verbose";
                          standalone "verbose"]))).
  repeat constructor.
Defined.

(* ===================================================================== *)
(** * CLOption: what the parser is given                                  *)
(* ===================================================================== *)

Lemma rev_app_spec (s acc : string) :
  String.rev_app s acc = String.rev s ++ acc.
Proof.
  unfold String.rev. revert acc.
  induction s as [|c s IH]; intros acc; [reflexivity|].
  cbn [String.rev_app]. rewrite IH, (IH (String c "")).
  now rewrite string_app_assoc.
Qed.

Lemma string_rev_cons (c : ascii) (s : string) :
  String.rev (String c s) = String.rev s ++ String c "".
Proof. unfold String.rev at 1. cbn [String.rev_app]. apply rev_app_spec. Qed.

Lemma string_app_nil_r (s : string) : s ++ "" = s.
Proof.
  induction s as [|c s IH]; [reflexivity|].
  change (String c (s ++ "") = String c s). now rewrite IH.
Qed.

Lemma string_rev_app (a b : string) :
  String.rev (a ++ b) = String.rev b ++ String.rev a.
Proof.
  induction a as [|c a IH].
  - change (String.rev b = String.rev b ++ ""). now rewrite string_app_nil_r.
  - change (String.rev (String c (a ++ b)) =
            String.rev b ++ String.rev (String c a)).
    rewrite !string_rev_cons, IH. now rewrite string_app_assoc.
Qed.

Lemma string_rev_involutive (s : string) : String.rev (String.rev s) = s.
Proof.
  induction s as [|c s IH]; [reflexivity|].
  rewrite string_rev_cons, string_rev_app, IH. reflexivity.
Qed.

Lemma prefix_app (a b : string) : String.prefix a (a ++ b) = true.
Proof.
  induction a as [|c a IH]; [destruct b; reflexivity|].
  change (String.prefix (String c a) (String c (a ++ b)) = true).
  cbn [String.prefix]. destruct (ascii_dec c c); [exact IH | contradiction].
Qed.

Lemma endswith_app (a b : string) : endswith b (a ++ b) = true.
Proof. unfold endswith. rewrite string_rev_app. apply prefix_app. Qed.

(** A string that ends in a character that is not dropped is not touched
    by [rstrip]. *)
Lemma rstrip_kept (drop : ascii -> bool) (a : string) (c : ascii) :
  drop c = false -> rstrip drop (a ++ String c "") = a ++ String c "".
Proof.
  intros Hc. unfold rstrip. rewrite string_rev_app.
  change (String.rev (String c "")) with (String c "").
  change (String c "" ++ String.rev a) with (String c (String.rev a)).
  cbn [lstrip]. rewrite Hc.
  change (String c (String.rev a)) with (String c "" ++ String.rev a).
  rewrite string_rev_app, string_rev_involutive. reflexivity.
Qed.

Lemma lstrip_marked (h : string) :
  exists x, lstrip is_space (h ++ " [REQUIRED]") = x ++ "[REQUIRED]".
Proof.
  induction h as [|c h IH].
  - exists "". reflexivity.
  - change (String c h ++ " [REQUIRED]") with (String c (h ++ " [REQUIRED]")).
    cbn [lstrip]. destruct (is_space c); [exact IH|].
    exists (String c h ++ " ").
    rewrite string_app_assoc. reflexivity.
Qed.

Lemma strip_marked (h : string) :
  endswith "[REQUIRED]" (strip (h ++ " [REQUIRED]")) = true.
Proof.
  unfold strip, strip_by. destruct (lstrip_marked h) as [x ->].
  assert (Hkept : rstrip is_space (x ++ "[REQUIRED]") = x ++ "[REQUIRED]").
  { change (x ++ "[REQUIRED]") with (x ++ ("[REQUIRED" ++ String "]"%char "")).
    rewrite <- string_app_assoc. apply rstrip_kept. reflexivity. }
  rewrite Hkept. apply endswith_app.
Qed.

(** What [getOptparseOption] hands to [make_option]. The option strings
    are the long one, after the short one if there is one. A required
    option comes without a default, and its help text, stripped, ends in
    [[REQUIRED]]: the marker is added unless the text ends in it
    already, so it is there once. An optional option comes with its
    default, which may be [None], and its help text is followed by
    [[default: ...]] with the default's description. *)
Theorem parser_option_is_marked_required_or_defaulted (o : CLOption.t) :
  let given := CLOption.getOptparseOption o in
  OptparseOption.opt_strings given =
    match CLOption.ShortName o with
    | Some short => ["-" ++ short; "--" ++ CLOption.LongName o]
    | None => ["--" ++ CLOption.LongName o]
    end /\
  OptparseOption.type given = CLOption.CLType o /\
  (CLOption.Required o = true ->
     OptparseOption.default given = None /\
     endswith "[REQUIRED]" (strip (OptparseOption.help given)) = true /\
     (endswith "[REQUIRED]" (strip (CLOption.Help o)) = true ->
      OptparseOption.help given = CLOption.Help o) /\
     (endswith "[REQUIRED]" (strip (CLOption.Help o)) = false ->
      OptparseOption.help given = CLOption.Help o ++ " [REQUIRED]")) /\
  (CLOption.Required o = false ->
     OptparseOption.default given = Some (CLOption.Default o) /\
     OptparseOption.help given =
       CLOption.Help o ++ " [default: " ++
       fmt_opt (CLOption.DefaultDescription o) ++ "]").
Proof.
  intros given. subst given. unfold CLOption.getOptparseOption.
  destruct (CLOption.Required o).
  - cbn [OptparseOption.opt_strings OptparseOption.type
         OptparseOption.default OptparseOption.help].
    split; [unfold CLOption.option_strings; now destruct (CLOption.ShortName o)|].
    split; [reflexivity|]. split; [|discriminate].
    intros _. split; [reflexivity|].
    destruct (endswith "[REQUIRED]" (strip (CLOption.Help o))) eqn:Hends;
      cbn [negb].
    + split; [exact Hends|]. split; [reflexivity | discriminate].
    + split; [apply strip_marked|]. split; [discriminate | reflexivity].
  - cbn [OptparseOption.opt_strings OptparseOption.type
         OptparseOption.default OptparseOption.help].
    split; [unfold CLOption.option_strings; now destruct (CLOption.ShortName o)|].
    split; [reflexivity|]. split; [discriminate|].
    intros _. split; reflexivity.
Qed.

Lemma parser_option_is_marked_required_or_defaulted_witness :
  OptparseOption.help (CLOption.getOptparseOption Demo.input_fp) =
    "the input file [REQUIRED]" /\
  OptparseOption.default (CLOption.getOptparseOption Demo.level) =
    Some (PyInt 1).
Proof.
  destruct (parser_option_is_marked_required_or_defaulted Demo.input_fp)
    as (_ & _ & Hreq & _).
  destruct (parser_option_is_marked_required_or_defaulted Demo.level)
    as (_ & _ & _ & Hopt).
  split.
  - apply Hreq; reflexivity.
  - apply Hopt. reflexivity.
Defined.

(* ===================================================================== *)
(** * From a parameter to an option                                       *)
(* ===================================================================== *)

Lemma parameter_eta (p : CLOptionInit.parameter) :
  {| CLOptionInit.Type_ := CLOptionInit.Type_ p;
     CLOptionInit.Help := CLOptionInit.Help p;
     CLOptionInit.Name := CLOptionInit.Name p;
     CLOptionInit.Required := CLOptionInit.Required p;
     CLOptionInit.Default := CLOptionInit.Default p;
     CLOptionInit.DefaultDescription := CLOptionInit.DefaultDescription p |} = p.
Proof. now destruct p. Qed.

Lemma dict_get_absent {V} (k : string) (d : list (string * V)) :
  ~ In k (map fst d) -> dict_get k d = None.
Proof.
  induction d as [|[k' v] d IH]; [reflexivity|].
  cbn [map fst In dict_get]. intros Hno.
  destruct (String.eqb k k') eqn:Hk.
  - apply String.eqb_eq in Hk. subst k'. exfalso. apply Hno. now left.
  - apply IH. intros Hin. apply Hno. now right.
Qed.

Lemma dict_get_first {V} (k : string) (v : V) (pre post : list (string * V)) :
  ~ In k (map fst pre) ->
  dict_get k (pre ++ (k, v) :: post) = Some v.
Proof.
  induction pre as [|[k' v'] pre IH]; cbn [app map fst In dict_get].
  - intros _. now rewrite String.eqb_refl.
  - intros Hno. destruct (String.eqb k k') eqn:Hk.
    + apply String.eqb_eq in Hk. subst k'. exfalso. apply Hno. now left.
    + apply IH. intros Hin. apply Hno. now right.
Qed.

(** [_option_factory] raises [IncompetentDeveloperError] for a parameter
    whose name is no key of the conversion info, with the name and the
    keys, separated by blanks, in the message. For a parameter whose
    name is a key it lets an exception of [Parameter.__init__] through,
    and otherwise returns an option with the long name, the type and
    the short name of the conversion under that key, and with type,
    help, name, requiredness, default and default description as
    [Parameter.__init__] leaves them; its action is ['store'] whatever
    the action of the conversion is, and it has no result name. The
    attribute [_cl_type_action] is set exactly for the type
    ['new_filepath']. *)
Theorem option_factory_follows_the_conversion_but_for_its_action
    (Parameter___init__ : CLOptionInit.parameter -> res CLOptionInit.parameter)
    (self : CLInterface.t) (p : CLOptionInit.parameter) :
  let name := CLOptionInit.Name p in
  let info := CLInterface.ParameterConversionInfo self in
  let made := CLOptionInit._option_factory Parameter___init__ self p in
  (~ In name (map fst info) ->
     made = Raise (IncompetentDeveloperError
                     (name ++
                      " does not have parameter conversion info (parameter conversions are available for " ++
                      join " " (map fst info) ++ ")"))) /\
  (forall pre conversion post e,
     info = (pre ++ (name, conversion) :: post)%list ->
     ~ In name (map fst pre) ->
     Parameter___init__ p = Raise e -> made = Raise e) /\
  (forall pre conversion post base,
     info = (pre ++ (name, conversion) :: post)%list ->
     ~ In name (map fst pre) ->
     Parameter___init__ p = Ok base ->
     exists o has_action,
       made = Ok (o, has_action) /\
       CLOption.LongName o = ParameterConversion.LongName conversion /\
       CLOption.CLType o = ParameterConversion.CLType conversion /\
       CLOption.ShortName o = ParameterConversion.ShortName conversion /\
       CLOption.CLAction o = PyStr "store" /\
       CLOption.ResultName o = None /\
       CLOption.Type_ o = CLOptionInit.Type_ base /\
       CLOption.Help o = CLOptionInit.Help base /\
       CLOption.Name o = CLOptionInit.Name base /\
       CLOption.Required o = CLOptionInit.Required base /\
       CLOption.Default o = CLOptionInit.Default base /\
       CLOption.DefaultDescription o = CLOptionInit.DefaultDescription base /\
       (has_action = true <->
        ParameterConversion.CLType conversion = PyStr "new_filepath")).
Proof.
  intros name info made. subst made. unfold CLOptionInit._option_factory.
  fold name info. split; [|split].
  - intros Hno. rewrite (dict_get_absent name info Hno). reflexivity.
  - intros pre conversion post e Hinfo Hfirst Hinit.
    rewrite Hinfo, (dict_get_first name conversion pre post Hfirst).
    unfold CLOptionInit.fromParameter, CLOptionInit.__init__.
    rewrite parameter_eta, Hinit. reflexivity.
  - intros pre conversion post base Hinfo Hfirst Hinit.
    rewrite Hinfo, (dict_get_first name conversion pre post Hfirst).
    unfold CLOptionInit.fromParameter, CLOptionInit.__init__.
    rewrite parameter_eta, Hinit. cbn [rbind].
    eexists _, _. split; [reflexivity|]. cbn.
    repeat (split; [reflexivity|]).
    rewrite orb_false_r. apply py_eqb_eq; intros; discriminate.
Qed.

Lemma option_factory_follows_the_conversion_but_for_its_action_witness :
  (exists o,
     CLOptionInit._option_factory accept_parameter Demo.interface
       verbose_parameter = Ok (o, false) /\
     CLOption.LongName o = "verbose" /\
     CLOption.CLAction o = PyStr "store") /\
  CLOptionInit._option_factory accept_parameter shouting_interface
    level_parameter =
    Raise (IncompetentDeveloperError
             "level does not have parameter conversion info (parameter conversions are available for verbose input_fp)").
Proof.
  split.
  - assert (Hfirst : ~ In "verbose" (map fst (@nil (string * ParameterConversion.t))))
      by (intros []).
    destruct (proj2 (proj2
                (option_factory_follows_the_conversion_but_for_its_action
                   accept_parameter Demo.interface verbose_parameter))
                [] Demo.verbose [] verbose_parameter eq_refl Hfirst eq_refl)
      as (o & has_action & Hmade & Hlong & _ & _ & Haction & _).
    exists o. split; [|split; assumption].
    rewrite Hmade. f_equal. f_equal.
    vm_compute in Hmade. now injection Hmade as _ <-.
  - assert (Hno : ~ In "level"
                       (map fst (CLInterface.ParameterConversionInfo
                                   shouting_interface))).
    { cbn. intros [Heq|[Heq|[]]]; discriminate Heq. }
    exact (proj1 (option_factory_follows_the_conversion_but_for_its_action
                    accept_parameter shouting_interface level_parameter) Hno).
Defined.

(* ===================================================================== *)
(** * The conversion info of a constructed CLInterface                    *)
(* ===================================================================== *)

Lemma dict_get_set_eq {V} (k : string) (v : V) d :
  dict_get k (dict_set k v d) = Some v.
Proof.
  induction d as [|[k' v'] d IH]; cbn [dict_set dict_get].
  - now rewrite String.eqb_refl.
  - destruct (String.eqb k k') eqn:Hk; cbn [dict_get]; rewrite ?Hk.
    + now rewrite String.eqb_refl.
    + exact IH.
Qed.

Lemma dict_get_set_ne {V} (k k' : string) (v : V) d :
  k <> k' -> dict_get k' (dict_set k v d) = dict_get k' d.
Proof.
  intros Hne. induction d as [|[k0 v0] d IH]; cbn [dict_set dict_get].
  - apply String.eqb_neq in Hne. rewrite String.eqb_sym in Hne.
    now rewrite Hne.
  - destruct (String.eqb k k0) eqn:Hk; cbn [dict_get].
    + apply String.eqb_eq in Hk. subst k0.
      apply String.eqb_neq in Hne. rewrite String.eqb_sym in Hne.
      now rewrite Hne.
    + destruct (String.eqb k' k0); [reflexivity | exact IH].
Qed.

(** After [d.update(new)], a key has the value of its last item in
    [new], and the value it had in [d] when [new] has none. *)
Lemma dict_get_update {V} (k : string) (d new : list (string * V)) :
  dict_get k (dict_update d new) =
  match dict_get k (rev new) with
  | Some v => Some v
  | None => dict_get k d
  end.
Proof.
  unfold dict_update. induction new as [|[k' v'] new IH] using rev_ind.
  - reflexivity.
  - rewrite fold_left_app, rev_app_distr. cbn [fold_left rev app fst snd dict_get].
    destruct (String.eqb k k') eqn:Hk.
    + apply String.eqb_eq in Hk. subst k'. apply dict_get_set_eq.
    + apply String.eqb_neq in Hk.
      rewrite dict_get_set_ne by congruence. exact IH.
Qed.

(** A [CLInterface] that was constructed has a conversion for [verbose]:
    the last one the subclass gives under that name, and without one the
    seeded [-v/--verbose] with action [store_true]. Every other name has
    the last conversion the subclass gives for it. The base class was
    constructed with this conversion info; its command is the instance's,
    and its options are the instance's first options, followed by the
    additional ones. When the base class raises, so does the
    construction. *)
Theorem constructed_interface_has_a_verbose_conversion {Kw : Type}
    usage_examples conversions additional output_map disallow help
    (base : list (string * ParameterConversion.t) -> Kw ->
            res (Command.t * list CLOption.t))
    (kwargs : Kw) :
  let info := dict_update [("verbose", seeded_verbose)] conversions in
  let made :=
    CLInterface.__init__ usage_examples conversions additional output_map
      disallow help base kwargs in
  dict_get "verbose" info =
    Some (match dict_get "verbose" (rev conversions) with
          | Some given => given
          | None => seeded_verbose
          end) /\
  (forall name, name <> "verbose" ->
     dict_get name info = dict_get name (rev conversions)) /\
  (forall e, usage_examples <> [] -> base info kwargs = Raise e ->
     made = Raise e) /\
  (forall self, made = Ok self ->
     CLInterface.ParameterConversionInfo self = info /\
     CLInterface.UsageExamples self = usage_examples /\
     CLInterface.output_map self = output_map /\
     exists cmd options,
       base info kwargs = Ok (cmd, options) /\
       CLInterface.CmdInstance self = cmd /\
       CLInterface.Options self = (options ++ additional)%list).
Proof.
  intros info made. subst made info.
  split; [|split; [|split]].
  - rewrite dict_get_update.
    now destruct (dict_get "verbose" (rev conversions)).
  - intros name Hne. rewrite dict_get_update.
    destruct (dict_get name (rev conversions)); [reflexivity|].
    cbn [dict_get]. apply String.eqb_neq in Hne. now rewrite Hne.
  - intros e Hne Hbase. unfold CLInterface.__init__. cbn [app].
    destruct usage_examples as [|x l]; [contradiction|].
    cbn [length Nat.ltb Nat.leb].
    change (ParameterConversion.__init__ "verbose" PyNone (PyStr "store_true")
              None (Some "v")) with (Ok seeded_verbose).
    cbn [rbind]. now rewrite Hbase.
  - intros self. unfold CLInterface.__init__. cbn [app].
    destruct usage_examples as [|x l]; [discriminate|].
    cbn [length Nat.ltb Nat.leb].
    change (ParameterConversion.__init__ "verbose" PyNone (PyStr "store_true")
              None (Some "v")) with (Ok seeded_verbose).
    cbn [rbind].
    destruct (base (dict_update [("verbose", seeded_verbose)] conversions)
                kwargs) as [[cmd options]|e]; cbn [rbind]; [|discriminate].
    intros [= <-]. cbn.
    split; [reflexivity|]. split; [reflexivity|]. split; [reflexivity|].
    exists cmd, options. repeat split; reflexivity.
Qed.

Lemma constructed_interface_has_a_verbose_conversion_witness :
  exists self,
    CLInterface.__init__ [Demo.example1] [shouting_input] [Demo.level] []
      true true (fun _ (_ : unit) => Ok (Demo.command, [Demo.input_fp])) tt
      = Ok self /\
    CLInterface.Options self = [Demo.input_fp; Demo.level] /\
    dict_get "verbose" (CLInterface.ParameterConversionInfo self) =
      Some seeded_verbose.
Proof.
  eexists. split; [reflexivity|].
  pose proof (constructed_interface_has_a_verbose_conversion [Demo.example1]
                [shouting_input] [Demo.level] [] true true
                (fun _ (_ : unit) => Ok (Demo.command, [Demo.input_fp])) tt)
    as (Hverbose & _ & _ & Hself).
  destruct (Hself _ eq_refl) as (Hinfo & _ & _ & cmd & options & Hbase & _ & Hopts).
  split.
  - rewrite Hopts. injection Hbase as _ <-. reflexivity.
  - rewrite Hinfo. exact Hverbose.
Defined.

(* ===================================================================== *)
(** * Input handlers                                                      *)
(* ===================================================================== *)

Lemma apply_in_handlers_unfold self out :
  CLInterface.apply_in_handlers (world_of self out) =
  bind (for_each (CLInterface.ParameterConversionInfo self) in_handler_one)
       (fun _ => bind CLInterface.get_self (fun self' =>
                 ret (CLInterface.BelovedFunctionality self')))
       (world_of self out).
Proof. reflexivity. Qed.

(** One turn of the loop that returns: no output, and the values the
    instance holds change at the conversion's long name at most, which
    was a key before. *)
Lemma in_handler_one_returns kv self out w' :
  in_handler_one kv (world_of self out) = (Ok tt, w') ->
  exists bf,
    w' = world_of (CLInterface.set_BelovedFunctionality bf self) out /\
    dom bf = dom (CLInterface.BelovedFunctionality self) /\
    forall k,
      ~ In k (handled_names [kv]) ->
      bf !! k = CLInterface.BelovedFunctionality self !! k.
Proof.
  unfold in_handler_one, handled_names. cbn [List.filter].
  destruct (ParameterConversion.InHandler (snd kv)) as [h|].
  - unfold bind at 1. cbn [CLInterface.get_self CLInterface.self_ world_of].
    destruct (CLInterface.BelovedFunctionality self !! _) as [v|] eqn:Hv;
      [|discriminate].
    unfold bind at 1. unfold lift at 1.
    destruct (h v) as [new|e]; [|discriminate].
    cbn. intros [= <-].
    exists (<[ParameterConversion.LongName (snd kv) := new]>
              (CLInterface.BelovedFunctionality self)).
    split; [reflexivity|]. split.
    + apply dom_insert_lookup_L. now exists v.
    + intros k Hk. apply lookup_insert_ne. intros Heq. apply Hk.
      left. exact Heq.
  - intros [= <-]. exists (CLInterface.BelovedFunctionality self).
    split; [now rewrite set_BelovedFunctionality_same|]. split; reflexivity.
Qed.

Lemma handled_names_cons kv info k :
  ~ In k (handled_names (kv :: info)) ->
  ~ In k (handled_names [kv]) /\ ~ In k (handled_names info).
Proof.
  unfold handled_names. cbn [List.filter].
  destruct (ParameterConversion.InHandler (snd kv)); cbn [map In]; tauto.
Qed.

Lemma in_handler_loop_returns info self out w' :
  for_each info in_handler_one (world_of self out) = (Ok tt, w') ->
  exists bf,
    w' = world_of (CLInterface.set_BelovedFunctionality bf self) out /\
    dom bf = dom (CLInterface.BelovedFunctionality self) /\
    forall k,
      ~ In k (handled_names info) ->
      bf !! k = CLInterface.BelovedFunctionality self !! k.
Proof.
  revert self. induction info as [|kv info IH]; intros self.
  - intros [= <-]. exists (CLInterface.BelovedFunctionality self).
    split; [now rewrite set_BelovedFunctionality_same|]. split; reflexivity.
  - cbn [for_each]. unfold bind at 1.
    destruct (in_handler_one kv (world_of self out)) as [[[]|e] w1] eqn:Hone;
      [|discriminate].
    destruct (in_handler_one_returns kv self out w1 Hone)
      as (bf1 & -> & Hdom1 & Hframe1).
    intros Hrest.
    destruct (IH _ Hrest) as (bf & -> & Hdom & Hframe).
    exists bf. split; [reflexivity|]. split.
    + cbn in Hdom. congruence.
    + intros k Hk. apply handled_names_cons in Hk as [Hk1 Hk2].
      rewrite (Hframe k Hk2). cbn. exact (Hframe1 k Hk1).
Qed.

(** When the input handlers have been applied and the step returns, it
    returns the values the instance then holds; nothing was output; the
    keys are those of the parsed values, none added and none removed;
    and a key that is the long name of no conversion with an input
    handler has its parsed value. *)
Theorem input_handlers_change_only_their_values
    (self : CLInterface.t) (out : list event)
    (kw : gmap string pyval) (w' : CLInterface.world) :
  CLInterface.apply_in_handlers (world_of self out) = (Ok kw, w') ->
  w' = world_of (CLInterface.set_BelovedFunctionality kw self) out /\
  dom kw = dom (CLInterface.BelovedFunctionality self) /\
  (forall k,
     ~ In k (handled_names (CLInterface.ParameterConversionInfo self)) ->
     kw !! k = CLInterface.BelovedFunctionality self !! k).
Proof.
  rewrite apply_in_handlers_unfold. unfold bind at 1.
  destruct (for_each (CLInterface.ParameterConversionInfo self) in_handler_one
              (world_of self out)) as [[[]|e] w1] eqn:Hloop; [|discriminate].
  destruct (in_handler_loop_returns _ self out w1 Hloop)
    as (bf & -> & Hdom & Hframe).
  cbn. intros [= <- <-]. repeat split; assumption.
Qed.

Lemma in_handler_loop_without_handlers info self out :
  handled_names info = [] ->
  for_each info in_handler_one (world_of self out) = (Ok tt, world_of self out).
Proof.
  induction info as [|kv info IH]; [reflexivity|].
  unfold handled_names. cbn [List.filter]. intros Hnone.
  cbn [for_each]. unfold bind at 1. unfold in_handler_one at 1.
  destruct (ParameterConversion.InHandler (snd kv)); [discriminate|].
  unfold ret at 1. cbv beta iota. exact (IH Hnone).
Qed.

Lemma for_each_app {S A} (l1 l2 : list A) (body : A -> M S unit) (w : S) :
  for_each (l1 ++ l2) body w =
  bind (for_each l1 body) (fun _ => for_each l2 body) w.
Proof.
  revert w. induction l1 as [|x l1 IH]; intros w; [reflexivity|].
  cbn [app for_each]. unfold bind.
  destruct (body x w) as [[[]|e] w1]; [|reflexivity].
  rewrite IH. reflexivity.
Qed.

(** The first conversion with an input handler decides how the step
    starts. If the instance holds no value under its long name, the
    step raises [KeyError] for that name and leaves the instance as it
    is; if the handler raises, so does the step; and if the handler
    returns and no later conversion has a handler, the step returns the
    parsed values with the handler's result under that name. *)
Theorem first_input_handler_decides
    (self : CLInterface.t) (out : list event)
    (pre post : list (string * ParameterConversion.t))
    (name : string) (conversion : ParameterConversion.t)
    (in_handler : pyval -> res pyval) :
  CLInterface.ParameterConversionInfo self =
    (pre ++ (name, conversion) :: post)%list ->
  handled_names pre = [] ->
  ParameterConversion.InHandler conversion = Some in_handler ->
  let long_name := ParameterConversion.LongName conversion in
  let held := CLInterface.BelovedFunctionality self in
  (held !! long_name = None ->
     CLInterface.apply_in_handlers (world_of self out) =
       (Raise (KeyError long_name), world_of self out)) /\
  (forall value e,
     held !! long_name = Some value -> in_handler value = Raise e ->
     CLInterface.apply_in_handlers (world_of self out) =
       (Raise e, world_of self out)) /\
  (forall value new,
     held !! long_name = Some value -> in_handler value = Ok new ->
     handled_names post = [] ->
     CLInterface.apply_in_handlers (world_of self out) =
       (Ok (<[long_name := new]> held),
        world_of (CLInterface.set_BelovedFunctionality
                    (<[long_name := new]> held) self) out)).
Proof.
  intros Hinfo Hpre Hh long_name held.
  assert (Hgo : CLInterface.apply_in_handlers (world_of self out) =
    bind (bind (in_handler_one (name, conversion))
               (fun _ => for_each post in_handler_one))
         (fun _ => bind CLInterface.get_self (fun self' =>
                   ret (CLInterface.BelovedFunctionality self')))
         (world_of self out)).
  { rewrite apply_in_handlers_unfold, Hinfo. unfold bind at 1.
    rewrite for_each_app. unfold bind at 1.
    rewrite (in_handler_loop_without_handlers pre self out Hpre).
    reflexivity. }
  assert (Hone : in_handler_one (name, conversion) (world_of self out) =
    match held !! long_name with
    | None => (Raise (KeyError long_name), world_of self out)
    | Some value =>
        match in_handler value with
        | Ok new =>
            (Ok tt,
             world_of (CLInterface.set_BelovedFunctionality
                         (<[long_name := new]> held) self) out)
        | Raise e => (Raise e, world_of self out)
        end
    end).
  { unfold in_handler_one. cbn [snd]. rewrite Hh.
    unfold bind at 1. cbn [CLInterface.get_self CLInterface.self_ world_of].
    fold held long_name.
    destruct (held !! long_name) as [value|]; [|reflexivity].
    unfold bind at 1. unfold lift at 1.
    destruct (in_handler value); reflexivity. }
  rewrite Hgo. unfold bind at 1 2 4 5 7 8. rewrite Hone.
  split; [|split].
  - intros ->. reflexivity.
  - intros value e -> ->. reflexivity.
  - intros value new -> -> Hpost.
    rewrite (in_handler_loop_without_handlers post _ out Hpost).
    reflexivity.
Qed.

Lemma input_handlers_change_only_their_values_witness :
  CLInterface.apply_in_handlers (world_of shouting_interface []) =
    (Ok shouted_values,
     world_of (CLInterface.set_BelovedFunctionality shouted_values
                 shouting_interface) []) /\
  shouted_values !! "output_fp" = Demo.values_with_output !! "output_fp".
Proof.
  assert (Hrun :
    CLInterface.apply_in_handlers (world_of shouting_interface []) =
      (Ok shouted_values,
       world_of (CLInterface.set_BelovedFunctionality shouted_values
                   shouting_interface) []))
    by (vm_compute; reflexivity).
  split; [exact Hrun|].
  destruct (input_handlers_change_only_their_values
              shouting_interface [] shouted_values _ Hrun)
    as (_ & _ & Hframe).
  apply (Hframe "output_fp"). cbn. intros [Heq|[]]. discriminate Heq.
Defined.

Lemma first_input_handler_decides_witness :
  CLInterface.apply_in_handlers (world_of shouting_interface []) =
    (Ok shouted_values,
     world_of (CLInterface.set_BelovedFunctionality shouted_values
                 shouting_interface) []).
Proof.
  destruct (first_input_handler_decides shouting_interface []
              [("verbose", seeded_verbose)] [] "input_fp"
              (snd shouting_input) shout eq_refl eq_refl eq_refl)
    as (_ & _ & Hreturns).
  exact (Hreturns (PyStr "in.txt") (PyStr "IN.TXT") eq_refl eq_refl eq_refl).
Defined.

(* ===================================================================== *)
(** * An invocation that passes every check                               *)
(* ===================================================================== *)

Lemma apply_in_handlers_returns self out kw w' :
  CLInterface.apply_in_handlers (world_of self out) = (Ok kw, w') ->
  w' = world_of (CLInterface.set_BelovedFunctionality kw self) out.
Proof.
  rewrite apply_in_handlers_unfold. unfold bind at 1.
  destruct (for_each (CLInterface.ParameterConversionInfo self) in_handler_one
              (world_of self out)) as [[[]|e] w1] eqn:Hloop; [|discriminate].
  destruct (in_handler_loop_returns _ self out w1 Hloop) as (bf & -> & _).
  cbn. now intros [= <- <-].
Qed.

(** Let the parser return values and left-over arguments that pass the
    positional and the required checks, and let the input handlers
    return [kw] from them. Then the command is called once, with [kw] as
    its keyword arguments, after what the parser printed. If it raises,
    the invocation raises the same and no output handler is called. If
    it returns results for which every output handler is served, the
    invocation returns, the handlers' calls follow the command's in the
    order of the output map, and nothing else is output. Either way the
    instance is left holding [kw]. *)
Theorem accepted_input_reaches_command_and_handlers
    (dest : OptparseOption.t -> string)
    (parse_args : OptionParser.t -> list string ->
                  list string * res (gmap string pyval * list string))
    (self : CLInterface.t) (argv printed args : list string)
    (opts kw : gmap string pyval) (w' : CLInterface.world) :
  let ids :=
    CLInterface.required_option_ids dest (CLInterface.required_opts self) in
  let held := CLInterface.set_BelovedFunctionality kw self in
  reaches_required_check self argv args ->
  parse_args (CLInterface.full_parser self) argv = (printed, Ok (opts, args)) ->
  Forall (fun id => is_Some (opts !! id)) ids ->
  (forall id, id ∈ ids -> opts !! id <> Some PyNone) ->
  CLInterface.apply_in_handlers
    (world_of (CLInterface.set_BelovedFunctionality opts self)
              (map ELibrary printed)) = (Ok kw, w') ->
  (forall e,
     Command.run (CLInterface.CmdInstance self) kw = Raise e ->
     CLInterface.invoke dest parse_args self (InList argv) =
       (Raise e, (map ELibrary printed ++ [ECommand kw])%list, held)) /\
  (forall results evs,
     Command.run (CLInterface.CmdInstance self) kw = Ok results ->
     Forall2 (served held results) (CLInterface.output_map self) evs ->
     CLInterface.invoke dest parse_args self (InList argv) =
       (Ok tt, (map ELibrary printed ++ ECommand kw :: evs)%list, held)).
Proof.
  intros ids held [Hhelp Hpos] Hparse Hpresent Hset Hhandlers.
  pose proof (apply_in_handlers_returns _ _ _ _ Hhandlers) as Hw'.
  rewrite set_BelovedFunctionality_twice in Hw'. fold held in Hw'.
  assert (Hinput :
    CLInterface._input_handler dest parse_args argv (world_of self []) =
      (Ok kw, world_of held (map ELibrary printed))).
  { rewrite (input_handler_after_parse dest parse_args self [] argv printed
               opts args Hhelp Hparse).
    cbn [app].
    assert (Hafter :
      after_positional dest self opts (world_of self (map ELibrary printed)) =
        (Ok kw, world_of held (map ELibrary printed))).
    { rewrite (after_positional_outcome dest self opts _ Hpresent).
      fold ids. rewrite (proj2 (first_unset_None opts ids) Hset).
      rewrite Hhandlers. now rewrite Hw'. }
    destruct args as [|first rest]; [exact Hafter|].
    destruct Hpos as [-> | Hnil]; [exact Hafter | discriminate Hnil]. }
  assert (Hcall : forall out,
    CLInterface.call_command kw (world_of held out) =
      (Command.run (CLInterface.CmdInstance self) kw,
       world_of held (out ++ [ECommand kw]))) by reflexivity.
  rewrite invoke_after_input, Hinput. unfold bind. rewrite Hcall.
  split.
  - intros e ->. reflexivity.
  - intros results evs -> Hserved.
    rewrite output_handler_unfold.
    rewrite <- (app_nil_r (CLInterface.output_map held)).
    rewrite (dispatch_served_prefix held results _ evs [] _ Hserved).
    cbn [for_each ret CLInterface.out CLInterface.self_ world_of].
    now rewrite <- app_assoc.
Qed.

Lemma accepted_input_reaches_command_and_handlers_witness :
  Demo.run Demo.interface ["-i"; "in.txt"; "-o"; "out.txt"] =
    (Ok tt,
     [ECommand Demo.values_with_output;
      EHandler "copied" (PyStr "in.txt") (Some (PyStr "out.txt"));
      EHandler "count" (PyInt 1) None],
     CLInterface.set_BelovedFunctionality Demo.values_with_output
       Demo.interface).
Proof.
  assert (Hne : ["-i"; "in.txt"; "-o"; "out.txt"] <> @nil string)
    by discriminate.
  assert (Hparse :
    Demo.parse_args (CLInterface.full_parser Demo.interface)
      ["-i"; "in.txt"; "-o"; "out.txt"] =
      ([], Ok (Demo.values_with_output, [])))
    by (vm_compute; reflexivity).
  assert (Hpresent :
    Forall (fun id => is_Some (Demo.values_with_output !! id))
      (CLInterface.required_option_ids Demo.dest
         (CLInterface.required_opts Demo.interface))).
  { repeat constructor; eexists; reflexivity. }
  assert (Hset : forall id,
    id ∈ CLInterface.required_option_ids Demo.dest
           (CLInterface.required_opts Demo.interface) ->
    Demo.values_with_output !! id <> Some PyNone).
  { intros id Hin.
    apply elem_of_cons in Hin as [-> | Hin]; [discriminate|].
    apply elem_of_cons in Hin as [-> | Hin]; [discriminate|].
    now apply elem_of_nil in Hin. }
  destruct (accepted_input_reaches_command_and_handlers Demo.dest
              Demo.parse_args Demo.interface
              ["-i"; "in.txt"; "-o"; "out.txt"] [] []
              Demo.values_with_output Demo.values_with_output _
              (conj (or_intror Hne) (or_intror eq_refl))
              Hparse Hpresent Hset eq_refl)
    as [_ Hreturns].
  apply (Hreturns Demo.results).
  - reflexivity.
  - constructor; [|constructor; [|constructor]].
    + exists (PyStr "in.txt"). split; [reflexivity|].
      exists (PyStr "out.txt"). repeat split; reflexivity.
    + exists (PyInt 1). split; [reflexivity|]. split; reflexivity.
Defined.

(* ===================================================================== *)
(** * clmain                                                              *)
(* ===================================================================== *)

(** [clmain] never hands the first argument, the program name, to the
    instance. With help-on-no-arguments enabled, a command line of the
    program name alone - or an empty one - prints the usage text and
    ends in [SystemExit(-1)], whatever the parser would do. When the
    construction of the interface object raises, [clmain] raises the
    same and nothing is output. And whatever [clmain] returns is [0]. *)
Theorem clmain_without_arguments_prints_usage
    (dest : OptparseOption.t -> string)
    (parse_args : OptionParser.t -> list string ->
                  list string * res (gmap string pyval * list string)) :
  (forall (cli_cmd : CLInterface.t) (local_argv : list string),
     CLInterface.HelpOnNoArguments cli_cmd = true ->
     (length local_argv <= 1)%nat ->
     clmain dest parse_args (Ok cli_cmd) local_argv =
       (Raise (SystemExit (-1)), [EPrintUsage false (usage_of cli_cmd)])) /\
  (forall (e : exc) (local_argv : list string),
     clmain dest parse_args (Raise e) local_argv = (Raise e, [])) /\
  (forall interface_object local_argv status out,
     clmain dest parse_args interface_object local_argv = (Ok status, out) ->
     status = 0%Z).
Proof.
  split; [|split].
  - intros cli_cmd local_argv Hhelp Hlen.
    assert (Htail : tail local_argv = []).
    { destruct local_argv as [|prog [|a rest]]; [reflexivity..|].
      cbn in Hlen. lia. }
    unfold clmain. rewrite Htail.
    rewrite (invoke_input_raises dest parse_args cli_cmd []
               (SystemExit (-1)) cli_cmd
               [EPrintUsage false (usage_of cli_cmd)]
               (input_handler_help dest parse_args cli_cmd [] Hhelp)).
    reflexivity.
  - reflexivity.
  - intros [cli_cmd|e] local_argv status out; unfold clmain; [|discriminate].
    destruct (CLInterface.invoke dest parse_args cli_cmd
                (InList (tail local_argv))) as [[[[]|e] evs] self'];
      cbn; [|discriminate].
    now intros [= <- _].
Qed.

(* ===================================================================== *)
(** * new_filepath, twice                                                 *)
(* ===================================================================== *)

(** Two calls of [new_filepath] on one path never both write, whatever
    the file system holds and whatever [open] refuses. The sequence
    never returns: it ends in an [IOError], and when the first call
    returned it is the second call's error that the path already
    exists. The data of the second call is never written: afterwards
    the file system is as it was, or differs in that the path, which
    named nothing, now names a file with the data of the first call. *)
Theorem second_write_to_a_path_is_refused
    (refusal : gmap string node -> string -> option string)
    (first second path : string) (fs : gmap string node) :
  exists msg fs',
    write_twice refusal first second path fs = (Raise (IOError msg), fs') /\
    (fs' = fs \/
     (fs !! path = None /\ fs' = <[path := File first]> fs /\
      msg = "Output path " ++ path ++ " already exists.")) /\
    (forall fs1, new_filepath refusal first path fs = (Ok tt, fs1) ->
       msg = "Output path " ++ path ++ " already exists." /\
       fs' = fs1 /\ fs' !! path = Some (File first)) /\
    (forall other, other <> path -> fs' !! other = fs !! other).
Proof.
  unfold write_twice, bind.
  destruct (fs !! path) as [held|] eqn:Hpath.
  - exists ("Output path " ++ path ++ " already exists."), fs.
    rewrite (new_filepath_existing refusal first path fs)
      by (rewrite Hpath; now exists held).
    split; [reflexivity|]. split; [now left|]. split; [discriminate|].
    reflexivity.
  - destruct (refusal fs path) as [msg|] eqn:Hopen.
    + exists msg, fs.
      rewrite (new_filepath_refused refusal first path fs msg Hpath Hopen).
      split; [reflexivity|]. split; [now left|]. split; [discriminate|].
      reflexivity.
    + exists ("Output path " ++ path ++ " already exists."),
             (<[path := File first]> fs).
      rewrite (new_filepath_fresh refusal first path fs Hpath Hopen).
      rewrite new_filepath_existing
        by (exists (File first); apply lookup_insert_eq).
      split; [reflexivity|]. split; [right; now repeat split|]. split.
      * intros fs1 [= <-]. split; [reflexivity|]. split; [reflexivity|].
        apply lookup_insert_eq.
      * intros other Hne. apply lookup_insert_ne. congruence.
Qed.

(* ===================================================================== *)
(** * More ways an invocation ends                                        *)
(* ===================================================================== *)

(** When [parse_args] raises - a usage error of the parser's own, its
    exit after help or version - the invocation raises the same, after
    what the parser printed and nothing else: no command is called, and
    the instance is as it was. *)
Theorem parser_failure_ends_the_invocation
    (dest : OptparseOption.t -> string)
    (parse_args : OptionParser.t -> list string ->
                  list string * res (gmap string pyval * list string))
    (self : CLInterface.t) (argv printed : list string) (e : exc) :
  CLInterface.HelpOnNoArguments self = false \/ argv <> [] ->
  parse_args (CLInterface.full_parser self) argv = (printed, Raise e) ->
  CLInterface.invoke dest parse_args self (InList argv) =
    (Raise e, map ELibrary printed, self).
Proof.
  intros Hreach Hparse. apply invoke_input_raises.
  exact (input_handler_parse_raises dest parse_args self [] argv printed e
           Hreach Hparse).
Qed.

Lemma parser_failure_ends_the_invocation_witness :
  Demo.run Demo.interface ["--bogus"] =
    (Raise (SystemExit 2), [ELibrary "no such option: --bogus"],
     Demo.interface).
Proof.
  assert (Hne : ["--bogus"] <> @nil string) by discriminate.
  exact (parser_failure_ends_the_invocation Demo.dest Demo.parse_args
           Demo.interface ["--bogus"] ["no such option: --bogus"]
           (SystemExit 2) (or_intror Hne) eq_refl).
Defined.

(** An input that is not a list is refused by [_the_in_validator] before
    anything else happens: the invocation raises, nothing is output, the
    parser is not consulted, and the instance is as it was. What is
    raised is [IncompetentDeveloperError] with the [repr] of the input
    in its message; for a tuple of one item the message has the [repr]
    of that item instead, and for a tuple of any other length building
    the message raises [TypeError]. *)
Theorem input_that_is_no_list_is_refused
    (dest : OptparseOption.t -> string)
    (parse_args : OptionParser.t -> list string ->
                  list string * res (gmap string pyval * list string))
    (self : CLInterface.t) :
  (forall repr,
     CLInterface.invoke dest parse_args self (InOther repr) =
       (Raise (IncompetentDeveloperError
                 ("Unsupported input '" ++ repr ++
                  "'. Input must be a list.")),
        [], self)) /\
  (forall item,
     CLInterface.invoke dest parse_args self (InTuple [item]) =
       (Raise (IncompetentDeveloperError
                 ("Unsupported input '" ++ item ++
                  "'. Input must be a list.")),
        [], self)) /\
  (forall items,
     length items <> 1%nat ->
     CLInterface.invoke dest parse_args self (InTuple items) =
       (Raise (OtherError "TypeError"), [], self)) /\
  (forall in_,
     (forall argv, in_ <> InList argv) ->
     exists e,
       CLInterface.invoke dest parse_args self in_ = (Raise e, [], self)).
Proof.
  split; [reflexivity|]. split; [reflexivity|]. split.
  - intros [|item [|item' items]] Hlen; [reflexivity| |reflexivity].
    now contradiction Hlen.
  - intros [argv|[|item [|item' items]]|repr] Hno;
      [now contradiction (Hno argv)|..]; eexists; reflexivity.
Qed.

(** The handlers before it being served, a handler whose key is among
    the results but which is not served ends the dispatch, and the
    handlers after it are not called. If it names an option that has no
    parsed value, the dispatch raises [KeyError] for that option and the
    handler's function is not called; if its function raises, the
    dispatch raises the same after that one call. *)
Theorem output_dispatch_stops_at_a_failing_handler
    (self : CLInterface.t) (results : gmap string pyval) (out : list event)
    (pre post : list (string * OutputHandler.t)) (evs : list event)
    (k : string) (handler : OutputHandler.t) (value : pyval) :
  Forall2 (served self results) pre evs ->
  CLInterface.output_map self = (pre ++ (k, handler) :: post)%list ->
  results !! k = Some value ->
  (forall option_name,
     OutputHandler.OptionName handler = Some option_name ->
     CLInterface.BelovedFunctionality self !! option_name = None ->
     CLInterface._output_handler results (world_of self out) =
       (Raise (KeyError option_name), world_of self (out ++ evs))) /\
  (forall e,
     OutputHandler.OptionName handler = None ->
     OutputHandler.Function handler k value None = Raise e ->
     CLInterface._output_handler results (world_of self out) =
       (Raise e, world_of self (out ++ evs ++ [EHandler k value None]))) /\
  (forall option_name opt_value e,
     OutputHandler.OptionName handler = Some option_name ->
     CLInterface.BelovedFunctionality self !! option_name = Some opt_value ->
     OutputHandler.Function handler k value (Some opt_value) = Raise e ->
     CLInterface._output_handler results (world_of self out) =
       (Raise e,
        world_of self (out ++ evs ++ [EHandler k value (Some opt_value)]))).
Proof.
  intros Hpre Hmap Hvalue.
  assert (Hgo :
    CLInterface._output_handler results (world_of self out) =
    bind (dispatch_one results (k, handler))
         (fun _ => for_each post (dispatch_one results))
         (world_of self (out ++ evs))).
  { rewrite output_handler_unfold, Hmap.
    now rewrite (dispatch_served_prefix self results pre evs _ out Hpre). }
  rewrite Hgo. clear Hgo.
  split; [|split].
  - intros option_name Hname Hunset.
    unfold bind at 1. unfold dispatch_one at 1. cbn [fst snd].
    rewrite Hvalue, Hname. unfold bind at 1.
    cbn [CLInterface.get_self CLInterface.self_ world_of].
    rewrite Hunset. reflexivity.
  - intros e Hname He.
    unfold bind at 1. unfold dispatch_one at 1. cbn [fst snd].
    rewrite Hvalue, Hname. unfold bind at 1.
    unfold CLInterface.emit, modify, lift. rewrite He.
    cbn [CLInterface.self_ CLInterface.out world_of].
    unfold world_of. now rewrite app_assoc.
  - intros option_name opt_value e Hname Hset He.
    unfold bind at 1. unfold dispatch_one at 1. cbn [fst snd].
    rewrite Hvalue, Hname. unfold bind at 1.
    cbn [CLInterface.get_self CLInterface.self_ world_of].
    rewrite Hset. unfold bind at 1.
    unfold CLInterface.emit, modify, lift. rewrite He.
    cbn [CLInterface.self_ CLInterface.out world_of].
    unfold world_of. now rewrite app_assoc.
Qed.

Lemma output_dispatch_stops_at_a_failing_handler_witness :
  CLInterface._output_handler Demo.results (world_of Demo.interface []) =
    (Raise (KeyError "output_fp"), world_of Demo.interface []).
Proof.
  assert (Hnone : Forall2 (served Demo.interface Demo.results) [] [])
    by constructor.
  exact (proj1 (output_dispatch_stops_at_a_failing_handler Demo.interface
                  Demo.results [] [] [("count", Demo.quiet)] []
                  "copied" Demo.to_output_fp (PyStr "in.txt")
                  Hnone eq_refl eq_refl)
               "output_fp" eq_refl eq_refl).
Defined.

(* ===================================================================== *)
(** * The parser that is built                                            *)
(* ===================================================================== *)

Lemma filter_partition_Permutation {A} (f : A -> bool) (l : list A) :
  Permutation (List.filter f l ++ List.filter (fun x => negb (f x)) l) l.
Proof.
  induction l as [|x l IH]; [reflexivity|].
  cbn [List.filter]. destruct (f x); cbn [negb app].
  - now constructor.
  - symmetry. apply Permutation_cons_app. now symmetry.
Qed.

Lemma filter_nil_iff {A} (f : A -> bool) (l : list A) :
  List.filter f l = [] <-> forall x, x ∈ l -> f x = false.
Proof.
  induction l as [|x l IH]; cbn [List.filter].
  - split; [|reflexivity]. intros _ x Hx. now apply elem_of_nil in Hx.
  - destruct (f x) eqn:Hfx.
    + split; [discriminate|]. intros Hall.
      rewrite (Hall x) in Hfx by apply list_elem_of_here. discriminate.
    + rewrite IH. split.
      * intros Hall y Hy. apply elem_of_cons in Hy as [-> | Hy];
          [exact Hfx | now apply Hall].
      * intros Hall y Hy. apply Hall. now apply list_elem_of_further.
Qed.

(** The parser handed to [parse_args] holds every option of the
    instance exactly once. There is at most one option group, and none
    exactly when no option is required; the group is titled
    ["REQUIRED options"] and holds the options that are required, and
    only those, in their order. The options on the parser itself are
    those that are not required, in their order. *)
Theorem parser_holds_every_option_once (self : CLInterface.t) :
  let parser := CLInterface.full_parser self in
  let options := CLInterface.Options self in
  let groups := OptionParser.option_groups parser in
  (length groups <= 1)%nat /\
  (groups = [] <-> forall o, o ∈ options -> CLOption.Required o = false) /\
  (forall g, g ∈ groups ->
     OptionParser.title g = "REQUIRED options" /\
     OptionParser.description g =
       "The following options must be provided under all circumstances." /\
     OptionParser.group_option_list g =
       map CLOption.getOptparseOption
           (List.filter (fun o => CLOption.Required o) options)) /\
  OptionParser.option_list parser =
    map CLOption.getOptparseOption
        (List.filter (fun o => negb (CLOption.Required o)) options) /\
  Permutation
    (concat (map OptionParser.group_option_list groups) ++
     OptionParser.option_list parser)
    (map CLOption.getOptparseOption options).
Proof.
  cbv zeta. unfold CLInterface.full_parser, CLInterface.add_options,
    CLInterface.required_opts, CLInterface.optional_opts.
  cbn [OptionParser.usage OptionParser.option_groups OptionParser.option_list
       CLInterface.new_parser app].
  pose proof (filter_partition_Permutation CLOption.Required
                (CLInterface.Options self)) as Hall.
  pose proof (filter_nil_iff CLOption.Required (CLInterface.Options self))
    as Hnone.
  change (List.filter (fun o => CLOption.Required o) (CLInterface.Options self))
    with (List.filter CLOption.Required (CLInterface.Options self)).
  destruct (List.filter CLOption.Required (CLInterface.Options self))
    as [|ro rest] eqn:Hreq.
  - split; [cbn; lia|]. split; [split; [intros _; now apply Hnone | reflexivity]|].
    split; [intros g Hg; now apply elem_of_nil in Hg|].
    split; [reflexivity|].
    cbn [map concat app]. cbn [app] in Hall.
    now apply Permutation_map.
  - split; [cbn; lia|]. split.
    { split; [discriminate|]. intros Hno. now apply Hnone in Hno. }
    split.
    { intros g Hg. apply list_elem_of_singleton in Hg. subst g.
      repeat split. }
    split; [reflexivity|].
    cbn [map concat OptionParser.group_option_list].
    rewrite app_nil_r.
    change (CLOption.getOptparseOption ro ::
            map CLOption.getOptparseOption rest)
      with (map CLOption.getOptparseOption (ro :: rest)).
    rewrite <- map_app. now apply Permutation_map.
Qed.
